(** * nekro-plugin-block: block records, expiry bookkeeping and handlers

    A shallow embedding of the plugin's Python sources
    ([models.py], [utils.py], [methods.py], [plugin.py]) together with
    the properties its specification states about them.

    Conventions of the embedding:
    - a Python [int] is a [Z]; [//] and [%] are [Z.div] and [Z.modulo]
      (both round towards minus infinity for a positive divisor);
    - [Optional[int]] is [option Z]; the truthiness test [if x:] on such a
      value is [py_truthy], false on [None] and on [0];
    - a Python [dict] keyed by strings is an association list in insertion
      order whose keys are pairwise distinct ([PyDict.keys_unique]);
    - an [async] handler is a computation in a state-and-exception monad
      over the [World] the plugin talks to (clock, blob store, user
      directory, log), every external call leaving an [Event] in a trace. *)

From Stdlib Require Import ZArith Lia Ascii String.
From stdpp Require Import base list strings gmap pretty.

Local Open Scope string_scope.
Local Open Scope list_scope.
Local Open Scope Z_scope.

(** ** Python values *)

(** Truthiness of an [Optional[int]]: [None] and [0] are falsy. *)
Definition py_truthy (x : option Z) : bool :=
  match x with
  | Some v => negb (v =? 0)
  | None => false
  end.

(** Exceptions the modelled code can raise. *)
Inductive exn : Type :=
  | KeyError (key : string)
  | ValidationError (data : string)
  | OverflowError (timestamp : Z)
  | AssertionError
  | DbError.

Inductive Result (A : Type) : Type :=
  | Ok (a : A)
  | Raise (e : exn).
Arguments Ok {A} a.
Arguments Raise {A} e.

(** ** Insertion-ordered dictionaries with string keys *)

Module PyDict.
Section Dict.
Context {V : Type}.

Definition dict : Type := list (string * V).

(** [d.get(k)] *)
Fixpoint get (k : string) (d : dict) : option V :=
  match d with
  | [] => None
  | (k', v) :: d' => if decide (k = k') then Some v else get k d'
  end.

(** [k in d] *)
Definition contains (k : string) (d : dict) : bool :=
  match get k d with Some _ => true | None => false end.

(** [d[k] = v]: an existing key keeps its position, a new one goes last. *)
Fixpoint setitem (k : string) (v : V) (d : dict) : dict :=
  match d with
  | [] => [(k, v)]
  | (k', v') :: d' =>
      if decide (k = k') then (k, v) :: d' else (k', v') :: setitem k v d'
  end.

(** [del d[k]]: raises [KeyError] when the key is absent. *)
Fixpoint delitem (k : string) (d : dict) : Result dict :=
  match d with
  | [] => Raise (KeyError k)
  | (k', v') :: d' =>
      if decide (k = k') then Ok d'
      else match delitem k d' with
           | Ok d'' => Ok ((k', v') :: d'')
           | Raise e => Raise e
           end
  end.

Definition keys (d : dict) : list string := d.*1.

(** [d] without the items whose key is in [ks]. *)
Definition without (ks : list string) (d : dict) : dict :=
  List.filter (fun kv => negb (bool_decide (kv.1 ∈ ks))) d.

(** The representation invariant of a dictionary. *)
Definition keys_unique (d : dict) : Prop := NoDup (keys d).

End Dict.
Arguments dict V : clear implicits.
End PyDict.

(** ** models.py *)

Inductive BlockType : Type :=
  | PREVENT_TRIGGER
  | FULL_BLOCK.

Global Instance BlockType_eq_dec : EqDecision BlockType.
Proof. solve_decision. Defined.

Record BlockRecord : Type := mkBlockRecord {
  user_id : string;
  username : string;
  block_type : BlockType;
  reason : string;
  start_time : Z;
  expire_time : option Z;
  is_permanent : bool;
}.

Record BlockData : Type := mkBlockData {
  blocks : PyDict.dict BlockRecord;
}.

(** [BlockData()] *)
Definition BlockData_empty : BlockData := {| blocks := [] |}.

Definition add_block (self : BlockData) (record : BlockRecord) : BlockData :=
  {| blocks := PyDict.setitem (user_id record) record (blocks self) |}.

(** [remove_block] returns the updated collection and the boolean result. *)
Definition remove_block (self : BlockData) (user_id : string)
  : Result (BlockData * bool) :=
  if PyDict.contains user_id (blocks self) then
    match PyDict.delitem user_id (blocks self) with
    | Ok d => Ok ({| blocks := d |}, true)
    | Raise e => Raise e
    end
  else Ok (self, false).

Definition get_block (self : BlockData) (user_id : string) : option BlockRecord :=
  PyDict.get user_id (blocks self).

Definition is_blocked (self : BlockData) (user_id : string) : bool :=
  PyDict.contains user_id (blocks self).

(** The condition of the loop of [get_active_blocks]:
    [record.is_permanent or (record.expire_time and record.expire_time > current_time)]. *)
Definition active_cond (record : BlockRecord) (current_time : Z) : bool :=
  is_permanent record
  || (py_truthy (expire_time record)
      && match expire_time record with
         | Some e => e >? current_time
         | None => false
         end).

Definition get_active_blocks (self : BlockData) (current_time : Z)
  : PyDict.dict BlockRecord :=
  fold_left
    (fun active '(user_id, record) =>
       if active_cond record current_time
       then PyDict.setitem user_id record active
       else active)
    (blocks self) [].

(** The condition of the first loop of [cleanup_expired]:
    [not record.is_permanent and record.expire_time and record.expire_time <= current_time]. *)
Definition expired_cond (record : BlockRecord) (current_time : Z) : bool :=
  negb (is_permanent record)
  && py_truthy (expire_time record)
  && match expire_time record with
     | Some e => e <=? current_time
     | None => false
     end.

(** The second loop of [cleanup_expired]: [del self.blocks[user_id]] for
    each collected key. *)
Fixpoint delete_all (expired_users : list string) (d : PyDict.dict BlockRecord)
  : Result (PyDict.dict BlockRecord) :=
  match expired_users with
  | [] => Ok d
  | user_id :: rest =>
      match PyDict.delitem user_id d with
      | Ok d' => delete_all rest d'
      | Raise e => Raise e
      end
  end.

(** [cleanup_expired] mutates [self] and returns a count; here it returns
    the updated collection together with the count. *)
Definition cleanup_expired (self : BlockData) (current_time : Z)
  : Result (BlockData * Z) :=
  let expired_users :=
    fold_left
      (fun expired_users '(user_id, record) =>
         if expired_cond record current_time
         then expired_users ++ [user_id]
         else expired_users)
      (blocks self) [] in
  match delete_all expired_users (blocks self) with
  | Ok d => Ok ({| blocks := d |}, Z.of_nat (length expired_users))
  | Raise e => Raise e
  end.

(** ** plugin.py: the configuration *)

Record BlockConfig : Type := mkBlockConfig {
  ENABLE_PREVENT_TRIGGER : bool;
  ENABLE_FULL_BLOCK : bool;
  MAX_BLOCK_SECONDS : Z;
  DEFAULT_BLOCK_SECONDS : Z;
  ALLOW_PERMANENT_BLOCK : bool;
  SHOW_BLOCKED_USERS_IN_PROMPT : bool;
  MAX_PROMPT_DISPLAY_COUNT : Z;
}.

(** The [ge]/[le] bounds of the [Field] declarations of [BlockConfig]. *)
Definition config_valid (c : BlockConfig) : Prop :=
  0 <= MAX_BLOCK_SECONDS c <= 2592000
  /\ 60 <= DEFAULT_BLOCK_SECONDS c <= 604800
  /\ 1 <= MAX_PROMPT_DISPLAY_COUNT c <= 20.

(** The [default] values of the [Field] declarations. *)
Definition default_config : BlockConfig :=
  {| ENABLE_PREVENT_TRIGGER := true;
     ENABLE_FULL_BLOCK := true;
     MAX_BLOCK_SECONDS := 259200;
     DEFAULT_BLOCK_SECONDS := 86400;
     ALLOW_PERMANENT_BLOCK := false;
     SHOW_BLOCKED_USERS_IN_PROMPT := true;
     MAX_PROMPT_DISPLAY_COUNT := 5 |}.

(** ** The host: external collaborators of the plugin *)

(** A [datetime], represented by the epoch second it was built from. *)
Definition datetime : Type := Z.

(** Modelled from the spec: the external user entity of the host directory
    ([nekro_agent.models.db_user.DBUser]), which "exposes an identity key, a
    display name, and two mutable optional-timestamp fields
    ([prevent_trigger_until], [ban_until]), plus a [save()] that persists
    it". [pk] is the row the entity was loaded from. *)
Module DBUser.
Record t : Type := mk {
  pk : Z;
  adapter_key : string;
  platform_userid : string;
  unique_id : string;
  username : string;
  prevent_trigger_until : option datetime;
  ban_until : option datetime;
}.

Definition set_prevent_trigger_until (u : t) (v : option datetime) : t :=
  {| pk := pk u; adapter_key := adapter_key u;
     platform_userid := platform_userid u; unique_id := unique_id u;
     username := username u;
     prevent_trigger_until := v; ban_until := ban_until u |}.

Definition set_ban_until (u : t) (v : option datetime) : t :=
  {| pk := pk u; adapter_key := adapter_key u;
     platform_userid := platform_userid u; unique_id := unique_id u;
     username := username u;
     prevent_trigger_until := prevent_trigger_until u; ban_until := v |}.
End DBUser.

Module AgentCtx.
Record t : Type := mk {
  adapter_key : string;
  chat_key : string;
}.
End AgentCtx.

(** Modelled from the spec: a blob of the scoped store
    ([get(scope, key) -> bytes|absent], [set(scope, key, bytes)]). A blob is
    either the serialization of a collection ([model_dump_json], read back
    field for field by [model_validate_json], the round trip of the
    specification) or some other text, which does not validate. *)
Inductive Blob : Type :=
  | Json (data : BlockData)
  | Text (s : string).

(** [if data:] on a stored string. *)
Definition blob_truthy (b : Blob) : bool :=
  match b with
  | Json _ => true
  | Text s => negb (bool_decide (s = ""))
  end.

Definition model_dump_json (data : BlockData) : Blob := Json data.

Definition model_validate_json (b : Blob) : Result BlockData :=
  match b with
  | Json data => Ok data
  | Text s => Raise (ValidationError s)
  end.

Inductive LogLevel : Type := INFO | WARNING.

(** What the plugin asks of the host, in the order it asks. *)
Inductive Event : Type :=
  | EvStoreGet (chat_key : string)
  | EvStoreSet (chat_key : string) (value : Blob)
  | EvDbQuery (adapter_key platform_userid : string)
  | EvDbSave (user : DBUser.t)
  | EvLog (level : LogLevel) (message : string).

(** The state the handlers run against. [clock] lists the successive
    readings of [int(time.time())], [ticks] counts the readings taken. *)
Record World : Type := mkWorld {
  clock : nat -> Z;
  ticks : nat;
  store : gmap string Blob;
  users : list DBUser.t;
  trace : list Event;
}.

Definition tick (w : World) : World :=
  {| clock := clock w; ticks := S (ticks w); store := store w;
     users := users w; trace := trace w |}.

Definition emit (ev : Event) (w : World) : World :=
  {| clock := clock w; ticks := ticks w; store := store w;
     users := users w; trace := trace w ++ [ev] |}.

Definition with_store (s : gmap string Blob) (w : World) : World :=
  {| clock := clock w; ticks := ticks w; store := s;
     users := users w; trace := trace w |}.

Definition with_users (us : list DBUser.t) (w : World) : World :=
  {| clock := clock w; ticks := ticks w; store := store w;
     users := us; trace := trace w |}.

(** Modelled from the spec: the parts of the host that can fail inside the
    system-effect adapter ("any failure during resolution or persistence is
    caught"): the conversion of a timestamp and the persisting of an entity. *)
Record Host : Type := mkHost {
  fromtimestamp : Z -> Result datetime;
  save_ok : DBUser.t -> bool;
}.

(** ** The monad of the handlers: state and exceptions *)

Definition M (A : Type) : Type := World -> Result A * World.

Definition ret {A} (a : A) : M A := fun w => (Ok a, w).

Definition bind {A B} (m : M A) (k : A -> M B) : M B :=
  fun w =>
    match m w with
    | (Ok a, w') => k a w'
    | (Raise e, w') => (Raise e, w')
    end.

Definition raise {A} (e : exn) : M A := fun w => (Raise e, w).

(** A pure computation that may raise. *)
Definition lift {A} (r : Result A) : M A := fun w => (r, w).

(** [try: m  except Exception as e: h e]; what [m] did before raising stays. *)
Definition try_except {A} (m : M A) (h : exn -> M A) : M A :=
  fun w =>
    match m w with
    | (Ok a, w') => (Ok a, w')
    | (Raise e, w') => h e w'
    end.

Notation "'let*' x ':=' c 'in' k" := (bind c (fun x => k))
  (at level 10, x pattern, c at level 100, k at level 200).
Notation "c ';;' k" := (bind c (fun _ => k))
  (at level 100, k at level 200, right associativity).

Fixpoint mapM {A B} (f : A -> M B) (l : list A) : M (list B) :=
  match l with
  | [] => ret []
  | x :: l' =>
      let* y := f x in
      let* ys := mapM f l' in
      ret (y :: ys)
  end.

(** [int(time.time())] *)
Definition time_now : M Z :=
  fun w => (Ok (clock w (ticks w)), tick w).

Definition store_get (chat_key : string) : M (option Blob) :=
  fun w => (Ok (store w !! chat_key), emit (EvStoreGet chat_key) w).

Definition store_set (chat_key : string) (value : Blob) : M unit :=
  fun w =>
    (Ok tt, emit (EvStoreSet chat_key value)
              (with_store (<[chat_key := value]> (store w)) w)).

Definition logger (level : LogLevel) (message : string) : M unit :=
  fun w => (Ok tt, emit (EvLog level message) w).

Definition same_user (adapter_key platform_userid : string) (u : DBUser.t) : bool :=
  bool_decide (DBUser.adapter_key u = adapter_key)
  && bool_decide (DBUser.platform_userid u = platform_userid).

(** Modelled from the spec: [DBUser.get_or_none(adapter_key=...,
    platform_userid=...)] of the handlers, where the query returns: the row
    of the pair, or nobody. On a directory with several rows for one pair
    the query of the host raises instead; the statements about the handlers
    take the row that was found as a hypothesis and say nothing of such a
    run. *)
Definition DBUser_get_or_none (adapter_key platform_userid : string)
  : M (option DBUser.t) :=
  fun w =>
    (Ok (List.find (same_user adapter_key platform_userid) (users w)),
     emit (EvDbQuery adapter_key platform_userid) w).

(** Modelled from the spec: [DBUser.get_by_union_id(adapter_key,
    platform_userid)], the same query with its failure: several rows for
    one pair make it raise, which the [except] of [get_user_by_unique_id]
    is there to catch. *)
Definition DBUser_get_by_union_id (adapter_key platform_userid : string)
  : M (option DBUser.t) :=
  fun w =>
    match List.filter (same_user adapter_key platform_userid) (users w) with
    | _ :: _ :: _ => (Raise DbError, emit (EvDbQuery adapter_key platform_userid) w)
    | rows => (Ok (head rows), emit (EvDbQuery adapter_key platform_userid) w)
    end.

Definition put_user (u : DBUser.t) (us : list DBUser.t) : list DBUser.t :=
  List.map (fun v => if decide (DBUser.pk v = DBUser.pk u) then u else v) us.

(** ** Strings *)

Definition NL : string := String "010"%char "".

(** [s.split(sep, 1)] when it yields two parts: the text before the first
    separator and the text after it; [None] when [sep] does not occur. *)
Fixpoint split_once (sep : ascii) (s : string) : option (string * string) :=
  match s with
  | EmptyString => None
  | String c rest =>
      if decide (c = sep) then Some (EmptyString, rest)
      else match split_once sep rest with
           | Some (before, after) => Some (String c before, after)
           | None => None
           end
  end.

(** [len(x)] *)
Definition len {A} (l : list A) : Z := Z.of_nat (length l).

(** [l[:n]] *)
Definition slice_to {A} (l : list A) (n : Z) : list A :=
  if n <? 0 then take (Z.to_nat (len l + n)) l else take (Z.to_nat n) l.

(** [str(e)] of a caught exception. It only reaches the text of a warning
    in the log; for a validation error it stands for the text that the
    validation library makes of the blob it refused. *)
Definition exn_str (e : exn) : string :=
  match e with
  | KeyError k => k
  | ValidationError s => s
  | OverflowError t => pretty t
  | AssertionError => ""
  | DbError => "DbError"
  end.

Section Plugin.

Variable config : BlockConfig.
Variable host : Host.

(** [await user.save()] *)
Definition DBUser_save (u : DBUser.t) : M unit :=
  fun w =>
    if save_ok host u
    then (Ok tt, emit (EvDbSave u) (with_users (put_user u (users w)) w))
    else (Raise DbError, w).

(** ** utils.py *)

Definition get_block_data (chat_key : string) : M BlockData :=
  let* data := store_get chat_key in
  match data with
  | Some blob =>
      if blob_truthy blob then lift (model_validate_json blob)
      else ret BlockData_empty
  | None => ret BlockData_empty
  end.

Definition save_block_data (chat_key : string) (data : BlockData) : M unit :=
  store_set chat_key (model_dump_json data).

Definition get_user_by_unique_id (unique_id : string) : M (option DBUser.t) :=
  try_except
    (match split_once ":"%char unique_id with
     | None => ret None
     | Some (adapter_key, platform_userid) =>
         DBUser_get_by_union_id adapter_key platform_userid
     end)
    (fun _ => ret None).

Definition format_time_remaining (expire_time : option Z) : M string :=
  match expire_time with
  | None => ret "永久"
  | Some expire_time =>
      let* current_time := time_now in
      let remaining_seconds := expire_time - current_time in
      if remaining_seconds <=? 0 then ret "已过期"
      else
        let days := remaining_seconds / 86400 in
        let hours := (remaining_seconds mod 86400) / 3600 in
        let minutes := (remaining_seconds mod 3600) / 60 in
        if days >? 0 then ret (pretty days +:+ "天" +:+ pretty hours +:+ "小时")
        else if hours >? 0
        then ret (pretty hours +:+ "小时" +:+ pretty minutes +:+ "分钟")
        else ret (pretty minutes +:+ "分钟")
  end.

Definition calculate_expire_time (seconds : option Z) : M (option Z) :=
  match seconds with
  | None => ret None
  | Some seconds =>
      let seconds :=
        if MAX_BLOCK_SECONDS config >? 0
        then Z.min seconds (MAX_BLOCK_SECONDS config)
        else seconds in
      let* current_time := time_now in
      ret (Some (current_time + seconds))
  end.

Definition get_block_type_description (block_type : BlockType) : string :=
  match block_type with
  | PREVENT_TRIGGER => "禁止触发（可见但无法主动唤醒）"
  | FULL_BLOCK => "完全屏蔽（完全不可见）"
  end.

Definition apply_block_to_system
    (user_id : string) (block_type : BlockType) (expire_time : option Z)
  : M bool :=
  try_except
    (let* user := get_user_by_unique_id user_id in
     match user with
     | None => ret false
     | Some user =>
         let* expire_datetime :=
           if py_truthy expire_time
           then match expire_time with
                | Some e => let* d := lift (fromtimestamp host e) in ret (Some d)
                | None => ret None
                end
           else ret None in
         let user :=
           if decide (block_type = PREVENT_TRIGGER)
           then DBUser.set_prevent_trigger_until user expire_datetime
           else DBUser.set_ban_until user expire_datetime in
         DBUser_save user;;
         ret true
     end)
    (fun _ => ret false).

Definition remove_block_from_system (user_id : string) (block_type : BlockType)
  : M bool :=
  try_except
    (let* user := get_user_by_unique_id user_id in
     match user with
     | None => ret false
     | Some user =>
         let user :=
           if decide (block_type = PREVENT_TRIGGER)
           then DBUser.set_prevent_trigger_until user None
           else DBUser.set_ban_until user None in
         DBUser_save user;;
         ret true
     end)
    (fun _ => ret false).

(** ** methods.py *)

(** The readable duration of the confirmation message:
    [hours = duration_seconds // 3600], [minutes = (duration_seconds % 3600) // 60]. *)
Definition duration_desc (duration_seconds : Z) : string :=
  let hours := duration_seconds / 3600 in
  let minutes := (duration_seconds mod 3600) / 60 in
  if hours >? 0
  then (if minutes =? 0 then pretty hours +:+ "小时"
        else pretty hours +:+ "小时" +:+ pretty minutes +:+ "分钟")
  else pretty minutes +:+ "分钟".

(** [duration_seconds is None or duration_seconds < 0] *)
Definition none_or_negative (duration_seconds : option Z) : bool :=
  match duration_seconds with
  | None => true
  | Some d => d <? 0
  end.

(** The duration handling that opens both block handlers (the same lines in
    [block_user_prevent_trigger] and in [block_user_full]): it yields
    [is_permanent], [expire_time] and the rebound [duration_seconds]. *)
Definition resolve_duration (duration_seconds : option Z)
  : M (bool * option Z * option Z) :=
  if none_or_negative duration_seconds
  then
    if ALLOW_PERMANENT_BLOCK config then ret (true, None, None)
    else
      let duration_seconds := Some (DEFAULT_BLOCK_SECONDS config) in
      let* expire_time := calculate_expire_time duration_seconds in
      ret (false, expire_time, duration_seconds)
  else
    let* expire_time := calculate_expire_time duration_seconds in
    ret (false, expire_time, duration_seconds).

Definition block_user_prevent_trigger
    (_ctx : AgentCtx.t) (user_identifier : string) (reason : string)
    (duration_seconds : option Z) : M string :=
  if negb (ENABLE_PREVENT_TRIGGER config)
  then ret "❌ 禁止触发功能未启用，请联系管理员开启"
  else
    let* (is_permanent, expire_time, duration_seconds) :=
      resolve_duration duration_seconds in
    let* user :=
      DBUser_get_or_none (AgentCtx.adapter_key _ctx) user_identifier in
    match user with
    | None => ret ("❌ 未找到用户: " +:+ user_identifier)
    | Some user =>
        let user_id := DBUser.unique_id user in
        let* block_data := get_block_data (AgentCtx.chat_key _ctx) in
        match get_block block_data user_id with
        | Some existing_block =>
            ret ("⚠️ 用户 " +:+ DBUser.username user +:+ " 已经被"
                 +:+ get_block_type_description (block_type existing_block)
                 +:+ "，无需重复操作")
        | None =>
            let* now := time_now in
            let record :=
              {| user_id := user_id;
                 username := DBUser.username user;
                 block_type := PREVENT_TRIGGER;
                 reason := reason;
                 start_time := now;
                 expire_time := expire_time;
                 is_permanent := is_permanent |} in
            let block_data := add_block block_data record in
            save_block_data (AgentCtx.chat_key _ctx) block_data;;
            let* success :=
              apply_block_to_system user_id PREVENT_TRIGGER expire_time in
            if negb success
            then ret ("❌ 屏蔽用户 " +:+ DBUser.username user +:+ " 失败，请稍后重试")
            else
              let* (time_desc, log_time_desc) :=
                if is_permanent then ret ("永久", "永久")
                else match duration_seconds with
                     | None => raise AssertionError
                     | Some d =>
                         let time_desc := duration_desc d in
                         ret (time_desc,
                              time_desc +:+ "(" +:+ pretty d +:+ "秒)")
                     end in
              logger INFO
                ("[屏蔽插件] AI在聊天 " +:+ AgentCtx.chat_key _ctx
                 +:+ " 中屏蔽了用户 " +:+ DBUser.username user
                 +:+ "(" +:+ user_id +:+ ") - 禁止触发模式，时长: "
                 +:+ log_time_desc +:+ "，原因: " +:+ reason);;
              ret ("✅ 已将用户 " +:+ DBUser.username user
                   +:+ " 设置为禁止触发模式（时长: " +:+ time_desc +:+ "）"
                   +:+ NL +:+ "原因: " +:+ reason +:+ NL
                   +:+ "效果: 该用户无法直接唤醒我，但我在被其他消息唤醒时仍能看到他的消息")
        end
    end.

Definition block_user_full
    (_ctx : AgentCtx.t) (user_identifier : string) (reason : string)
    (duration_seconds : option Z) : M string :=
  if negb (ENABLE_FULL_BLOCK config)
  then ret "❌ 完全屏蔽功能未启用，请联系管理员开启"
  else
    let* (is_permanent, expire_time, duration_seconds) :=
      resolve_duration duration_seconds in
    let* user :=
      DBUser_get_or_none (AgentCtx.adapter_key _ctx) user_identifier in
    match user with
    | None => ret ("❌ 未找到用户: " +:+ user_identifier)
    | Some user =>
        let user_id := DBUser.unique_id user in
        let* block_data := get_block_data (AgentCtx.chat_key _ctx) in
        match get_block block_data user_id with
        | Some existing_block =>
            ret ("⚠️ 用户 " +:+ DBUser.username user +:+ " 已经被"
                 +:+ get_block_type_description (block_type existing_block)
                 +:+ "，无需重复操作")
        | None =>
            let* now := time_now in
            let record :=
              {| user_id := user_id;
                 username := DBUser.username user;
                 block_type := FULL_BLOCK;
                 reason := reason;
                 start_time := now;
                 expire_time := expire_time;
                 is_permanent := is_permanent |} in
            let block_data := add_block block_data record in
            save_block_data (AgentCtx.chat_key _ctx) block_data;;
            let* success :=
              apply_block_to_system user_id FULL_BLOCK expire_time in
            if negb success
            then ret ("❌ 屏蔽用户 " +:+ DBUser.username user +:+ " 失败，请稍后重试")
            else
              let* (time_desc, log_time_desc) :=
                if is_permanent then ret ("永久", "永久")
                else match duration_seconds with
                     | None => raise AssertionError
                     | Some d =>
                         let time_desc := duration_desc d in
                         ret (time_desc,
                              time_desc +:+ "(" +:+ pretty d +:+ "秒)")
                     end in
              logger INFO
                ("[屏蔽插件] AI在聊天 " +:+ AgentCtx.chat_key _ctx
                 +:+ " 中完全屏蔽了用户 " +:+ DBUser.username user
                 +:+ "(" +:+ user_id +:+ ")，时长: "
                 +:+ log_time_desc +:+ "，原因: " +:+ reason);;
              ret ("✅ 已将用户 " +:+ DBUser.username user
                   +:+ " 设置为完全屏蔽模式（时长: " +:+ time_desc +:+ "）"
                   +:+ NL +:+ "原因: " +:+ reason +:+ NL
                   +:+ "效果: 我将完全看不到该用户的任何消息")
        end
    end.

Definition unblock_user (_ctx : AgentCtx.t) (user_identifier : string)
  : M string :=
  let* user :=
    DBUser_get_or_none (AgentCtx.adapter_key _ctx) user_identifier in
  match user with
  | None => ret ("❌ 未找到用户: " +:+ user_identifier)
  | Some user =>
      let user_id := DBUser.unique_id user in
      let* block_data := get_block_data (AgentCtx.chat_key _ctx) in
      match get_block block_data user_id with
      | None =>
          ret ("ℹ️ 用户 " +:+ DBUser.username user +:+ " 当前没有被屏蔽")
      | Some block_record =>
          let* success :=
            remove_block_from_system user_id (block_type block_record) in
          if negb success
          then ret ("❌ 解除用户 " +:+ DBUser.username user
                    +:+ " 的屏蔽失败，请稍后重试")
          else
            let* (block_data, _) := lift (remove_block block_data user_id) in
            save_block_data (AgentCtx.chat_key _ctx) block_data;;
            logger INFO
              ("[屏蔽插件] AI在聊天 " +:+ AgentCtx.chat_key _ctx
               +:+ " 中解除了用户 " +:+ DBUser.username user
               +:+ "(" +:+ user_id +:+ ") 的屏蔽");;
            ret ("✅ 已解除用户 " +:+ DBUser.username user
                 +:+ " 的屏蔽，他现在可以正常与我交互了")
      end
  end.

(** One item of the listing of [list_blocked_users], [idx] counted from 1. *)
Definition list_entry (idx : Z) (item : string * BlockRecord) : M string :=
  let (user_id, record) := item in
  let* time_remaining := format_time_remaining (expire_time record) in
  let block_desc := get_block_type_description (block_type record) in
  ret (pretty idx +:+ ". " +:+ username record +:+ " (" +:+ user_id +:+ ")" +:+ NL
       +:+ "   - 屏蔽类型: " +:+ block_desc +:+ NL
       +:+ "   - 剩余时间: " +:+ time_remaining +:+ NL
       +:+ "   - 屏蔽原因: " +:+ reason record).

(** [for idx, item in enumerate(items, start)] *)
Fixpoint enumerate {A} (start : Z) (l : list A) : list (Z * A) :=
  match l with
  | [] => []
  | x :: l' => (start, x) :: enumerate (start + 1) l'
  end.

Definition list_blocked_users (_ctx : AgentCtx.t) : M string :=
  let* block_data := get_block_data (AgentCtx.chat_key _ctx) in
  let* current_time := time_now in
  let* (block_data, cleaned) := lift (cleanup_expired block_data current_time) in
  (if cleaned >? 0
   then
     save_block_data (AgentCtx.chat_key _ctx) block_data;;
     logger INFO
       ("[屏蔽插件] 自动清理了 " +:+ pretty cleaned +:+ " 个过期的屏蔽记录")
   else ret tt);;
  let active_blocks := get_active_blocks block_data current_time in
  match active_blocks with
  | [] => ret "当前没有被屏蔽的用户"
  | _ =>
      let* entries :=
        mapM (fun p => list_entry (fst p) (snd p)) (enumerate 1 active_blocks) in
      let lines := ("当前已屏蔽的用户：" +:+ NL) :: entries in
      ret (String.concat NL lines)
  end.

(** One line of the prompt summary. *)
Definition prompt_entry (item : string * BlockRecord) : M string :=
  let (_user_id, record) := item in
  let* time_desc :=
    if is_permanent record then ret "∞"
    else format_time_remaining (expire_time record) in
  let block_symbol :=
    if decide (block_type record = FULL_BLOCK) then "🚫" else "🔇" in
  ret ("  " +:+ block_symbol +:+ " " +:+ username record
       +:+ " (" +:+ time_desc +:+ ") - " +:+ reason record).

Definition inject_blocked_users_prompt (_ctx : AgentCtx.t) : M string :=
  try_except
    (if negb (SHOW_BLOCKED_USERS_IN_PROMPT config) then ret ""
     else
       let* block_data := get_block_data (AgentCtx.chat_key _ctx) in
       let* current_time := time_now in
       let* (block_data, _) := lift (cleanup_expired block_data current_time) in
       save_block_data (AgentCtx.chat_key _ctx) block_data;;
       let* current_time := time_now in
       let active_blocks := get_active_blocks block_data current_time in
       match active_blocks with
       | [] => ret ""
       | _ =>
           let display_count :=
             Z.min (len active_blocks) (MAX_PROMPT_DISPLAY_COUNT config) in
           let display_blocks := slice_to active_blocks display_count in
           let* entries := mapM prompt_entry display_blocks in
           let lines := "Current Blocked Users:" :: entries in
           let lines :=
             if len active_blocks >? display_count
             then lines ++ ["  ... and "
                            +:+ pretty (len active_blocks - display_count)
                            +:+ " more"]
             else lines in
           ret (String.concat NL lines)
       end)
    (fun e =>
       logger WARNING ("[屏蔽插件] 提示词注入失败: " +:+ exn_str e);;
       ret "").

End Plugin.

(** ** Vocabulary of the statements *)

(** What [get_block_data] yields on a store: the stored collection, an empty
    one when the key is absent or holds an empty text, or the validation
    error of a text that is no collection. *)
Definition loaded (s : gmap string Blob) (chat_key : string) : Result BlockData :=
  match s !! chat_key with
  | Some blob =>
      if blob_truthy blob then model_validate_json blob else Ok BlockData_empty
  | None => Ok BlockData_empty
  end.

(** The user the directory resolves a platform identifier to. *)
Definition resolved (w : World) (adapter_key platform_userid : string)
  : option DBUser.t :=
  List.find (same_user adapter_key platform_userid) (users w).

(** The entity that [get_user_by_unique_id] finds for a pair: the row of the
    pair when there is exactly one, nobody when there is none or when there
    are several (the failed query is caught). *)
Definition found_by_union_id (w : World) (adapter_key platform_userid : string)
  : option DBUser.t :=
  match List.filter (same_user adapter_key platform_userid) (users w) with
  | [u] => Some u
  | _ => None
  end.

(** A directory with at most one row for the pair: the queries for it
    return. *)
Definition unambiguous (us : list DBUser.t) (adapter_key platform_userid : string)
  : Prop :=
  (length (List.filter (same_user adapter_key platform_userid) us) <= 1)%nat.

(** The timestamp field of the entity that a block type selects. *)
Definition selected_field (block_type : BlockType) (u : DBUser.t)
  : option datetime :=
  match block_type with
  | PREVENT_TRIGGER => DBUser.prevent_trigger_until u
  | FULL_BLOCK => DBUser.ban_until u
  end.

(** The invariant of a record: permanent records carry no expiry,
    non-permanent ones carry one. *)
Definition record_consistent (r : BlockRecord) : Prop :=
  (is_permanent r = true -> expire_time r = None)
  /\ (is_permanent r = false -> exists e : Z, expire_time r = Some e).

(** The events of the directory. *)
Definition db_event (ev : Event) : Prop :=
  match ev with
  | EvDbQuery _ _ | EvDbSave _ => True
  | _ => False
  end.

(** The outcome of a system-effect call: a boolean, never an exception; the
    store and the clock are not touched; a failed call leaves the directory
    as it was; the trace grows by directory events only. *)
Definition effect_outcome (m : M bool) (w : World) : Prop :=
  exists (ok : bool) (w' : World),
    m w = (Ok ok, w')
    /\ store w' = store w
    /\ clock w' = clock w /\ ticks w' = ticks w
    /\ (ok = false -> users w' = users w)
    /\ exists evs, trace w' = trace w ++ evs /\ Forall db_event evs.

(** The record a block handler builds (the [BlockRecord(...)] call). *)
Definition new_record (u : DBUser.t) (bt : BlockType) (reason : string)
    (now : Z) (e : option Z) (p : bool) : BlockRecord :=
  {| user_id := DBUser.unique_id u; username := DBUser.username u;
     block_type := bt; reason := reason; start_time := now;
     expire_time := e; is_permanent := p |}.

(** The world once a handler has written [data] under [chat_key]. *)
Definition written (chat_key : string) (data : BlockData) (w : World) : World :=
  emit (EvStoreSet chat_key (Json data))
    (with_store (<[chat_key := Json data]> (store w)) w).

(** The world of a block handler right after it saved the collection: it
    has queried the directory, read the store, read the clock and written
    the store. *)
Definition after_save (ctx : AgentCtx.t) (user_identifier : string)
    (data : BlockData) (w : World) : World :=
  written (AgentCtx.chat_key ctx) data
    (tick (emit (EvStoreGet (AgentCtx.chat_key ctx))
             (emit (EvDbQuery (AgentCtx.adapter_key ctx) user_identifier) w))).

(** The block handler of a block type, and the flag that gates it. *)
Definition block_user (bt : BlockType) (config : BlockConfig) (host : Host)
  : AgentCtx.t -> string -> string -> option Z -> M string :=
  match bt with
  | PREVENT_TRIGGER => block_user_prevent_trigger config host
  | FULL_BLOCK => block_user_full config host
  end.

Definition enabled (config : BlockConfig) (bt : BlockType) : bool :=
  match bt with
  | PREVENT_TRIGGER => ENABLE_PREVENT_TRIGGER config
  | FULL_BLOCK => ENABLE_FULL_BLOCK config
  end.

(** The replies of the handlers that the statements name. *)
Definition already_blocked_message (u : DBUser.t) (existing : BlockRecord) : string :=
  "⚠️ 用户 " +:+ DBUser.username u +:+ " 已经被"
  +:+ get_block_type_description (block_type existing) +:+ "，无需重复操作".

Definition block_failed_message (u : DBUser.t) : string :=
  "❌ 屏蔽用户 " +:+ DBUser.username u +:+ " 失败，请稍后重试".

Definition not_blocked_message (u : DBUser.t) : string :=
  "ℹ️ 用户 " +:+ DBUser.username u +:+ " 当前没有被屏蔽".

Definition unblock_failed_message (u : DBUser.t) : string :=
  "❌ 解除用户 " +:+ DBUser.username u +:+ " 的屏蔽失败，请稍后重试".

Definition unblocked_message (u : DBUser.t) : string :=
  "✅ 已解除用户 " +:+ DBUser.username u +:+ " 的屏蔽，他现在可以正常与我交互了".

(** [s] occurs inside [msg]. *)
Definition contains_text (msg s : string) : Prop :=
  exists before after : string, msg = before +:+ s +:+ after.

(** A line of the prompt summary for a record: block-type symbol, display
    name, remaining time or the infinity symbol, reason. *)
Definition prompt_line (item : string * BlockRecord) (line : string) : Prop :=
  exists time_desc : string,
    line = "  " +:+ (if decide (block_type item.2 = FULL_BLOCK) then "🚫" else "🔇")
           +:+ " " +:+ username item.2
           +:+ " (" +:+ time_desc +:+ ") - " +:+ reason item.2
    /\ (is_permanent item.2 = true -> time_desc = "∞")
    /\ (is_permanent item.2 = false ->
        exists w0 : World,
          fst (format_time_remaining (expire_time item.2) w0) = Ok time_desc).

(** The trailing marker of a summary of [n] records cut at [max]. *)
Definition more_marker (n max : Z) : list string :=
  if n >? max then ["  ... and " +:+ pretty (n - max) +:+ " more"] else [].

(** ** Sample data *)

Module Sample.

Definition record (uid : string) (bt : BlockType) (e : option Z) (p : bool)
  : BlockRecord :=
  {| user_id := uid; username := "user-" +:+ uid; block_type := bt;
     reason := "spam"; start_time := 1000; expire_time := e;
     is_permanent := p |}.

(** A record whose expiry is the epoch itself, and a collection holding it. *)
Definition epoch_record : BlockRecord := record "u0" PREVENT_TRIGGER (Some 0) false.
Definition epoch_data : BlockData := {| blocks := [("u0", epoch_record)] |}.

(** A collection with a permanent record, a record without expiry and
    three timed ones. *)
Definition data : BlockData :=
  {| blocks :=
       [ ("a", record "a" FULL_BLOCK None true);
         ("b", record "b" PREVENT_TRIGGER (Some 1500) false);
         ("c", record "c" PREVENT_TRIGGER None false);
         ("d", record "d" FULL_BLOCK (Some 2000) false);
         ("e", record "e" FULL_BLOCK (Some 2500) false) ] |}.

Definition capped : BlockConfig :=
  {| ENABLE_PREVENT_TRIGGER := true; ENABLE_FULL_BLOCK := true;
     MAX_BLOCK_SECONDS := 86400; DEFAULT_BLOCK_SECONDS := 3600;
     ALLOW_PERMANENT_BLOCK := false; SHOW_BLOCKED_USERS_IN_PROMPT := true;
     MAX_PROMPT_DISPLAY_COUNT := 2 |}.

Definition uncapped : BlockConfig :=
  {| ENABLE_PREVENT_TRIGGER := true; ENABLE_FULL_BLOCK := true;
     MAX_BLOCK_SECONDS := 0; DEFAULT_BLOCK_SECONDS := 3600;
     ALLOW_PERMANENT_BLOCK := true; SHOW_BLOCKED_USERS_IN_PROMPT := true;
     MAX_PROMPT_DISPLAY_COUNT := 5 |}.

Definition reliable : Host :=
  {| fromtimestamp := fun t => Ok t; save_ok := fun _ => true |}.

(** A host whose directory refuses every write. *)
Definition read_only : Host :=
  {| fromtimestamp := fun t => Ok t; save_ok := fun _ => false |}.

Definition alice : DBUser.t :=
  {| DBUser.pk := 1; DBUser.adapter_key := "qq";
     DBUser.platform_userid := "1001"; DBUser.unique_id := "qq:1001";
     DBUser.username := "alice";
     DBUser.prevent_trigger_until := None; DBUser.ban_until := None |}.

Definition ctx : AgentCtx.t :=
  {| AgentCtx.adapter_key := "qq"; AgentCtx.chat_key := "chat1" |}.

(** A world at second 1000 whose clock advances by one at each reading. *)
Definition world (s : gmap string Blob) : World :=
  {| clock := fun n => 1000 + Z.of_nat n; ticks := 0; store := s;
     users := [alice]; trace := [] |}.

Definition alice_record (bt : BlockType) : BlockRecord :=
  {| user_id := "qq:1001"; username := "alice"; block_type := bt;
     reason := "spam"; start_time := 900; expire_time := Some 5000;
     is_permanent := false |}.

Definition alice_blocked (bt : BlockType) : BlockData :=
  {| blocks := [("qq:1001", alice_record bt)] |}.

End Sample.

(** ** Vocabulary of the further properties *)

(** A record that is not permanent and has no usable expiry: [expire_time]
    is [None] or [0], the two values the truthiness tests take for unset. *)
Definition dormant (r : BlockRecord) : Prop :=
  is_permanent r = false /\ (expire_time r = None \/ expire_time r = Some 0).

(** [c in s] for a character and a string. *)
Fixpoint occurs (c : ascii) (s : string) : bool :=
  match s with
  | EmptyString => false
  | String c' rest => bool_decide (c' = c) || occurs c rest
  end.

(** The block type that is not [bt], and the field it selects. *)
Definition other_type (bt : BlockType) : BlockType :=
  match bt with
  | PREVENT_TRIGGER => FULL_BLOCK
  | FULL_BLOCK => PREVENT_TRIGGER
  end.

(** The entity with the field selected by [bt] set to [v]. *)
Definition with_field (bt : BlockType) (u : DBUser.t) (v : option datetime)
  : DBUser.t :=
  if decide (bt = PREVENT_TRIGGER)
  then DBUser.set_prevent_trigger_until u v
  else DBUser.set_ban_until u v.

(** The remaining replies and log lines of the handlers. *)
Definition disabled_message (bt : BlockType) : string :=
  match bt with
  | PREVENT_TRIGGER => "❌ 禁止触发功能未启用，请联系管理员开启"
  | FULL_BLOCK => "❌ 完全屏蔽功能未启用，请联系管理员开启"
  end.

Definition not_found_message (user_identifier : string) : string :=
  "❌ 未找到用户: " +:+ user_identifier.

Definition blocked_message (bt : BlockType) (u : DBUser.t)
    (time_desc reason : string) : string :=
  match bt with
  | PREVENT_TRIGGER =>
      "✅ 已将用户 " +:+ DBUser.username u
      +:+ " 设置为禁止触发模式（时长: " +:+ time_desc +:+ "）"
      +:+ NL +:+ "原因: " +:+ reason +:+ NL
      +:+ "效果: 该用户无法直接唤醒我，但我在被其他消息唤醒时仍能看到他的消息"
  | FULL_BLOCK =>
      "✅ 已将用户 " +:+ DBUser.username u
      +:+ " 设置为完全屏蔽模式（时长: " +:+ time_desc +:+ "）"
      +:+ NL +:+ "原因: " +:+ reason +:+ NL
      +:+ "效果: 我将完全看不到该用户的任何消息"
  end.

Definition blocked_log (bt : BlockType) (ctx : AgentCtx.t) (u : DBUser.t)
    (reason log_time_desc : string) : string :=
  match bt with
  | PREVENT_TRIGGER =>
      "[屏蔽插件] AI在聊天 " +:+ AgentCtx.chat_key ctx
      +:+ " 中屏蔽了用户 " +:+ DBUser.username u
      +:+ "(" +:+ DBUser.unique_id u +:+ ") - 禁止触发模式，时长: "
      +:+ log_time_desc +:+ "，原因: " +:+ reason
  | FULL_BLOCK =>
      "[屏蔽插件] AI在聊天 " +:+ AgentCtx.chat_key ctx
      +:+ " 中完全屏蔽了用户 " +:+ DBUser.username u
      +:+ "(" +:+ DBUser.unique_id u +:+ ")，时长: "
      +:+ log_time_desc +:+ "，原因: " +:+ reason
  end.

Definition unblocked_log (ctx : AgentCtx.t) (u : DBUser.t) : string :=
  "[屏蔽插件] AI在聊天 " +:+ AgentCtx.chat_key ctx
  +:+ " 中解除了用户 " +:+ DBUser.username u
  +:+ "(" +:+ DBUser.unique_id u +:+ ") 的屏蔽".

(** What a block handler does with the outcome of the system-effect call:
    the lines of both handlers after [apply_block_to_system]. *)
Definition block_reply (bt : BlockType) (ctx : AgentCtx.t) (u : DBUser.t)
    (reason : string) (is_permanent : bool) (duration_seconds : option Z)
    (success : bool) : M string :=
  if negb success then ret (block_failed_message u)
  else
    let* (time_desc, log_time_desc) :=
      if is_permanent then ret ("永久", "永久")
      else match duration_seconds with
           | None => raise AssertionError
           | Some d =>
               let time_desc := duration_desc d in
               ret (time_desc, time_desc +:+ "(" +:+ pretty d +:+ "秒)")
           end in
    logger INFO (blocked_log bt ctx u reason log_time_desc);;
    ret (blocked_message bt u time_desc reason).

(** Two entities that differ at most in their two timestamp fields. *)
Definition same_identity (u v : DBUser.t) : Prop :=
  DBUser.pk u = DBUser.pk v
  /\ DBUser.adapter_key u = DBUser.adapter_key v
  /\ DBUser.platform_userid u = DBUser.platform_userid v
  /\ DBUser.unique_id u = DBUser.unique_id v
  /\ DBUser.username u = DBUser.username v.

(** A directory in which [pk] is a key. *)
Definition directory_keyed (us : list DBUser.t) : Prop :=
  NoDup (DBUser.pk <$> us).

(** An entity whose composite id is [adapter_key:platform_userid], with an
    adapter key free of colons. *)
Definition canonical_id (u : DBUser.t) : Prop :=
  DBUser.unique_id u
  = DBUser.adapter_key u +:+ ":" +:+ DBUser.platform_userid u
  /\ occurs ":"%char (DBUser.adapter_key u) = false.

(** One numbered entry of the listing for a record. *)
Definition listing_entry (numbered : Z * (string * BlockRecord)) (entry : string)
  : Prop :=
  exists time_remaining : string,
    entry = pretty numbered.1 +:+ ". " +:+ username numbered.2.2
            +:+ " (" +:+ numbered.2.1 +:+ ")" +:+ NL
            +:+ "   - 屏蔽类型: "
            +:+ get_block_type_description (block_type numbered.2.2) +:+ NL
            +:+ "   - 剩余时间: " +:+ time_remaining +:+ NL
            +:+ "   - 屏蔽原因: " +:+ reason numbered.2.2
    /\ (expire_time numbered.2.2 = None -> time_remaining = "永久").

(** [cleanup()] of methods.py, the plugin's cleanup hook: one log line. *)
Definition cleanup : M unit := logger INFO "[屏蔽插件] 清理完成".

(** A store in which every stored collection is a dictionary. *)
Definition store_wf (st : gmap string Blob) : Prop :=
  forall (chat_key : string) (d : BlockData),
    st !! chat_key = Some (Json d) -> PyDict.keys_unique (blocks d).

(** What a handler may do to the store: nothing, or replace the collection
    loaded from its chat key by one that is a dictionary if that was. *)
Definition store_step (chat_key : string) (w w' : World) : Prop :=
  store w' = store w
  \/ exists d d' : BlockData,
       loaded (store w) chat_key = Ok d
       /\ store w' = <[chat_key := Json d']> (store w)
       /\ (PyDict.keys_unique (blocks d) -> PyDict.keys_unique (blocks d')).

(** More sample data. *)
Module Scenario.

Definition disabled : BlockConfig :=
  {| ENABLE_PREVENT_TRIGGER := false; ENABLE_FULL_BLOCK := false;
     MAX_BLOCK_SECONDS := 86400; DEFAULT_BLOCK_SECONDS := 3600;
     ALLOW_PERMANENT_BLOCK := false; SHOW_BLOCKED_USERS_IN_PROMPT := false;
     MAX_PROMPT_DISPLAY_COUNT := 5 |}.

(** A store whose blob for the conversation is no collection. *)
Definition corrupt : gmap string Blob := {["chat1" := Text "not a collection"]}.

(** A second row of the directory for the platform id of [Sample.alice]. *)
Definition alice_twin : DBUser.t :=
  {| DBUser.pk := 2; DBUser.adapter_key := "qq";
     DBUser.platform_userid := "1001"; DBUser.unique_id := "qq:1001";
     DBUser.username := "alice2";
     DBUser.prevent_trigger_until := None; DBUser.ban_until := None |}.

(** A store with collections of two conversations. *)
Definition two_chats : gmap string Blob :=
  {["chat1" := Json Sample.data; "chat2" := Json (Sample.alice_blocked FULL_BLOCK)]}.

End Scenario.


(** * Properties *)

(** ** Strings *)

Lemma string_app_assoc (s1 s2 s3 : string) :
  (s1 +:+ s2) +:+ s3 = s1 +:+ s2 +:+ s3.
Proof.
  induction s1 as [|c s1 IH]; [reflexivity |].
  change (String c ((s1 +:+ s2) +:+ s3) = String c (s1 +:+ s2 +:+ s3)).
  by rewrite IH.
Qed.

(** ** Dictionaries *)

Module PyDictFacts.
Import PyDict.
Section Facts.
Context {V : Type}.
Implicit Types (d : dict V) (k : string) (v : V).

Lemma keys_cons k v d : keys ((k, v) :: d) = k :: keys d.
Proof. reflexivity. Qed.

Lemma get_None_keys k d : get k d = None <-> k ∉ keys d.
Proof.
  induction d as [|[k' v'] d IH]; simpl.
  - split; [intros _; apply not_elem_of_nil | done].
  - rewrite not_elem_of_cons. destruct (decide (k = k')) as [->|Hne].
    + split; [discriminate | intros [Hk _]; by destruct Hk].
    + rewrite IH. split; [by split | by intros [_ ?]].
Qed.

Lemma get_Some_elem_of k v d :
  keys_unique d -> (get k d = Some v <-> (k, v) ∈ d).
Proof.
  unfold keys_unique. induction d as [|[k' v'] d IH]; simpl; intros Hnd.
  - split; [done | intros H; by apply elem_of_nil in H].
  - apply NoDup_cons in Hnd as [Hk' Hnd]. rewrite elem_of_cons.
    destruct (decide (k = k')) as [->|Hne].
    + split; [intros [= ->]; by left |].
      intros [[= ->]|Hin]; [done |]. exfalso. apply Hk'.
      apply list_elem_of_fmap. by exists (k', v).
    + rewrite IH by done. split; [by right | intros [[= -> _]|H]; done].
Qed.

Lemma setitem_fresh k v d : k ∉ keys d -> setitem k v d = d ++ [(k, v)].
Proof.
  induction d as [|[k' v'] d IH]; simpl; [done |].
  rewrite not_elem_of_cons. intros [Hne Hk].
  destruct (decide (k = k')); [done |]. by rewrite IH.
Qed.

Lemma get_setitem k v d : get k (setitem k v d) = Some v.
Proof.
  induction d as [|[k' v'] d IH]; simpl.
  - by destruct (decide (k = k)).
  - destruct (decide (k = k')) as [->|Hne]; simpl.
    + by destruct (decide (k' = k')).
    + by destruct (decide (k = k')).
Qed.

Lemma get_setitem_ne k k' v d : k' <> k -> get k' (setitem k v d) = get k' d.
Proof.
  intros Hne. induction d as [|[k0 v0] d IH]; simpl.
  - by destruct (decide (k' = k)).
  - destruct (decide (k = k0)) as [->|Hne0]; simpl.
    + destruct (decide (k' = k0)); [done | reflexivity].
    + destruct (decide (k' = k0)); [reflexivity | apply IH].
Qed.

Lemma elem_of_filter (f : string * V -> bool) (x : string * V) d :
  x ∈ List.filter f d <-> x ∈ d /\ f x = true.
Proof. rewrite !list_elem_of_In. apply filter_In. Qed.

Lemma keys_filter_subseteq (f : string * V -> bool) d k :
  k ∈ keys (List.filter f d) -> k ∈ keys d.
Proof.
  unfold keys. rewrite !list_elem_of_fmap. intros [x [-> Hx]].
  apply elem_of_filter in Hx as [Hx _]. by exists x.
Qed.

Lemma keys_unique_filter (f : string * V -> bool) d :
  keys_unique d -> keys_unique (List.filter f d).
Proof.
  unfold keys_unique. induction d as [|[k v] d IH]; simpl; [done |].
  rewrite NoDup_cons. intros [Hk Hnd]. destruct (f (k, v)); [| by apply IH].
  rewrite keys_cons. apply NoDup_cons. split; [| by apply IH].
  intros Hin. by apply Hk, (keys_filter_subseteq f).
Qed.

Lemma without_fresh ks d :
  (forall k, k ∈ ks -> k ∉ keys d) -> without ks d = d.
Proof.
  unfold without. induction d as [|[k v] d IH]; simpl; [done |].
  intros Hks. rewrite bool_decide_eq_false_2; simpl.
  - f_equal. apply IH. intros k' Hk' Hin. apply (Hks k' Hk'). by right.
  - intros Hin. apply (Hks k Hin). by left.
Qed.

Lemma delitem_unique k d :
  keys_unique d -> k ∈ keys d -> delitem k d = Ok (without [k] d).
Proof.
  unfold keys_unique. induction d as [|[k' v'] d IH]; simpl.
  - intros _ H. by apply elem_of_nil in H.
  - rewrite NoDup_cons, elem_of_cons. intros [Hk' Hnd] Hin.
    destruct (decide (k = k')) as [->|Hne].
    + unfold without at 1. simpl.
      rewrite bool_decide_eq_true_2 by (by left). simpl.
      fold (without [k'] d). rewrite without_fresh; [done |].
      intros k. rewrite list_elem_of_singleton. by intros ->.
    + destruct Hin as [|Hin]; [done |]. rewrite (IH Hnd Hin).
      unfold without. simpl. rewrite bool_decide_eq_false_2; [done |].
      rewrite list_elem_of_singleton. congruence.
Qed.

Lemma without_without k ks d : without ks (without [k] d) = without (k :: ks) d.
Proof.
  unfold without. induction d as [|[k' v'] d IH]; simpl; [done |].
  destruct (decide (k' = k)) as [->|Hne].
  - rewrite !bool_decide_eq_true_2 by (by left). simpl. apply IH.
  - rewrite (bool_decide_eq_false_2 (k' ∈ [k]))
      by (rewrite list_elem_of_singleton; congruence).
    simpl. rewrite IH. f_equal.
    destruct (bool_decide (k' ∈ ks)) eqn:E.
    + apply bool_decide_eq_true in E.
      rewrite bool_decide_eq_true_2 by (by right). done.
    + apply bool_decide_eq_false in E.
      rewrite bool_decide_eq_false_2; [done |].
      rewrite elem_of_cons. intros [Heq | Hin]; [by apply Hne | by apply E].
Qed.

Lemma keys_without_ne k ks d :
  k ∉ ks -> k ∈ keys d -> k ∈ keys (without ks d).
Proof.
  unfold keys, without. rewrite !list_elem_of_fmap.
  intros Hk [[k' v] [-> Hin]]. exists (k', v). split; [done |].
  apply elem_of_filter. split; [done |]. simpl in *.
  by rewrite bool_decide_eq_false_2.
Qed.

Lemma delitem_Some k v d : get k d = Some v -> exists d', delitem k d = Ok d'.
Proof.
  induction d as [|[k' v'] d IH]; simpl; [done |].
  destruct (decide (k = k')); [by eexists |].
  intros Hg. destruct (IH Hg) as [d' ->]. by eexists.
Qed.

Lemma get_without k d : get k (without [k] d) = None.
Proof.
  apply get_None_keys. unfold keys, without. rewrite list_elem_of_fmap.
  intros [[k' v] [-> Hin]]. apply elem_of_filter in Hin as [_ Hin].
  simpl in Hin. apply negb_true_iff, bool_decide_eq_false in Hin.
  apply Hin. by apply list_elem_of_singleton.
Qed.

Lemma get_without_ne k k' d : k' <> k -> get k' (without [k] d) = get k' d.
Proof.
  intros Hne. unfold without. induction d as [|[k0 v0] d IH]; simpl; [done |].
  destruct (decide (k0 = k)) as [->|Hne0].
  - rewrite bool_decide_eq_true_2 by (by apply list_elem_of_singleton). simpl.
    destruct (decide (k' = k)); [done | exact IH].
  - rewrite bool_decide_eq_false_2
      by (rewrite list_elem_of_singleton; congruence).
    simpl. destruct (decide (k' = k0)); [done | exact IH].
Qed.

(** The operations keep the keys pairwise distinct. *)
Lemma keys_setitem k v d :
  keys (setitem k v d) = if decide (k ∈ keys d) then keys d else keys d ++ [k].
Proof.
  induction d as [|[k' v'] d IH].
  - simpl. destruct (decide (k ∈ [])) as [Hin|]; [by apply elem_of_nil in Hin | done].
  - cbn [setitem]. destruct (decide (k = k')) as [->|Hne].
    + rewrite !keys_cons. rewrite decide_True by (by left). done.
    + rewrite !keys_cons, IH. destruct (decide (k ∈ keys d)) as [Hin|Hnin].
      * rewrite decide_True by (by right). done.
      * rewrite decide_False; [done |]. rewrite elem_of_cons. by intros [|].
Qed.

Lemma keys_unique_setitem k v d : keys_unique d -> keys_unique (setitem k v d).
Proof.
  unfold keys_unique. rewrite keys_setitem. intros Hnd.
  destruct (decide (k ∈ keys d)) as [|Hnin]; [done |].
  apply NoDup_app. split_and!; [done | | apply NoDup_singleton].
  intros x Hx Hk. apply list_elem_of_singleton in Hk. by subst.
Qed.

Lemma keys_unique_delitem k d d' :
  keys_unique d -> delitem k d = Ok d' -> keys_unique d'.
Proof.
  intros Hu Hdel. destruct (decide (k ∈ keys d)) as [Hin|Hnin].
  - rewrite (delitem_unique k d Hu Hin) in Hdel. injection Hdel as <-.
    by apply keys_unique_filter.
  - exfalso. clear Hu. revert d' Hdel.
    induction d as [|[k' v'] d IH]; simpl; intros d' Hdel; [done |].
    rewrite keys_cons, not_elem_of_cons in Hnin. destruct Hnin as [Hne Hnin].
    destruct (decide (k = k')); [done |].
    destruct (delitem k d) as [d''|]; [by apply (IH Hnin d'') | done].
Qed.

End Facts.
End PyDictFacts.

(** ** models.py: the two loops over the collection *)

Section ModelFacts.
Import PyDict PyDictFacts.
Implicit Types (self : BlockData) (r : BlockRecord) (k : string) (t : Z).

Lemma active_cond_true r t :
  active_cond r t = true <->
  is_permanent r = true \/ exists e, expire_time r = Some e /\ e <> 0 /\ e > t.
Proof.
  unfold active_cond, py_truthy.
  destruct (is_permanent r), (expire_time r) as [e|]; simpl;
    try (split; [by left | done]).
  - rewrite andb_true_iff, negb_true_iff, Z.eqb_neq, Z.gtb_gt.
    split; [intros [? ?]; right; by exists e |].
    intros [|[e' [[= <-] ?]]]; [done | lia].
  - split; [done | intros [|[? [? _]]]; done].
Qed.

Lemma expired_cond_true r t :
  expired_cond r t = true <->
  is_permanent r = false /\ exists e, expire_time r = Some e /\ e <> 0 /\ e <= t.
Proof.
  unfold expired_cond, py_truthy.
  destruct (is_permanent r), (expire_time r) as [e|]; simpl;
    try (split; [done | intros [? ?]; done]).
  - rewrite andb_true_iff, negb_true_iff, Z.eqb_neq, Z.leb_le.
    split; [intros [? ?]; split; [done | by exists e] |].
    intros [_ [e' [[= <-] ?]]]. lia.
  - split; [done | intros [_ [? [? _]]]; done].
Qed.

(** The loop of [get_active_blocks], started from any dictionary whose keys
    are disjoint from those still to visit, appends the selected items. *)
Lemma get_active_loop t (l acc : dict BlockRecord) :
  NoDup (keys acc ++ keys l) ->
  fold_left
    (fun active '(user_id, record) =>
       if active_cond record t then setitem user_id record active else active)
    l acc
  = acc ++ List.filter (fun kr => active_cond kr.2 t) l.
Proof.
  revert acc. induction l as [|[k r] l IH]; intros acc Hnd; simpl.
  - by rewrite app_nil_r.
  - rewrite keys_cons in Hnd.
    destruct (active_cond r t).
    + rewrite IH.
      * rewrite setitem_fresh; [by rewrite <- app_assoc |].
        apply NoDup_app in Hnd as (_ & Hdisj & _).
        intros Hin. apply (Hdisj k Hin). by left.
      * rewrite setitem_fresh.
        -- unfold keys. rewrite fmap_app. simpl. rewrite <- app_assoc. done.
        -- apply NoDup_app in Hnd as (_ & Hdisj & _).
           intros Hin. apply (Hdisj k Hin). by left.
    + apply IH. apply NoDup_app in Hnd as (Ha & Hdisj & Hl).
      apply NoDup_cons in Hl as [_ Hl]. apply NoDup_app. split_and!; [done | | done].
      intros x Hx Hin. apply (Hdisj x Hx). by right.
Qed.

Lemma get_active_blocks_filter self t :
  keys_unique (blocks self) ->
  get_active_blocks self t = List.filter (fun kr => active_cond kr.2 t) (blocks self).
Proof.
  intros Hu. unfold get_active_blocks. by rewrite get_active_loop.
Qed.

Lemma get_filter (f : BlockRecord -> bool) (d : dict BlockRecord) k r :
  keys_unique d ->
  get k (List.filter (fun kr => f kr.2) d) = Some r <-> get k d = Some r /\ f r = true.
Proof.
  intros Hu.
  rewrite (get_Some_elem_of k r _ (keys_unique_filter _ d Hu)).
  rewrite elem_of_filter. simpl. by rewrite (get_Some_elem_of k r d Hu).
Qed.

(** The first loop of [cleanup_expired] collects the keys of the expired
    records in order. *)
Lemma expired_users_loop t (l : dict BlockRecord) (acc : list string) :
  fold_left
    (fun expired_users '(user_id, record) =>
       if expired_cond record t then expired_users ++ [user_id] else expired_users)
    l acc
  = acc ++ keys (List.filter (fun kr => expired_cond kr.2 t) l).
Proof.
  revert acc. induction l as [|[k r] l IH]; intros acc; simpl.
  - by rewrite app_nil_r.
  - rewrite IH. destruct (expired_cond r t); [| done].
    rewrite keys_cons, <- app_assoc. done.
Qed.

(** The second loop never raises on keys taken from the dictionary itself. *)
Lemma delete_all_unique (ks : list string) (d : dict BlockRecord) :
  keys_unique d -> NoDup ks -> (forall k, k ∈ ks -> k ∈ keys d) ->
  delete_all ks d = Ok (without ks d).
Proof.
  revert d. induction ks as [|k ks IH]; intros d Hu Hnd Hin; simpl.
  - f_equal. symmetry. apply without_fresh. intros k Hk. by apply elem_of_nil in Hk.
  - apply NoDup_cons in Hnd as [Hk Hnd].
    rewrite delitem_unique; [| done | apply Hin; by left].
    rewrite IH; [by rewrite without_without | by apply keys_unique_filter | done |].
    intros k' Hk'. apply keys_without_ne.
    + rewrite list_elem_of_singleton. by intros ->.
    + apply Hin. by right.
Qed.

Lemma without_expired t (d : dict BlockRecord) :
  keys_unique d ->
  without (keys (List.filter (fun kr => expired_cond kr.2 t) d)) d
  = List.filter (fun kr => negb (expired_cond kr.2 t)) d.
Proof.
  intros Hu. unfold without. apply filter_ext_in. intros [k r] Hin. simpl.
  apply list_elem_of_In in Hin. f_equal.
  destruct (expired_cond r t) eqn:E.
  - apply bool_decide_eq_true_2. unfold keys. apply list_elem_of_fmap.
    exists (k, r). split; [done |]. by apply elem_of_filter.
  - apply bool_decide_eq_false_2. unfold keys. rewrite list_elem_of_fmap.
    intros [[k' r'] [Hk Hin']]. simpl in Hk. subst k'.
    apply elem_of_filter in Hin' as [Hin' E']. simpl in E'.
    apply (get_Some_elem_of _ _ _ Hu) in Hin, Hin'. congruence.
Qed.

Lemma cleanup_expired_filter self t :
  keys_unique (blocks self) ->
  cleanup_expired self t
  = Ok ({| blocks := List.filter (fun kr => negb (expired_cond kr.2 t)) (blocks self) |},
        len (List.filter (fun kr => expired_cond kr.2 t) (blocks self))).
Proof.
  intros Hu. unfold cleanup_expired. rewrite expired_users_loop. simpl.
  rewrite delete_all_unique.
  - rewrite without_expired by done. unfold len, keys. by rewrite length_fmap.
  - done.
  - by apply keys_unique_filter.
  - intros k. apply keys_filter_subseteq.
Qed.

(** The collection operations keep the representation invariant. *)
Lemma add_block_keys_unique self r :
  keys_unique (blocks self) -> keys_unique (blocks (add_block self r)).
Proof. apply keys_unique_setitem. Qed.

Lemma remove_block_keys_unique self k self' removed :
  keys_unique (blocks self) -> remove_block self k = Ok (self', removed) ->
  keys_unique (blocks self').
Proof.
  unfold remove_block. intros Hu.
  destruct (contains k (blocks self)); [| by intros [= <- _]].
  destruct (delitem k (blocks self)) as [d'|] eqn:Hdel; [| done].
  intros [= <- _]. simpl. by apply (keys_unique_delitem k (blocks self)).
Qed.

Lemma cleanup_expired_keys_unique self t self' cleaned :
  keys_unique (blocks self) -> cleanup_expired self t = Ok (self', cleaned) ->
  keys_unique (blocks self').
Proof.
  intros Hu. rewrite cleanup_expired_filter by done. intros [= <- _]. simpl.
  by apply keys_unique_filter.
Qed.

Lemma filter_length_split {A} (f : A -> bool) (l : list A) :
  (length l = length (List.filter f l) + length (List.filter (fun x => negb (f x)) l))%nat.
Proof.
  induction l as [|x l IH]; simpl; [done |].
  destruct (f x); simpl; lia.
Qed.

Lemma filter_idem {A} (f : A -> bool) (l : list A) :
  List.filter f (List.filter f l) = List.filter f l.
Proof.
  induction l as [|x l IH]; simpl; [done |].
  destruct (f x) eqn:E; simpl; [by rewrite E, IH | done].
Qed.

Lemma filter_none {A} (f : A -> bool) (l : list A) :
  List.filter f (List.filter (fun x => negb (f x)) l) = [].
Proof.
  induction l as [|x l IH]; simpl; [done |].
  destruct (f x) eqn:E; simpl; [done | by rewrite E].
Qed.

End ModelFacts.

(** ** Claims about the collection and the time utilities *)

Section Claims_pure.
Import PyDict PyDictFacts.

(** C1. [calculate_expire_time(None)] is [None] (and reads no clock); for
    every integer [seconds] (non-negative or not) the result is
    [now + min(seconds, MAX_BLOCK_SECONDS)] when the cap is positive, hence
    at most [MAX_BLOCK_SECONDS] seconds after [now], and [now + seconds] when
    the cap is zero. [now] is the one clock reading the call takes. *)
Theorem calculate_expire_time_capped (config : BlockConfig) (w : World) :
  calculate_expire_time config None w = (Ok None, w)
  /\ forall seconds : Z,
       (0 < MAX_BLOCK_SECONDS config ->
        calculate_expire_time config (Some seconds) w
        = (Ok (Some (clock w (ticks w) + Z.min seconds (MAX_BLOCK_SECONDS config))),
           tick w)
        /\ clock w (ticks w) + Z.min seconds (MAX_BLOCK_SECONDS config)
           <= clock w (ticks w) + MAX_BLOCK_SECONDS config)
       /\ (MAX_BLOCK_SECONDS config = 0 ->
           calculate_expire_time config (Some seconds) w
           = (Ok (Some (clock w (ticks w) + seconds)), tick w)).
Proof.
  split; [reflexivity |]. intros seconds.
  unfold calculate_expire_time, bind, time_now, ret. split.
  - intros Hcap. apply Z.gtb_lt in Hcap. rewrite Hcap. split; [reflexivity | lia].
  - intros ->. reflexivity.
Qed.

Lemma calculate_expire_time_capped_witness :
  fst (calculate_expire_time Sample.capped (Some 999999) (Sample.world ∅))
  = Ok (Some (1000 + 86400))
  /\ fst (calculate_expire_time Sample.uncapped (Some 999999) (Sample.world ∅))
     = Ok (Some (1000 + 999999)).
Proof.
  split.
  - destruct (calculate_expire_time_capped Sample.capped (Sample.world ∅)) as [_ H].
    destruct (H 999999) as [Hpos _].
    destruct Hpos as [E _]; [simpl; lia |]. rewrite E. reflexivity.
  - destruct (calculate_expire_time_capped Sample.uncapped (Sample.world ∅)) as [_ H].
    destruct (H 999999) as [_ Hzero].
    rewrite Hzero; reflexivity.
Defined.

(** C2. For every collection and every time [t], [get_active_blocks]
    returns, in the order of the collection, the records that pass its test.
    At every time that a clock reading can be ([t >= 0], seconds since the
    epoch), these are exactly the records that are permanent or whose
    [expire_time] is set and greater than [t]. At any [t] whatever, a
    non-permanent record expiring exactly at [t] is not returned and every
    permanent record is. *)
Theorem get_active_blocks_exact (self : BlockData) (t : Z) :
  keys_unique (blocks self) ->
  get_active_blocks self t
  = List.filter (fun kr => active_cond kr.2 t) (blocks self)
  /\ (0 <= t ->
      forall k r,
        get k (get_active_blocks self t) = Some r <->
        get_block self k = Some r
        /\ (is_permanent r = true \/ exists e, expire_time r = Some e /\ e > t))
  /\ (forall k r,
        get_block self k = Some r -> is_permanent r = false ->
        expire_time r = Some t -> get k (get_active_blocks self t) = None)
  /\ (forall k r,
        get_block self k = Some r -> is_permanent r = true ->
        get k (get_active_blocks self t) = Some r).
Proof.
  intros Hu. pose proof (get_active_blocks_filter self t Hu) as Hf.
  assert (Hmem : forall k r,
    get k (get_active_blocks self t) = Some r <->
    get_block self k = Some r
    /\ (is_permanent r = true
        \/ exists e, expire_time r = Some e /\ e <> 0 /\ e > t)).
  { intros k r. rewrite Hf, (get_filter (fun r => active_cond r t)) by done.
    by rewrite active_cond_true. }
  split_and!; [done | | |].
  - intros Ht k r. rewrite Hmem. split; intros [Hg Hc]; (split; [done |]).
    + destruct Hc as [|[e (? & ? & ?)]]; [by left | right; by exists e].
    + destruct Hc as [|[e (? & ?)]]; [by left | right; exists e].
      split_and!; [done | lia | done].
  - intros k r Hg Hp He.
    destruct (get k (get_active_blocks self t)) as [r'|] eqn:E; [| done].
    apply Hmem in E as [Hg' Hc]. assert (r' = r) as -> by congruence.
    destruct Hc as [|[e (? & ? & ?)]]; [congruence |].
    assert (e = t) by congruence. lia.
  - intros k r Hg Hp. apply Hmem. split; [done | by left].
Qed.

Lemma get_active_blocks_exact_witness :
  get_active_blocks Sample.data 2000
  = [ ("a", Sample.record "a" FULL_BLOCK None true);
      ("e", Sample.record "e" FULL_BLOCK (Some 2500) false) ]
  /\ (forall k r,
        get k (get_active_blocks Sample.data 2000) = Some r <->
        get_block Sample.data k = Some r
        /\ (is_permanent r = true
            \/ exists e, expire_time r = Some e /\ e > 2000))
  /\ get "d" (get_active_blocks Sample.data 2000) = None
  /\ get "a" (get_active_blocks Sample.data 2000)
     = Some (Sample.record "a" FULL_BLOCK None true).
Proof.
  assert (Hu : keys_unique (blocks Sample.data)).
  { unfold keys_unique. apply (bool_decide_unpack _). vm_compute. exact I. }
  destruct (get_active_blocks_exact Sample.data 2000 Hu) as (Hf & Hiff & Heq & Hperm).
  split_and!.
  - rewrite Hf. reflexivity.
  - apply Hiff. lia.
  - apply (Heq "d" (Sample.record "d" FULL_BLOCK (Some 2000) false)); reflexivity.
  - apply (Hperm "a" (Sample.record "a" FULL_BLOCK None true)); reflexivity.
Defined.

(** C3. [cleanup_expired] at a record that expired at the epoch. The record
    of the sample collection is not permanent and its [expire_time] is set,
    to [0], which no later time precedes; yet [cleanup_expired] keeps it and
    reports that it removed nothing, at every time, because it tests
    [expire_time] by truthiness and takes [0] for unset. The record is not
    active either, and [format_time_remaining] reads its expiry as past: it
    stays in the collection for good, reported as blocked and never listed. *)
Theorem cleanup_expired_keeps_epoch_expiry :
  is_permanent Sample.epoch_record = false
  /\ expire_time Sample.epoch_record = Some 0
  /\ get_block Sample.epoch_data "u0" = Some Sample.epoch_record
  /\ cleanup_expired Sample.epoch_data 1700000000 = Ok (Sample.epoch_data, 0)
  /\ (forall t : Z, cleanup_expired Sample.epoch_data t = Ok (Sample.epoch_data, 0))
  /\ (forall t : Z, get_active_blocks Sample.epoch_data t = [])
  /\ fst (format_time_remaining (expire_time Sample.epoch_record) (Sample.world ∅))
     = Ok "已过期".
Proof.
  split_and!; try reflexivity.
Qed.

(** What [cleanup_expired] does on every collection at every time [t]: it
    raises nothing, removes the non-permanent records whose [expire_time]
    is truthy (set and not [0]) and at most [t], keeps the others in their
    order, and returns the number of records removed. Permanent records and
    records with no expiry are kept, and a second call with the same [t]
    removes nothing and returns zero. *)
Theorem cleanup_expired_exact (self : BlockData) (t : Z) :
  keys_unique (blocks self) ->
  exists self' : BlockData,
    cleanup_expired self t = Ok (self', len (blocks self) - len (blocks self'))
    /\ blocks self'
       = List.filter (fun kr => negb (expired_cond kr.2 t)) (blocks self)
    /\ (forall k r,
          get_block self' k = Some r <->
          get_block self k = Some r
          /\ ~ (is_permanent r = false
                /\ exists e, expire_time r = Some e /\ e <> 0 /\ e <= t))
    /\ (forall k r,
          get_block self k = Some r ->
          is_permanent r = true \/ expire_time r = None ->
          get_block self' k = Some r)
    /\ cleanup_expired self' t = Ok (self', 0).
Proof.
  intros Hu.
  set (kept := List.filter (fun kr => negb (expired_cond kr.2 t)) (blocks self)).
  assert (Hmem : forall k r,
    get k kept = Some r <->
    get k (blocks self) = Some r
    /\ ~ (is_permanent r = false
          /\ exists e, expire_time r = Some e /\ e <> 0 /\ e <= t)).
  { intros k r. unfold kept.
    rewrite (get_filter (fun r => negb (expired_cond r t))) by done.
    rewrite negb_true_iff, <- not_true_iff_false, expired_cond_true. done. }
  exists {| blocks := kept |}. unfold get_block. simpl. split_and!.
  - rewrite cleanup_expired_filter by done. fold kept. do 2 f_equal.
    unfold len, kept.
    rewrite (filter_length_split (fun kr => expired_cond kr.2 t) (blocks self)).
    lia.
  - done.
  - done.
  - intros k r Hg Hkeep. apply Hmem. split; [done |].
    intros [Hp [e [He _]]]. destruct Hkeep; congruence.
  - rewrite cleanup_expired_filter by (by apply keys_unique_filter). simpl.
    unfold kept.
    rewrite (filter_none (fun kr => expired_cond kr.2 t)).
    rewrite (filter_idem (fun kr => negb (expired_cond kr.2 t))). done.
Qed.

Lemma cleanup_expired_exact_witness :
  exists self' : BlockData,
    cleanup_expired Sample.data 2000 = Ok (self', 2)
    /\ blocks self'
       = [ ("a", Sample.record "a" FULL_BLOCK None true);
           ("c", Sample.record "c" PREVENT_TRIGGER None false);
           ("e", Sample.record "e" FULL_BLOCK (Some 2500) false) ]
    /\ cleanup_expired self' 2000 = Ok (self', 0).
Proof.
  assert (Hu : keys_unique (blocks Sample.data)).
  { unfold keys_unique. apply (bool_decide_unpack _). vm_compute. exact I. }
  destruct (cleanup_expired_exact Sample.data 2000 Hu)
    as (self' & Hrun & Hkept & _ & _ & Hagain).
  exists self'. split_and!.
  - rewrite Hrun, Hkept. reflexivity.
  - rewrite Hkept. reflexivity.
  - exact Hagain.
Defined.

(** Removal of exactly the non-permanent records whose expiry is set and
    at most [t] fails for a non-permanent record with [expire_time = 0]: its
    expiry is set and at most [t = 0], and [cleanup_expired] keeps it. *)
Lemma cleanup_expired_epoch_counterexample :
  keys_unique (blocks Sample.epoch_data)
  /\ ~ (exists (self' : BlockData) (n : Z),
          cleanup_expired Sample.epoch_data 0 = Ok (self', n)
          /\ forall k r,
               get_block self' k = Some r <->
               get_block Sample.epoch_data k = Some r
               /\ ~ (is_permanent r = false
                     /\ exists e, expire_time r = Some e /\ e <= 0)).
Proof.
  split.
  - unfold keys_unique. apply (bool_decide_unpack _). vm_compute. exact I.
  - intros (self' & n & Hrun & H).
    assert (E : cleanup_expired Sample.epoch_data 0 = Ok (Sample.epoch_data, 0))
      by reflexivity.
    rewrite E in Hrun. injection Hrun as <- <-.
    destruct (H "u0" Sample.epoch_record) as [[_ Hno] _]; [reflexivity |].
    apply Hno. split; [reflexivity |]. exists 0. split; [reflexivity | lia].
Qed.

End Claims_pure.

(** ** utils.py: how the adapters run *)

Section AdapterFacts.

Variable config : BlockConfig.
Variable host : Host.

Lemma get_block_data_run (chat_key : string) (w : World) :
  get_block_data chat_key w
  = (loaded (store w) chat_key, emit (EvStoreGet chat_key) w).
Proof.
  unfold get_block_data, bind, store_get, loaded, lift, ret. simpl.
  destruct (store w !! chat_key) as [blob|]; [| reflexivity].
  destruct (blob_truthy blob); reflexivity.
Qed.

Lemma save_block_data_run (chat_key : string) (data : BlockData) (w : World) :
  save_block_data chat_key data w
  = (Ok tt, written chat_key data w).
Proof. reflexivity. Qed.

(** The seconds actually granted for a request of [seconds]. *)
Lemma calculate_expire_time_run (seconds : Z) (w : World) :
  calculate_expire_time config (Some seconds) w
  = (Ok (Some (clock w (ticks w)
               + (if MAX_BLOCK_SECONDS config >? 0
                  then Z.min seconds (MAX_BLOCK_SECONDS config)
                  else seconds))),
     tick w).
Proof. reflexivity. Qed.

(** Resolution of the user inside the adapters never raises and only
    queries the directory. *)
Lemma get_user_by_unique_id_run (unique_id : string) (w : World) :
  get_user_by_unique_id unique_id w
  = match split_once ":"%char unique_id with
    | None => (Ok None, w)
    | Some (adapter_key, platform_userid) =>
        (Ok (found_by_union_id w adapter_key platform_userid),
         emit (EvDbQuery adapter_key platform_userid) w)
    end.
Proof.
  unfold get_user_by_unique_id, try_except, DBUser_get_by_union_id,
    found_by_union_id.
  destruct (split_once ":"%char unique_id) as [[a p]|]; [| reflexivity].
  destruct (List.filter (same_user a p) (users w)) as [|u [|v rows]];
    reflexivity.
Qed.

(** The first row of a pair is the head of its rows. *)
Lemma find_head_filter {A} (f : A -> bool) (l : list A) :
  List.find f l = head (List.filter f l).
Proof.
  induction l as [|x l IH]; [reflexivity |]. simpl.
  destruct (f x); [reflexivity | exact IH].
Qed.

(** What the adapters find is what the handlers resolve. *)
Lemma found_by_union_id_resolved (w : World) (a p : string) (u : DBUser.t) :
  found_by_union_id w a p = Some u -> resolved w a p = Some u.
Proof.
  unfold found_by_union_id, resolved. rewrite find_head_filter.
  destruct (List.filter (same_user a p) (users w)) as [|v [|v' rows]];
    [discriminate | | discriminate].
  intros [= ->]. reflexivity.
Qed.

(** On a directory with at most one row for the pair both agree. *)
Lemma found_by_union_id_unambiguous (w : World) (a p : string) :
  unambiguous (users w) a p -> found_by_union_id w a p = resolved w a p.
Proof.
  unfold unambiguous, found_by_union_id, resolved. rewrite find_head_filter.
  destruct (List.filter (same_user a p) (users w)) as [|v [|v' rows]];
    [reflexivity | reflexivity |].
  simpl. lia.
Qed.

(** The tail shared by both adapters: persist the entity, report success. *)
Lemma save_outcome (u : DBUser.t) (w0 w : World) (evs0 : list Event) :
  store w = store w0 -> clock w = clock w0 -> ticks w = ticks w0 ->
  users w = users w0 -> trace w = trace w0 ++ evs0 ->
  Forall db_event evs0 ->
  exists (ok : bool) (w' : World),
    try_except (DBUser_save host u;; ret true) (fun _ => ret false) w = (Ok ok, w')
    /\ store w' = store w0
    /\ clock w' = clock w0 /\ ticks w' = ticks w0
    /\ (ok = false -> users w' = users w0)
    /\ exists evs, trace w' = trace w0 ++ evs
         /\ Forall db_event evs.
Proof.
  intros Hs Hc Ht Hu Htr Hev.
  unfold try_except, bind, DBUser_save, ret.
  destruct (save_ok host u).
  - eexists true, _. split; [reflexivity |]. simpl. split_and!; try done.
    exists (evs0 ++ [EvDbSave u]). rewrite Htr, <- app_assoc. split; [done |].
    apply Forall_app. split; [done | by constructor].
  - eexists false, _. split; [reflexivity |]. split_and!; try done.
    by exists evs0.
Qed.

Lemma apply_block_to_system_outcome
    (user_id : string) (bt : BlockType) (e : option Z) (w : World) :
  effect_outcome (apply_block_to_system host user_id bt e) w.
Proof.
  unfold effect_outcome, apply_block_to_system.
  unfold try_except at 1. unfold bind at 1. rewrite get_user_by_unique_id_run.
  destruct (split_once ":"%char user_id) as [[a p]|].
  - destruct (found_by_union_id w a p) as [u|].
    + unfold bind at 1.
      destruct (py_truthy e); [destruct e as [t|] |].
      * unfold bind at 1, lift. destruct (fromtimestamp host t) as [d|ex].
        -- unfold ret at 2.
           apply (save_outcome _ w _ [EvDbQuery a p]); try done.
           by repeat constructor.
        -- unfold ret. eexists false, _. split; [reflexivity |].
           split_and!; try done. exists [EvDbQuery a p]. by repeat constructor.
      * unfold ret at 1.
        apply (save_outcome _ w _ [EvDbQuery a p]); try done.
        by repeat constructor.
      * unfold ret at 1.
        apply (save_outcome _ w _ [EvDbQuery a p]); try done.
        by repeat constructor.
    + unfold ret. eexists false, _. split; [reflexivity |].
      split_and!; try done. exists [EvDbQuery a p]. by repeat constructor.
  - unfold ret. eexists false, _. split; [reflexivity |].
    split_and!; try done. exists []. by rewrite app_nil_r.
Qed.

Lemma remove_block_from_system_outcome
    (user_id : string) (bt : BlockType) (w : World) :
  effect_outcome (remove_block_from_system host user_id bt) w.
Proof.
  unfold effect_outcome, remove_block_from_system.
  unfold try_except at 1. unfold bind at 1. rewrite get_user_by_unique_id_run.
  destruct (split_once ":"%char user_id) as [[a p]|].
  - destruct (found_by_union_id w a p) as [u|].
    + apply (save_outcome _ w _ [EvDbQuery a p]); try done.
      by repeat constructor.
    + unfold ret. eexists false, _. split; [reflexivity |].
      split_and!; try done. exists [EvDbQuery a p]. by repeat constructor.
  - unfold ret. eexists false, _. split; [reflexivity |].
    split_and!; try done. exists []. by rewrite app_nil_r.
Qed.

End AdapterFacts.

(** ** methods.py: how the handlers run *)

Section HandlerFacts.

Variable config : BlockConfig.
Variable host : Host.

(** The three outcomes of the duration handling. *)
Lemma resolve_duration_cases (duration : option Z) (w : World) :
  (forall s, duration = Some s -> 0 <= s ->
     exists e,
       calculate_expire_time config (Some s) w = (Ok e, tick w)
       /\ resolve_duration config duration w = (Ok (false, e, Some s), tick w))
  /\ (none_or_negative duration = true -> ALLOW_PERMANENT_BLOCK config = true ->
      resolve_duration config duration w = (Ok (true, None, None), w))
  /\ (none_or_negative duration = true -> ALLOW_PERMANENT_BLOCK config = false ->
      exists e,
        calculate_expire_time config (Some (DEFAULT_BLOCK_SECONDS config)) w
        = (Ok e, tick w)
        /\ resolve_duration config duration w
           = (Ok (false, e, Some (DEFAULT_BLOCK_SECONDS config)), tick w)).
Proof.
  unfold resolve_duration. split_and!.
  - intros s -> Hs. simpl. apply Z.ltb_ge in Hs. rewrite Hs.
    eexists. split; reflexivity.
  - intros -> ->. reflexivity.
  - intros -> ->. eexists. split; reflexivity.
Qed.

(** The duration handling always yields a result; it may read the clock and
    does nothing else; what it yields is consistent. *)
Lemma resolve_duration_run (duration : option Z) (w : World) :
  exists (p : bool) (e dur : option Z) (w1 : World),
    resolve_duration config duration w = (Ok (p, e, dur), w1)
    /\ (w1 = w \/ w1 = tick w)
    /\ (p = true -> e = None)
    /\ (p = false -> exists z : Z, e = Some z).
Proof.
  unfold resolve_duration.
  destruct (none_or_negative duration) eqn:Hd;
    [destruct (ALLOW_PERMANENT_BLOCK config) |].
  - exists true, None, None, w. split_and!; [done | by left | done | done].
  - eexists false, _, _, (tick w). split_and!;
      [reflexivity | by right | done | intros _; eexists; reflexivity].
  - destruct duration as [s|]; [| done].
    eexists false, _, _, (tick w). split_and!;
      [reflexivity | by right | done | intros _; eexists; reflexivity].
Qed.

(** Runs a block handler whose flag is on, whose user resolves and is not
    yet blocked, up to the system-effect call. *)
Ltac run_to_apply Hflag Hres Hu Hd Hget :=
  rewrite Hflag; cbn [negb];
  unfold bind at 1; rewrite Hres; cbv beta iota;
  unfold bind at 1; unfold DBUser_get_or_none at 1;
  match type of Hu with ?lhs = _ => fold lhs end; rewrite Hu;
  unfold bind at 1; rewrite get_block_data_run;
  match type of Hd with loaded (store ?w1) _ = _ =>
    change (store (emit _ w1)) with (store w1) end;
  rewrite Hd, Hget;
  unfold bind at 1; unfold time_now at 1;
  unfold bind at 1; rewrite save_block_data_run.

Lemma block_user_prevent_trigger_path
    (ctx : AgentCtx.t) (ident reason : string) (duration : option Z)
    (w w1 : World) (p : bool) (e dur : option Z) (u : DBUser.t) (d : BlockData) :
  ENABLE_PREVENT_TRIGGER config = true ->
  resolve_duration config duration w = (Ok (p, e, dur), w1) ->
  resolved w1 (AgentCtx.adapter_key ctx) ident = Some u ->
  loaded (store w1) (AgentCtx.chat_key ctx) = Ok d ->
  get_block d (DBUser.unique_id u) = None ->
  exists k : bool -> M string,
    block_user_prevent_trigger config host ctx ident reason duration w
    = bind (apply_block_to_system host (DBUser.unique_id u) PREVENT_TRIGGER e) k
        (after_save ctx ident
           (add_block d (new_record u PREVENT_TRIGGER reason
                           (clock w1 (ticks w1)) e p)) w1)
    /\ k false = ret (block_failed_message u)
    /\ forall (ok : bool) (w3 : World),
         store (k ok w3).2 = store w3 /\ users (k ok w3).2 = users w3.
Proof.
  intros Hflag Hres Hu Hd Hget. unfold block_user_prevent_trigger.
  run_to_apply Hflag Hres Hu Hd Hget.
  eexists. split_and!; [reflexivity | reflexivity |].
  intros [] w3; [| done]. cbn [negb].
  destruct p; [done |]. destruct dur; done.
Qed.

Lemma block_user_full_path
    (ctx : AgentCtx.t) (ident reason : string) (duration : option Z)
    (w w1 : World) (p : bool) (e dur : option Z) (u : DBUser.t) (d : BlockData) :
  ENABLE_FULL_BLOCK config = true ->
  resolve_duration config duration w = (Ok (p, e, dur), w1) ->
  resolved w1 (AgentCtx.adapter_key ctx) ident = Some u ->
  loaded (store w1) (AgentCtx.chat_key ctx) = Ok d ->
  get_block d (DBUser.unique_id u) = None ->
  exists k : bool -> M string,
    block_user_full config host ctx ident reason duration w
    = bind (apply_block_to_system host (DBUser.unique_id u) FULL_BLOCK e) k
        (after_save ctx ident
           (add_block d (new_record u FULL_BLOCK reason
                           (clock w1 (ticks w1)) e p)) w1)
    /\ k false = ret (block_failed_message u)
    /\ forall (ok : bool) (w3 : World),
         store (k ok w3).2 = store w3 /\ users (k ok w3).2 = users w3.
Proof.
  intros Hflag Hres Hu Hd Hget. unfold block_user_full.
  run_to_apply Hflag Hres Hu Hd Hget.
  eexists. split_and!; [reflexivity | reflexivity |].
  intros [] w3; [| done]. cbn [negb].
  destruct p; [done |]. destruct dur; done.
Qed.

Lemma block_path (bt : BlockType)
    (ctx : AgentCtx.t) (ident reason : string) (duration : option Z)
    (w : World) (u : DBUser.t) (d : BlockData) :
  enabled config bt = true ->
  resolved w (AgentCtx.adapter_key ctx) ident = Some u ->
  loaded (store w) (AgentCtx.chat_key ctx) = Ok d ->
  get_block d (DBUser.unique_id u) = None ->
  exists (p : bool) (e dur : option Z) (w1 : World) (k : bool -> M string),
    resolve_duration config duration w = (Ok (p, e, dur), w1)
    /\ (w1 = w \/ w1 = tick w)
    /\ block_user bt config host ctx ident reason duration w
       = bind (apply_block_to_system host (DBUser.unique_id u) bt e) k
           (after_save ctx ident
              (add_block d (new_record u bt reason (clock w1 (ticks w1)) e p)) w1)
    /\ k false = ret (block_failed_message u)
    /\ forall (ok : bool) (w3 : World),
         store (k ok w3).2 = store w3 /\ users (k ok w3).2 = users w3.
Proof.
  intros Hflag Hu Hd Hget.
  destruct (resolve_duration_run duration w) as (p & e & dur & w1 & Hres & Hw1 & _).
  assert (Hu1 : resolved w1 (AgentCtx.adapter_key ctx) ident = Some u)
    by (destruct Hw1 as [-> | ->]; exact Hu).
  assert (Hd1 : loaded (store w1) (AgentCtx.chat_key ctx) = Ok d)
    by (destruct Hw1 as [-> | ->]; exact Hd).
  exists p, e, dur, w1.
  destruct bt; simpl in Hflag.
  - destruct (block_user_prevent_trigger_path ctx ident reason duration
                w w1 p e dur u d Hflag Hres Hu1 Hd1 Hget) as (k & Hk1 & Hk2 & Hk3).
    exists k. split_and!; assumption.
  - destruct (block_user_full_path ctx ident reason duration
                w w1 p e dur u d Hflag Hres Hu1 Hd1 Hget) as (k & Hk1 & Hk2 & Hk3).
    exists k. split_and!; assumption.
Qed.

(** The duration handling changes neither the store nor the directory. *)
Lemma resolve_duration_frame (duration : option Z) (w w1 : World)
    (p : bool) (e dur : option Z) :
  resolve_duration config duration w = (Ok (p, e, dur), w1) ->
  store w1 = store w /\ users w1 = users w /\ trace w1 = trace w
  /\ clock w1 = clock w.
Proof.
  intros Hres.
  destruct (resolve_duration_run duration w) as (p' & e' & dur' & w1' & Hrun & Hw & _).
  rewrite Hrun in Hres. injection Hres as _ _ _ <-.
  destruct Hw as [-> | ->]; done.
Qed.

Lemma loaded_insert (st : gmap string Blob) (chat_key : string) (data : BlockData) :
  loaded (<[chat_key := Json data]> st) chat_key = Ok data.
Proof. unfold loaded. by rewrite lookup_insert_eq. Qed.

(** What a block handler leaves behind when it gets to create a record. *)
Lemma block_path_result (bt : BlockType)
    (ctx : AgentCtx.t) (ident reason : string) (duration : option Z)
    (w : World) (u : DBUser.t) (d : BlockData) :
  enabled config bt = true ->
  resolved w (AgentCtx.adapter_key ctx) ident = Some u ->
  loaded (store w) (AgentCtx.chat_key ctx) = Ok d ->
  get_block d (DBUser.unique_id u) = None ->
  exists (p : bool) (e dur : option Z) (w1 : World)
         (res : Result string) (w' : World),
    resolve_duration config duration w = (Ok (p, e, dur), w1)
    /\ block_user bt config host ctx ident reason duration w = (res, w')
    /\ store w'
       = <[AgentCtx.chat_key ctx :=
             Json (add_block d (new_record u bt reason (clock w1 (ticks w1)) e p))]>
           (store w)
    /\ get_block (add_block d (new_record u bt reason (clock w1 (ticks w1)) e p))
         (DBUser.unique_id u)
       = Some (new_record u bt reason (clock w1 (ticks w1)) e p).
Proof.
  intros Hflag Hu Hd Hget.
  destruct (block_path bt ctx ident reason duration w u d Hflag Hu Hd Hget)
    as (p & e & dur & w1 & k & Hres & Hw1 & Hrun & _ & Hk).
  set (r := new_record u bt reason (clock w1 (ticks w1)) e p) in *.
  destruct (apply_block_to_system_outcome host (DBUser.unique_id u) bt e
              (after_save ctx ident (add_block d r) w1))
    as (ok & w4 & Happly & Hstore & _).
  exists p, e, dur, w1, (k ok w4).1, (k ok w4).2. split_and!.
  - exact Hres.
  - rewrite Hrun. unfold bind. rewrite Happly. by destruct (k ok w4).
  - destruct (Hk ok w4) as [-> _]. rewrite Hstore.
    destruct Hw1 as [-> | ->]; reflexivity.
  - unfold get_block, add_block. simpl. apply PyDictFacts.get_setitem.
Qed.

End HandlerFacts.

(** ** methods.py: every path of the block and unblock handlers *)

Section HandlerRuns.

Variable config : BlockConfig.
Variable host : Host.

Lemma block_user_disabled (bt : BlockType)
    (ctx : AgentCtx.t) (ident reason : string) (duration : option Z) (w : World) :
  enabled config bt = false ->
  block_user bt config host ctx ident reason duration w
  = (Ok (disabled_message bt), w).
Proof.
  destruct bt; simpl; intros Hflag;
    unfold block_user_prevent_trigger, block_user_full; by rewrite Hflag.
Qed.

(** A block handler whose flag is on, path by path. *)
Lemma block_user_enabled (bt : BlockType)
    (ctx : AgentCtx.t) (ident reason : string) (duration : option Z)
    (w w1 : World) (p : bool) (e dur : option Z) :
  enabled config bt = true ->
  resolve_duration config duration w = (Ok (p, e, dur), w1) ->
  block_user bt config host ctx ident reason duration w
  = match resolved w1 (AgentCtx.adapter_key ctx) ident with
    | None =>
        (Ok (not_found_message ident),
         emit (EvDbQuery (AgentCtx.adapter_key ctx) ident) w1)
    | Some u =>
        let w2 := emit (EvStoreGet (AgentCtx.chat_key ctx))
                    (emit (EvDbQuery (AgentCtx.adapter_key ctx) ident) w1) in
        match loaded (store w1) (AgentCtx.chat_key ctx) with
        | Raise ex => (Raise ex, w2)
        | Ok d =>
            match get_block d (DBUser.unique_id u) with
            | Some existing => (Ok (already_blocked_message u existing), w2)
            | None =>
                bind (apply_block_to_system host (DBUser.unique_id u) bt e)
                  (block_reply bt ctx u reason p dur)
                  (after_save ctx ident
                     (add_block d (new_record u bt reason
                                     (clock w1 (ticks w1)) e p)) w1)
            end
        end
    end.
Proof.
  intros Hflag Hres.
  destruct bt; simpl in Hflag;
    unfold block_user, block_user_prevent_trigger, block_user_full;
    rewrite Hflag; cbn [negb];
    unfold bind at 1; rewrite Hres; cbv beta iota;
    unfold bind at 1; unfold DBUser_get_or_none at 1;
    fold (resolved w1 (AgentCtx.adapter_key ctx) ident);
    (destruct (resolved w1 (AgentCtx.adapter_key ctx) ident) as [u|];
       [| reflexivity]);
    unfold bind at 1; rewrite get_block_data_run;
    change (store (emit _ w1)) with (store w1);
    (destruct (loaded (store w1) (AgentCtx.chat_key ctx)) as [d|ex];
       [| reflexivity]);
    (destruct (get_block d (DBUser.unique_id u)) as [existing|];
       [reflexivity |]);
    unfold bind at 1; unfold time_now at 1;
    unfold bind at 1; rewrite save_block_data_run; reflexivity.
Qed.

(** The duration handling, with what it rebinds [duration_seconds] to. *)
Lemma resolve_duration_total (duration : option Z) (w : World) :
  exists (p : bool) (e dur : option Z) (w1 : World),
    resolve_duration config duration w = (Ok (p, e, dur), w1)
    /\ (w1 = w \/ w1 = tick w)
    /\ (p = true -> e = None)
    /\ (p = false -> exists s : Z, dur = Some s)
    /\ (forall s, duration = Some s -> 0 <= s -> p = false /\ dur = Some s)
    /\ (none_or_negative duration = true ->
        ALLOW_PERMANENT_BLOCK config = false ->
        p = false /\ dur = Some (DEFAULT_BLOCK_SECONDS config))
    /\ (none_or_negative duration = true ->
        ALLOW_PERMANENT_BLOCK config = true -> p = true).
Proof.
  unfold resolve_duration.
  destruct (none_or_negative duration) eqn:Hd;
    [destruct (ALLOW_PERMANENT_BLOCK config) |].
  - exists true, None, None, w. split_and!; try done; [by left |].
    intros s -> Hs. simpl in Hd. apply Z.ltb_lt in Hd. lia.
  - eexists false, _, _, (tick w).
    split_and!; [reflexivity | by right | done | by eexists | | done | done].
    intros s -> Hs. simpl in Hd. apply Z.ltb_lt in Hd. lia.
  - destruct duration as [s|]; [| done].
    eexists false, _, _, (tick w).
    split_and!; [reflexivity | by right | done | by eexists | | done | done].
    by intros s' [= <-] _.
Qed.

(** The reply after the system-effect call never raises, given what the
    duration handling yields. *)
Lemma block_reply_run (bt : BlockType) (ctx : AgentCtx.t) (u : DBUser.t)
    (reason : string) (p : bool) (dur : option Z) (w : World) :
  (p = false -> exists s : Z, dur = Some s) ->
  block_reply bt ctx u reason p dur false w = (Ok (block_failed_message u), w)
  /\ exists desc logdesc : string,
       block_reply bt ctx u reason p dur true w
       = (Ok (blocked_message bt u desc reason),
          emit (EvLog INFO (blocked_log bt ctx u reason logdesc)) w)
       /\ (p = true -> desc = "永久")
       /\ (forall s, p = false -> dur = Some s -> desc = duration_desc s).
Proof.
  intros Hdur. split; [reflexivity |]. unfold block_reply. cbn [negb].
  destruct p.
  - eexists _, _. split; [reflexivity |]. split; [done | discriminate].
  - destruct (Hdur eq_refl) as [s ->].
    eexists _, _. split; [reflexivity |]. split; [discriminate |].
    by intros s' _ [= <-].
Qed.

(** The unblock handler, path by path. *)
Lemma unblock_user_run (ctx : AgentCtx.t) (ident : string) (w : World) :
  unblock_user host ctx ident w
  = match resolved w (AgentCtx.adapter_key ctx) ident with
    | None =>
        (Ok (not_found_message ident),
         emit (EvDbQuery (AgentCtx.adapter_key ctx) ident) w)
    | Some u =>
        let w2 := emit (EvStoreGet (AgentCtx.chat_key ctx))
                    (emit (EvDbQuery (AgentCtx.adapter_key ctx) ident) w) in
        match loaded (store w) (AgentCtx.chat_key ctx) with
        | Raise ex => (Raise ex, w2)
        | Ok d =>
            match get_block d (DBUser.unique_id u) with
            | None => (Ok (not_blocked_message u), w2)
            | Some r =>
                match remove_block_from_system host (DBUser.unique_id u)
                        (block_type r) w2 with
                | (Raise ex, w3) => (Raise ex, w3)
                | (Ok false, w3) => (Ok (unblock_failed_message u), w3)
                | (Ok true, w3) =>
                    match remove_block d (DBUser.unique_id u) with
                    | Raise ex => (Raise ex, w3)
                    | Ok (d', _) =>
                        (Ok (unblocked_message u),
                         emit (EvLog INFO (unblocked_log ctx u))
                           (written (AgentCtx.chat_key ctx) d' w3))
                    end
                end
            end
        end
    end.
Proof.
  unfold unblock_user.
  unfold bind at 1. unfold DBUser_get_or_none at 1.
  fold (resolved w (AgentCtx.adapter_key ctx) ident).
  destruct (resolved w (AgentCtx.adapter_key ctx) ident) as [u|]; [| reflexivity].
  unfold bind at 1. rewrite get_block_data_run.
  change (store (emit _ w)) with (store w).
  destruct (loaded (store w) (AgentCtx.chat_key ctx)) as [d|ex]; [| reflexivity].
  destruct (get_block d (DBUser.unique_id u)) as [r|]; [| reflexivity].
  cbv zeta. unfold bind at 1.
  destruct (remove_block_from_system host _ _ _) as [[[]|ex] w3]; [| reflexivity..].
  cbn [negb]. unfold bind at 1, lift at 1.
  destruct (remove_block d (DBUser.unique_id u)) as [[d' removed]|ex];
    reflexivity.
Qed.

Lemma loaded_Raise (st : gmap string Blob) (chat_key : string) (ex : exn) :
  loaded st chat_key = Raise ex ->
  exists s : string, ex = ValidationError s /\ s <> "" /\ st !! chat_key = Some (Text s).
Proof.
  unfold loaded. destruct (st !! chat_key) as [[d|s]|]; simpl; try done.
  destruct (bool_decide (s = "")) eqn:E; simpl; [done |].
  apply bool_decide_eq_false in E. intros [= <-]. by exists s.
Qed.

Lemma remove_block_present (d : BlockData) (k : string) (r : BlockRecord) :
  get_block d k = Some r -> exists d', remove_block d k = Ok (d', true).
Proof.
  unfold get_block, remove_block, PyDict.contains. intros Hg. rewrite Hg.
  destruct (PyDictFacts.delitem_Some _ _ _ Hg) as [d' ->]. by eexists.
Qed.

End HandlerRuns.

(** ** Claims about the handlers *)

Section Claims_handlers.

Variable config : BlockConfig.
Variable host : Host.

(** C4. A record built by a block handler (either type, any duration
    argument, any configuration: whenever the flag of the type is on, the
    user resolves and has no record yet, which is when a record is built) is
    consistent: [is_permanent = true] implies [expire_time = None] and
    [is_permanent = false] implies that [expire_time] is an integer. The
    record is the one the handler leaves in the store. *)
Theorem block_record_consistent (bt : BlockType)
    (ctx : AgentCtx.t) (ident reason : string) (duration : option Z)
    (w : World) (u : DBUser.t) (d : BlockData) :
  enabled config bt = true ->
  resolved w (AgentCtx.adapter_key ctx) ident = Some u ->
  loaded (store w) (AgentCtx.chat_key ctx) = Ok d ->
  get_block d (DBUser.unique_id u) = None ->
  exists (r : BlockRecord) (res : Result string) (w' : World),
    block_user bt config host ctx ident reason duration w = (res, w')
    /\ loaded (store w') (AgentCtx.chat_key ctx) = Ok (add_block d r)
    /\ get_block (add_block d r) (DBUser.unique_id u) = Some r
    /\ block_type r = bt
    /\ (is_permanent r = true -> expire_time r = None)
    /\ (is_permanent r = false -> exists e : Z, expire_time r = Some e).
Proof.
  intros Hflag Hu Hd Hget.
  destruct (block_path_result config host bt ctx ident reason duration w u d
              Hflag Hu Hd Hget)
    as (p & e & dur & w1 & res & w' & Hres & Hrun & Hstore & Hrec).
  destruct (resolve_duration_run config duration w)
    as (p' & e' & dur' & w1' & Hres' & _ & Hperm & Htimed).
  rewrite Hres in Hres'. injection Hres' as <- <- <- <-.
  eexists _, res, w'. split_and!; [exact Hrun | | exact Hrec | | |].
  - rewrite Hstore. apply loaded_insert.
  - reflexivity.
  - exact Hperm.
  - exact Htimed.
Qed.

(** C5. A block handler of either type, invoked (with its flag on) for a
    user who already has a record in the loaded collection, whatever the
    type of that record, replies with the already-blocked message, which
    contains the description of the existing block type, and changes
    nothing: store, collection and directory are as before, and the handler
    has only queried the directory and read the store. *)
Theorem block_rejects_blocked_user (bt : BlockType)
    (ctx : AgentCtx.t) (ident reason : string) (duration : option Z)
    (w : World) (u : DBUser.t) (d : BlockData) (existing : BlockRecord) :
  enabled config bt = true ->
  resolved w (AgentCtx.adapter_key ctx) ident = Some u ->
  loaded (store w) (AgentCtx.chat_key ctx) = Ok d ->
  get_block d (DBUser.unique_id u) = Some existing ->
  exists w' : World,
    block_user bt config host ctx ident reason duration w
    = (Ok (already_blocked_message u existing), w')
    /\ contains_text (already_blocked_message u existing)
         (get_block_type_description (block_type existing))
    /\ store w' = store w
    /\ users w' = users w
    /\ loaded (store w') (AgentCtx.chat_key ctx) = Ok d
    /\ trace w'
       = trace w ++ [EvDbQuery (AgentCtx.adapter_key ctx) ident;
                     EvStoreGet (AgentCtx.chat_key ctx)].
Proof.
  intros Hflag Hu Hd Hget.
  destruct (resolve_duration_run config duration w)
    as (p & e & dur & w1 & Hres & Hw1 & _).
  assert (Hu1 : resolved w1 (AgentCtx.adapter_key ctx) ident = Some u)
    by (destruct Hw1 as [-> | ->]; exact Hu).
  assert (Hd1 : loaded (store w1) (AgentCtx.chat_key ctx) = Ok d)
    by (destruct Hw1 as [-> | ->]; exact Hd).
  exists (emit (EvStoreGet (AgentCtx.chat_key ctx))
            (emit (EvDbQuery (AgentCtx.adapter_key ctx) ident) w1)).
  split_and!.
  - destruct bt; simpl in Hflag;
      unfold block_user, block_user_prevent_trigger, block_user_full;
      rewrite Hflag; cbn [negb];
      unfold bind at 1; rewrite Hres; cbv beta iota;
      unfold bind at 1; unfold DBUser_get_or_none at 1;
      fold (resolved w1 (AgentCtx.adapter_key ctx) ident); rewrite Hu1;
      unfold bind at 1; rewrite get_block_data_run;
      change (store (emit _ w1)) with (store w1);
      rewrite Hd1, Hget; reflexivity.
  - exists ("⚠️ 用户 " +:+ DBUser.username u +:+ " 已经被"), "，无需重复操作".
    unfold already_blocked_message.
    by rewrite !string_app_assoc.
  - destruct Hw1 as [-> | ->]; reflexivity.
  - destruct Hw1 as [-> | ->]; reflexivity.
  - destruct Hw1 as [-> | ->]; exact Hd.
  - destruct Hw1 as [-> | ->]; simpl; by rewrite <- app_assoc.
Qed.

(** C7. On the block path of either type the collection with the new
    record is written to the store before the system-effect call, on every
    run. The handler is exactly: the system-effect call for the expiry of
    the new record, run in the world [w_saved] that the handler has reached
    by then, followed by the reply to its outcome, which touches neither
    the store nor the directory. In [w_saved] the duration is resolved, the
    store already holds the collection with the new record under the chat
    key and is otherwise as it was, the directory is as it was, and the
    write is the last event of the trace. The call returns a boolean,
    leaves the store alone and adds directory events only; the handler then
    ends in the world the call left, plus one log line when the call
    returned true. Whenever the call returns false the handler replies with
    the failure message, and the store still holds the new record: nothing
    is rolled back. *)
Theorem block_persists_before_apply (bt : BlockType)
    (ctx : AgentCtx.t) (ident reason : string) (duration : option Z)
    (w : World) (u : DBUser.t) (d : BlockData) :
  enabled config bt = true ->
  resolved w (AgentCtx.adapter_key ctx) ident = Some u ->
  loaded (store w) (AgentCtx.chat_key ctx) = Ok d ->
  get_block d (DBUser.unique_id u) = None ->
  exists (p : bool) (e dur : option Z) (w1 : World)
         (r : BlockRecord) (w_saved : World),
    resolve_duration config duration w = (Ok (p, e, dur), w1)
    /\ (w1 = w \/ w1 = tick w)
    /\ r = new_record u bt reason (clock w1 (ticks w1)) e p
    /\ w_saved = after_save ctx ident (add_block d r) w1
    /\ block_user bt config host ctx ident reason duration w
       = bind (apply_block_to_system host (DBUser.unique_id u) bt (expire_time r))
           (block_reply bt ctx u reason p dur) w_saved
    /\ get_block (add_block d r) (DBUser.unique_id u) = Some r
    /\ store w_saved
       = <[AgentCtx.chat_key ctx := Json (add_block d r)]> (store w)
    /\ loaded (store w_saved) (AgentCtx.chat_key ctx) = Ok (add_block d r)
    /\ users w_saved = users w
    /\ trace w_saved
       = trace w ++ [EvDbQuery (AgentCtx.adapter_key ctx) ident;
                     EvStoreGet (AgentCtx.chat_key ctx);
                     EvStoreSet (AgentCtx.chat_key ctx) (Json (add_block d r))]
    /\ exists (ok : bool) (w' : World) (evs : list Event),
         apply_block_to_system host (DBUser.unique_id u) bt (expire_time r) w_saved
         = (Ok ok, w')
         /\ store w' = store w_saved
         /\ trace w' = trace w_saved ++ evs
         /\ Forall db_event evs
         /\ (ok = false ->
             block_user bt config host ctx ident reason duration w
             = (Ok (block_failed_message u), w')
             /\ loaded (store w') (AgentCtx.chat_key ctx) = Ok (add_block d r)
             /\ users w' = users w)
         /\ (ok = true ->
             exists desc logdesc : string,
               block_user bt config host ctx ident reason duration w
               = (Ok (blocked_message bt u desc reason),
                  emit (EvLog INFO (blocked_log bt ctx u reason logdesc)) w')).
Proof.
  intros Hflag Hu Hd Hget.
  destruct (resolve_duration_total config duration w)
    as (p & e & dur & w1 & Hres & Hw1 & _ & Hdur & _).
  assert (Hu1 : resolved w1 (AgentCtx.adapter_key ctx) ident = Some u)
    by (destruct Hw1 as [-> | ->]; exact Hu).
  assert (Hd1 : loaded (store w1) (AgentCtx.chat_key ctx) = Ok d)
    by (destruct Hw1 as [-> | ->]; exact Hd).
  set (r := new_record u bt reason (clock w1 (ticks w1)) e p).
  set (w_saved := after_save ctx ident (add_block d r) w1).
  assert (Hrun : block_user bt config host ctx ident reason duration w
                 = bind (apply_block_to_system host (DBUser.unique_id u) bt e)
                     (block_reply bt ctx u reason p dur) w_saved).
  { rewrite (block_user_enabled config host bt ctx ident reason duration
               w w1 p e dur Hflag Hres).
    rewrite Hu1. cbv zeta. by rewrite Hd1, Hget. }
  assert (Hloaded : loaded (store w_saved) (AgentCtx.chat_key ctx)
                    = Ok (add_block d r)) by apply loaded_insert.
  destruct (apply_block_to_system_outcome host (DBUser.unique_id u) bt e w_saved)
    as (ok & w' & Happly & Hstore & _ & _ & Hfailusers & evs & Htrace & Hevs).
  destruct (block_reply_run bt ctx u reason p dur w' Hdur)
    as (Hfail & desc & logdesc & Hok & _).
  exists p, e, dur, w1, r, w_saved.
  split_and!; [exact Hres | exact Hw1 | reflexivity | reflexivity | exact Hrun
              | | | exact Hloaded | | |].
  - unfold get_block, add_block. simpl. apply PyDictFacts.get_setitem.
  - destruct Hw1 as [-> | ->]; reflexivity.
  - destruct Hw1 as [-> | ->]; reflexivity.
  - destruct Hw1 as [-> | ->]; simpl; by rewrite <- !app_assoc.
  - exists ok, w', evs.
    split_and!; [exact Happly | exact Hstore | exact Htrace | exact Hevs | |].
    + intros ->. split_and!.
      * rewrite Hrun. unfold bind. by rewrite Happly, Hfail.
      * by rewrite Hstore.
      * rewrite (Hfailusers eq_refl). destruct Hw1 as [-> | ->]; reflexivity.
    + intros ->. exists desc, logdesc.
      rewrite Hrun. unfold bind. by rewrite Happly, Hok.
Qed.

(** C8. The record a block handler of either type stores comes out of the
    duration handling as follows: an explicit non-negative
    [duration_seconds] gives [is_permanent = false] and the expiry that
    [calculate_expire_time(duration_seconds)] returns; an absent or negative
    one gives a permanent record without expiry when
    [ALLOW_PERMANENT_BLOCK] is on, and otherwise a non-permanent record
    whose expiry is [calculate_expire_time(DEFAULT_BLOCK_SECONDS)]. *)
Theorem block_duration_resolution (bt : BlockType)
    (ctx : AgentCtx.t) (ident reason : string) (duration : option Z)
    (w : World) (u : DBUser.t) (d : BlockData) :
  enabled config bt = true ->
  resolved w (AgentCtx.adapter_key ctx) ident = Some u ->
  loaded (store w) (AgentCtx.chat_key ctx) = Ok d ->
  get_block d (DBUser.unique_id u) = None ->
  exists (r : BlockRecord) (res : Result string) (w' : World),
    block_user bt config host ctx ident reason duration w = (res, w')
    /\ loaded (store w') (AgentCtx.chat_key ctx) = Ok (add_block d r)
    /\ get_block (add_block d r) (DBUser.unique_id u) = Some r
    /\ (forall s : Z, duration = Some s -> 0 <= s ->
        is_permanent r = false
        /\ (calculate_expire_time config (Some s) w).1 = Ok (expire_time r))
    /\ (none_or_negative duration = true ->
        ALLOW_PERMANENT_BLOCK config = true ->
        is_permanent r = true /\ expire_time r = None)
    /\ (none_or_negative duration = true ->
        ALLOW_PERMANENT_BLOCK config = false ->
        is_permanent r = false
        /\ (calculate_expire_time config (Some (DEFAULT_BLOCK_SECONDS config)) w).1
           = Ok (expire_time r)).
Proof.
  intros Hflag Hu Hd Hget.
  destruct (block_path_result config host bt ctx ident reason duration w u d
              Hflag Hu Hd Hget)
    as (p & e & dur & w1 & res & w' & Hres & Hrun & Hstore & Hrec).
  destruct (resolve_duration_cases config duration w)
    as (Hexplicit & Hpermanent & Hdefault).
  eexists _, res, w'. split_and!; [exact Hrun | | exact Hrec | | |].
  - rewrite Hstore. apply loaded_insert.
  - intros s Hs Hpos. destruct (Hexplicit s Hs Hpos) as (e' & Hcalc & Hres').
    rewrite Hres in Hres'. injection Hres' as -> -> _ _.
    by rewrite Hcalc.
  - intros Hnone Hallow. specialize (Hpermanent Hnone Hallow).
    rewrite Hres in Hpermanent. by injection Hpermanent as -> -> _ _.
  - intros Hnone Hallow. destruct (Hdefault Hnone Hallow) as (e' & Hcalc & Hres').
    rewrite Hres in Hres'. injection Hres' as -> -> _ _.
    by rewrite Hcalc.
Qed.

(** C6. The unblock handler, once the user is resolved and the collection
    loaded. With no record for the user it replies not-blocked and has only
    queried the directory and read the store. With a record, the
    system-effect removal comes first, on a store that is still as loaded;
    it returns a boolean. When it returns false the handler replies with the
    failure message and the store is as it was, never written. Only when it
    returns true is the record deleted from the collection and the
    collection written, after the directory events of the removal. *)
Theorem unblock_user_order
    (ctx : AgentCtx.t) (ident : string)
    (w : World) (u : DBUser.t) (d : BlockData) :
  resolved w (AgentCtx.adapter_key ctx) ident = Some u ->
  loaded (store w) (AgentCtx.chat_key ctx) = Ok d ->
  let w1 := emit (EvStoreGet (AgentCtx.chat_key ctx))
              (emit (EvDbQuery (AgentCtx.adapter_key ctx) ident) w) in
  store w1 = store w
  /\ trace w1 = trace w ++ [EvDbQuery (AgentCtx.adapter_key ctx) ident;
                            EvStoreGet (AgentCtx.chat_key ctx)]
  /\ (get_block d (DBUser.unique_id u) = None ->
      unblock_user host ctx ident w = (Ok (not_blocked_message u), w1))
  /\ (forall r : BlockRecord,
        get_block d (DBUser.unique_id u) = Some r ->
        exists (ok : bool) (w2 : World) (evs : list Event),
          remove_block_from_system host (DBUser.unique_id u) (block_type r) w1
          = (Ok ok, w2)
          /\ store w2 = store w
          /\ trace w2 = trace w1 ++ evs /\ Forall db_event evs
          /\ (ok = false ->
              unblock_user host ctx ident w = (Ok (unblock_failed_message u), w2))
          /\ (ok = true ->
              exists (d' : BlockData) (w3 : World) (log : string),
                remove_block d (DBUser.unique_id u) = Ok (d', true)
                /\ (PyDict.keys_unique (blocks d) ->
                    get_block d' (DBUser.unique_id u) = None
                    /\ forall k, k <> DBUser.unique_id u ->
                                 get_block d' k = get_block d k)
                /\ unblock_user host ctx ident w = (Ok (unblocked_message u), w3)
                /\ store w3 = <[AgentCtx.chat_key ctx := Json d']> (store w)
                /\ users w3 = users w2
                /\ trace w3
                   = trace w2 ++ [EvStoreSet (AgentCtx.chat_key ctx) (Json d');
                                  EvLog INFO log])).
Proof.
  intros Hu Hd w1.
  assert (Hprefix : forall k : DBUser.t -> BlockData -> M string,
    bind (DBUser_get_or_none (AgentCtx.adapter_key ctx) ident)
      (fun user => match user with
                   | None => ret ("❌ 未找到用户: " +:+ ident)
                   | Some user =>
                       bind (get_block_data (AgentCtx.chat_key ctx)) (k user)
                   end) w
    = k u d w1).
  { intros k. unfold bind at 1. unfold DBUser_get_or_none at 1.
    fold (resolved w (AgentCtx.adapter_key ctx) ident). rewrite Hu.
    unfold bind at 1. rewrite get_block_data_run.
    change (store (emit _ w)) with (store w). by rewrite Hd. }
  split_and!.
  - reflexivity.
  - unfold w1. simpl. by rewrite <- app_assoc.
  - intros Hget. unfold unblock_user. rewrite Hprefix. by rewrite Hget.
  - intros r Hget.
    destruct (remove_block_from_system_outcome host (DBUser.unique_id u)
                (block_type r) w1)
      as (ok & w2 & Hremove & Hstore & _ & _ & _ & evs & Htrace & Hevs).
    exists ok, w2, evs. split_and!; [done | done | done | done | |].
    + intros ->. unfold unblock_user. rewrite Hprefix, Hget.
      unfold bind at 1. by rewrite Hremove.
    + intros ->.
      destruct (PyDictFacts.delitem_Some _ _ _ Hget) as [d' Hdel].
      assert (Hrm : remove_block d (DBUser.unique_id u)
                    = Ok ({| blocks := d' |}, true)).
      { unfold remove_block, PyDict.contains. unfold get_block in Hget.
        by rewrite Hget, Hdel. }
      eexists {| blocks := d' |}, _, _. split_and!.
      * exact Hrm.
      * intros Huniq. unfold get_block in *. simpl.
        assert (Hin : DBUser.unique_id u ∈ PyDict.keys (blocks d)).
        { destruct (decide (DBUser.unique_id u ∈ PyDict.keys (blocks d)))
            as [|Hn]; [done |].
          apply PyDictFacts.get_None_keys in Hn. congruence. }
        rewrite (PyDictFacts.delitem_unique _ _ Huniq Hin) in Hdel.
        injection Hdel as <-. split.
        -- apply PyDictFacts.get_without.
        -- intros k Hk. by apply PyDictFacts.get_without_ne.
      * unfold unblock_user. rewrite Hprefix, Hget.
        unfold bind at 1. rewrite Hremove. cbn [negb].
        unfold bind at 1, lift at 1. rewrite Hrm. reflexivity.
      * simpl. by rewrite Hstore.
      * reflexivity.
      * simpl. by rewrite <- app_assoc.
Qed.

(** C9. For every user id and block type, applying a block with no expiry
    is the very computation of removing the block: same result, same
    directory, same trace. A timestamp of [0] is treated alike, being falsy.
    When it succeeds, the entity it persists has the field selected by the
    block type cleared and is otherwise the resolved entity. *)
Theorem apply_without_expiry_is_remove
    (user_id : string) (bt : BlockType) (w : World) :
  apply_block_to_system host user_id bt None w
  = remove_block_from_system host user_id bt w
  /\ apply_block_to_system host user_id bt (Some 0) w
     = remove_block_from_system host user_id bt w
  /\ forall w' : World,
       remove_block_from_system host user_id bt w = (Ok true, w') ->
       exists (a p : string) (found saved : DBUser.t),
         split_once ":"%char user_id = Some (a, p)
         /\ resolved w a p = Some found
         /\ saved = (if decide (bt = PREVENT_TRIGGER)
                     then DBUser.set_prevent_trigger_until found None
                     else DBUser.set_ban_until found None)
         /\ selected_field bt saved = None
         /\ users w' = put_user saved (users w)
         /\ trace w' = trace w ++ [EvDbQuery a p; EvDbSave saved].
Proof.
  split_and!; [reflexivity | reflexivity |].
  intros w'. unfold remove_block_from_system.
  unfold try_except at 1. unfold bind at 1. rewrite get_user_by_unique_id_run.
  destruct (split_once ":"%char user_id) as [[a p]|]; [| discriminate].
  destruct (found_by_union_id w a p) as [found|] eqn:Hfound; [| discriminate].
  apply found_by_union_id_resolved in Hfound.
  unfold bind, DBUser_save, ret.
  destruct (save_ok host _); [| discriminate].
  intros [= <-]. eexists a, p, found, _.
  split_and!; [reflexivity | exact Hfound | reflexivity | | reflexivity |].
  - by destruct bt.
  - simpl. by rewrite <- app_assoc.
Qed.

(** [format_time_remaining] always yields a text; it touches neither the
    store nor the directory nor the trace. *)
Lemma format_time_remaining_ok (e : option Z) (w : World) :
  exists (text : string) (w' : World),
    format_time_remaining e w = (Ok text, w')
    /\ store w' = store w /\ users w' = users w /\ trace w' = trace w.
Proof.
  destruct e as [e|]; [| by eexists _, w].
  unfold format_time_remaining, bind, time_now, ret.
  destruct (e - clock w (ticks w) <=? 0); [by eexists _, _ |].
  destruct (_ >? 0); [by eexists _, _ |].
  destruct (_ >? 0); by eexists _, _.
Qed.

Lemma prompt_entry_ok (item : string * BlockRecord) (w : World) :
  exists (line : string) (w' : World),
    prompt_entry item w = (Ok line, w')
    /\ prompt_line item line
    /\ store w' = store w /\ users w' = users w /\ trace w' = trace w.
Proof.
  destruct item as [k r]. unfold prompt_entry, prompt_line. simpl.
  destruct (is_permanent r) eqn:Hp.
  - eexists _, w. split; [reflexivity |]. split; [| done].
    eexists. split; [reflexivity |]. split; [done | discriminate].
  - destruct (format_time_remaining_ok (expire_time r) w)
      as (text & w' & Hrun & Hframe).
    eexists _, w'. unfold bind. rewrite Hrun. split; [reflexivity |].
    split; [| exact Hframe].
    exists text. split; [reflexivity |]. split; [discriminate |].
    intros _. exists w. by rewrite Hrun.
Qed.

Lemma mapM_prompt_entry_ok (l : list (string * BlockRecord)) (w : World) :
  exists (lines : list string) (w' : World),
    mapM prompt_entry l w = (Ok lines, w')
    /\ Forall2 prompt_line l lines
    /\ store w' = store w /\ users w' = users w /\ trace w' = trace w.
Proof.
  revert w. induction l as [|item l IH]; intros w.
  - exists [], w. by split_and!.
  - destruct (prompt_entry_ok item w) as (line & w1 & Hrun & Hline & Hs & Hu & Ht).
    destruct (IH w1) as (lines & w2 & Hruns & Hlines & Hs' & Hu' & Ht').
    exists (line :: lines), w2. simpl. unfold bind at 1. rewrite Hrun.
    unfold bind at 1. rewrite Hruns. split; [reflexivity |].
    split_and!; [by constructor | congruence | congruence | congruence].
Qed.

Lemma slice_to_min {A} (l : list A) (max : Z) :
  0 <= max ->
  slice_to l (Z.min (len l) max) = take (Z.to_nat (Z.min (len l) max)) l.
Proof.
  intros Hmax. unfold slice_to, len.
  destruct (Z.min _ _ <? 0) eqn:E; [| done]. apply Z.ltb_lt in E. lia.
Qed.

(** C10. The prompt summary over a non-empty active set of [n] records,
    under a configuration within the declared bounds: it never raises; its
    text is the header, then exactly [min(n, MAX_PROMPT_DISPLAY_COUNT)]
    entry lines, one for each of the first records of the active set in
    order (block-type symbol, display name, remaining time or the infinity
    symbol, reason), then the marker of [n - MAX_PROMPT_DISPLAY_COUNT] more
    entries exactly when [n] exceeds [MAX_PROMPT_DISPLAY_COUNT]; the lines
    are joined by newlines. The active set is taken at the second clock
    reading, from the collection cleaned at the first. *)
Theorem prompt_summary_truncates
    (ctx : AgentCtx.t) (w : World) (d : BlockData) :
  SHOW_BLOCKED_USERS_IN_PROMPT config = true ->
  config_valid config ->
  loaded (store w) (AgentCtx.chat_key ctx) = Ok d ->
  PyDict.keys_unique (blocks d) ->
  exists (d1 : BlockData) (cleaned : Z),
    cleanup_expired d (clock w (ticks w)) = Ok (d1, cleaned)
    /\ let active := get_active_blocks d1 (clock w (S (ticks w))) in
       let n := len active in
       let max := MAX_PROMPT_DISPLAY_COUNT config in
       active <> [] ->
       exists (entries : list string) (w' : World),
         inject_blocked_users_prompt config ctx w
         = (Ok (String.concat NL
                  ("Current Blocked Users:" :: entries ++ more_marker n max)),
            w')
         /\ len entries = Z.min n max
         /\ Forall2 prompt_line (take (Z.to_nat (Z.min n max)) active) entries
         /\ (more_marker n max <> [] <-> n > max)
         /\ (n > max ->
             more_marker n max
             = ["  ... and " +:+ pretty (n - max) +:+ " more"]).
Proof.
  intros Hshow (_ & _ & Hmax & _) Hd Huniq.
  pose proof (cleanup_expired_filter d (clock w (ticks w)) Huniq) as Hclean.
  set (d1 := {| blocks := List.filter _ (blocks d) |}) in Hclean.
  eexists d1, _. split; [exact Hclean |].
  intros active n max Hne.
  destruct (mapM_prompt_entry_ok (take (Z.to_nat (Z.min n max)) active)
              (tick (written (AgentCtx.chat_key ctx) d1
                       (tick (emit (EvStoreGet (AgentCtx.chat_key ctx)) w)))))
    as (entries & w' & Hentries & Hlines & _).
  exists entries, w'.
  assert (Hlen : len entries = Z.min n max).
  { unfold len. rewrite <- (Forall2_length _ _ _ Hlines), length_take.
    unfold n, len. lia. }
  split_and!.
  - unfold inject_blocked_users_prompt, try_except. rewrite Hshow. cbn [negb].
    unfold bind at 1. rewrite get_block_data_run, Hd.
    unfold bind at 1, time_now at 1.
    unfold bind at 1, lift at 1.
    change (clock (emit _ w) (ticks (emit _ w))) with (clock w (ticks w)).
    rewrite Hclean.
    unfold bind at 1. rewrite save_block_data_run.
    unfold bind at 1, time_now at 1.
    change (clock (written _ _ _) (ticks (written _ _ _)))
      with (clock w (S (ticks w))).
    fold active.
    assert (Hmatch : forall A B : M string,
              match active with [] => A | _ :: _ => B end = B)
      by (intros A B; destruct active; done).
    rewrite Hmatch.
    rewrite slice_to_min by lia. fold n max.
    unfold bind at 1. rewrite Hentries. unfold ret. do 3 f_equal.
    unfold more_marker.
    destruct (n >? Z.min n max) eqn:E1; destruct (n >? max) eqn:E2;
      try apply Z.gtb_lt in E1; try apply Z.gtb_lt in E2;
      try (apply Z.gtb_ltb, Z.ltb_ge in E1); try (apply Z.gtb_ltb, Z.ltb_ge in E2);
      try lia.
    + replace (Z.min n max) with max by lia. done.
    + by rewrite app_nil_r.
  - exact Hlen.
  - exact Hlines.
  - unfold more_marker. destruct (n >? max) eqn:E.
    + apply Z.gtb_lt in E. split; [lia | done].
    + rewrite Z.gtb_ltb in E. apply Z.ltb_ge in E. split; [done | lia].
  - intros Hgt. unfold more_marker.
    destruct (n >? max) eqn:E; [done |].
    rewrite Z.gtb_ltb in E. apply Z.ltb_ge in E. lia.
Qed.

End Claims_handlers.

(** ** The handler claims at sample inputs *)

Lemma block_record_consistent_witness :
  exists (r : BlockRecord) (res : Result string) (w' : World),
    block_user FULL_BLOCK Sample.uncapped Sample.reliable Sample.ctx
      "1001" "spam" None (Sample.world ∅) = (res, w')
    /\ loaded (store w') "chat1" = Ok (add_block BlockData_empty r)
    /\ get_block (add_block BlockData_empty r) "qq:1001" = Some r
    /\ block_type r = FULL_BLOCK
    /\ (is_permanent r = true -> expire_time r = None)
    /\ (is_permanent r = false -> exists e : Z, expire_time r = Some e).
Proof.
  apply (block_record_consistent Sample.uncapped Sample.reliable FULL_BLOCK
           Sample.ctx "1001" "spam" None (Sample.world ∅)
           Sample.alice BlockData_empty); reflexivity.
Defined.

Lemma block_rejects_blocked_user_witness :
  exists w' : World,
    block_user PREVENT_TRIGGER Sample.capped Sample.reliable Sample.ctx
      "1001" "again" (Some 60)
      (Sample.world {["chat1" := Json (Sample.alice_blocked FULL_BLOCK)]})
    = (Ok (already_blocked_message Sample.alice (Sample.alice_record FULL_BLOCK)),
       w')
    /\ store w' = {["chat1" := Json (Sample.alice_blocked FULL_BLOCK)]}
    /\ users w' = [Sample.alice]
    /\ trace w' = [EvDbQuery "qq" "1001"; EvStoreGet "chat1"].
Proof.
  destruct (block_rejects_blocked_user Sample.capped Sample.reliable
              PREVENT_TRIGGER Sample.ctx "1001" "again" (Some 60)
              (Sample.world {["chat1" := Json (Sample.alice_blocked FULL_BLOCK)]})
              Sample.alice (Sample.alice_blocked FULL_BLOCK)
              (Sample.alice_record FULL_BLOCK))
    as (w' & Hrun & _ & Hstore & Husers & _ & Htrace);
    [reflexivity | reflexivity | reflexivity | reflexivity |].
  exists w'. split_and!; assumption.
Defined.

Lemma unblock_user_order_witness :
  (exists w' : World,
     unblock_user Sample.reliable Sample.ctx "1001" (Sample.world ∅)
     = (Ok (not_blocked_message Sample.alice), w')
     /\ store w' = ∅
     /\ trace w' = [EvDbQuery "qq" "1001"; EvStoreGet "chat1"])
  /\ (exists (ok : bool) (w2 : World),
        remove_block_from_system Sample.read_only "qq:1001" FULL_BLOCK
          (emit (EvStoreGet "chat1")
             (emit (EvDbQuery "qq" "1001")
                (Sample.world
                   {["chat1" := Json (Sample.alice_blocked FULL_BLOCK)]})))
        = (Ok ok, w2)
        /\ store w2 = {["chat1" := Json (Sample.alice_blocked FULL_BLOCK)]}
        /\ (ok = false ->
            unblock_user Sample.read_only Sample.ctx "1001"
              (Sample.world {["chat1" := Json (Sample.alice_blocked FULL_BLOCK)]})
            = (Ok (unblock_failed_message Sample.alice), w2))).
Proof.
  split.
  - destruct (unblock_user_order Sample.reliable Sample.ctx "1001"
                (Sample.world ∅) Sample.alice BlockData_empty)
      as (Hstore & Htrace & Hnone & _); [reflexivity | reflexivity |].
    eexists. split_and!; [apply Hnone; reflexivity | exact Hstore | exact Htrace].
  - destruct (unblock_user_order Sample.read_only Sample.ctx "1001"
                (Sample.world {["chat1" := Json (Sample.alice_blocked FULL_BLOCK)]})
                Sample.alice (Sample.alice_blocked FULL_BLOCK))
      as (_ & _ & _ & Hsome); [reflexivity | reflexivity |].
    destruct (Hsome (Sample.alice_record FULL_BLOCK))
      as (ok & w2 & evs & Hremove & Hstore & _ & _ & Hfail & _); [reflexivity |].
    exists ok, w2. split_and!; assumption.
Defined.

Lemma block_persists_before_apply_witness :
  exists (r : BlockRecord) (w_saved w' : World),
    expire_time r = Some 4600
    /\ block_user PREVENT_TRIGGER Sample.capped Sample.read_only Sample.ctx
         "1001" "spam" (Some 3600) (Sample.world ∅)
       = bind (apply_block_to_system Sample.read_only "qq:1001" PREVENT_TRIGGER
                 (expire_time r))
           (block_reply PREVENT_TRIGGER Sample.ctx Sample.alice "spam" false
              (Some 3600)) w_saved
    /\ store w_saved = {["chat1" := Json (add_block BlockData_empty r)]}
    /\ users w_saved = [Sample.alice]
    /\ trace w_saved
       = [EvDbQuery "qq" "1001"; EvStoreGet "chat1";
          EvStoreSet "chat1" (Json (add_block BlockData_empty r))]
    /\ apply_block_to_system Sample.read_only "qq:1001" PREVENT_TRIGGER
         (expire_time r) w_saved = (Ok false, w')
    /\ block_user PREVENT_TRIGGER Sample.capped Sample.read_only Sample.ctx
         "1001" "spam" (Some 3600) (Sample.world ∅)
       = (Ok (block_failed_message Sample.alice), w')
    /\ loaded (store w') "chat1" = Ok (add_block BlockData_empty r).
Proof.
  destruct (block_persists_before_apply Sample.capped Sample.read_only
              PREVENT_TRIGGER Sample.ctx "1001" "spam" (Some 3600)
              (Sample.world ∅) Sample.alice BlockData_empty)
    as (p & e & dur & w1 & r & w_saved & Hres & _ & Hr & Hsaved & Hrun & _
        & Hstore & _ & Husers & Htrace & ok & w' & evs & Happly & _ & _ & _
        & Hfail & _);
    [reflexivity | reflexivity | reflexivity | reflexivity |].
  assert (Hres' : resolve_duration Sample.capped (Some 3600) (Sample.world ∅)
                  = (Ok (false, Some 4600, Some 3600), tick (Sample.world ∅)))
    by reflexivity.
  rewrite Hres' in Hres. injection Hres as <- <- <- <-.
  assert (Hok : ok = false).
  { assert (Heval : apply_block_to_system Sample.read_only
                      (DBUser.unique_id Sample.alice) PREVENT_TRIGGER
                      (expire_time r) w_saved
                    = (Ok false, emit (EvDbQuery "qq" "1001") w_saved))
      by (rewrite Hsaved, Hr; reflexivity).
    rewrite Heval in Happly. by injection Happly as <-. }
  subst ok. destruct (Hfail eq_refl) as (Hreply & Hstill & _).
  exists r, w_saved, w'.
  split_and!; [by rewrite Hr | exact Hrun | | exact Husers | exact Htrace
              | exact Happly | exact Hreply | exact Hstill].
  rewrite Hstore. reflexivity.
Defined.

Lemma block_duration_resolution_witness :
  (exists (r : BlockRecord) (res : Result string) (w' : World),
     block_user PREVENT_TRIGGER Sample.capped Sample.reliable Sample.ctx
       "1001" "spam" (Some 3600) (Sample.world ∅) = (res, w')
     /\ loaded (store w') "chat1" = Ok (add_block BlockData_empty r)
     /\ is_permanent r = false /\ expire_time r = Some 4600)
  /\ (exists (r : BlockRecord) (res : Result string) (w' : World),
        block_user FULL_BLOCK Sample.capped Sample.reliable Sample.ctx
          "1001" "spam" None (Sample.world ∅) = (res, w')
        /\ loaded (store w') "chat1" = Ok (add_block BlockData_empty r)
        /\ is_permanent r = false /\ expire_time r = Some 4600)
  /\ (exists (r : BlockRecord) (res : Result string) (w' : World),
        block_user FULL_BLOCK Sample.uncapped Sample.reliable Sample.ctx
          "1001" "spam" (Some (-1)) (Sample.world ∅) = (res, w')
        /\ loaded (store w') "chat1" = Ok (add_block BlockData_empty r)
        /\ is_permanent r = true /\ expire_time r = None).
Proof.
  split_and!.
  - destruct (block_duration_resolution Sample.capped Sample.reliable
                PREVENT_TRIGGER Sample.ctx "1001" "spam" (Some 3600)
                (Sample.world ∅) Sample.alice BlockData_empty)
      as (r & res & w' & Hrun & Hloaded & _ & Hexplicit & _);
      [reflexivity | reflexivity | reflexivity | reflexivity |].
    destruct (Hexplicit 3600) as [Hperm Hexp]; [reflexivity | lia |].
    exists r, res, w'. split_and!; [done | done | done |].
    injection Hexp as <-. reflexivity.
  - destruct (block_duration_resolution Sample.capped Sample.reliable
                FULL_BLOCK Sample.ctx "1001" "spam" None
                (Sample.world ∅) Sample.alice BlockData_empty)
      as (r & res & w' & Hrun & Hloaded & _ & _ & _ & Hdefault);
      [reflexivity | reflexivity | reflexivity | reflexivity |].
    destruct Hdefault as [Hperm Hexp]; [reflexivity | reflexivity |].
    exists r, res, w'. split_and!; [done | done | done |].
    injection Hexp as <-. reflexivity.
  - destruct (block_duration_resolution Sample.uncapped Sample.reliable
                FULL_BLOCK Sample.ctx "1001" "spam" (Some (-1))
                (Sample.world ∅) Sample.alice BlockData_empty)
      as (r & res & w' & Hrun & Hloaded & _ & _ & Hpermanent & _);
      [reflexivity | reflexivity | reflexivity | reflexivity |].
    destruct Hpermanent as [Hperm Hexp]; [reflexivity | reflexivity |].
    exists r, res, w'. by split_and!.
Defined.

Lemma apply_without_expiry_is_remove_witness :
  apply_block_to_system Sample.reliable "qq:1001" FULL_BLOCK None (Sample.world ∅)
  = remove_block_from_system Sample.reliable "qq:1001" FULL_BLOCK (Sample.world ∅)
  /\ exists saved : DBUser.t,
       DBUser.ban_until saved = None
       /\ users (remove_block_from_system Sample.reliable "qq:1001" FULL_BLOCK
                   (Sample.world ∅)).2
          = put_user saved [Sample.alice].
Proof.
  destruct (apply_without_expiry_is_remove Sample.reliable "qq:1001" FULL_BLOCK
              (Sample.world ∅)) as (Hsame & _ & Hsaved).
  split; [exact Hsame |].
  destruct (Hsaved _ eq_refl) as (a & p & found & saved & _ & _ & _ & Hfield & Husers & _).
  exists saved. split; [exact Hfield | exact Husers].
Defined.

Lemma prompt_summary_truncates_witness :
  exists (entries : list string) (w' : World),
    inject_blocked_users_prompt Sample.capped Sample.ctx
      (Sample.world {["chat1" := Json Sample.data]})
    = (Ok (String.concat NL
             ("Current Blocked Users:" :: entries ++ ["  ... and 2 more"])),
       w')
    /\ len entries = 2.
Proof.
  destruct (prompt_summary_truncates Sample.capped Sample.ctx
              (Sample.world {["chat1" := Json Sample.data]}) Sample.data)
    as (d1 & cleaned & Hclean & Hsummary).
  - reflexivity.
  - unfold config_valid. simpl. lia.
  - reflexivity.
  - unfold PyDict.keys_unique. apply (bool_decide_unpack _). vm_compute. exact I.
  - assert (Hdata : cleanup_expired Sample.data
                      (clock (Sample.world {["chat1" := Json Sample.data]})
                         (ticks (Sample.world {["chat1" := Json Sample.data]})))
                    = Ok (Sample.data, 0)) by reflexivity.
    rewrite Hdata in Hclean. injection Hclean as <- <-.
    destruct Hsummary as (entries & w' & Hrun & Hlen & _ & _ & Hmarker);
      [discriminate |].
    exists entries, w'. split.
    + rewrite Hrun. rewrite Hmarker by (vm_compute; reflexivity). reflexivity.
    + rewrite Hlen. reflexivity.
Defined.

(** ** The code at the scenarios of the specification *)

(** Scenario 1: a block of 3600 seconds under a cap of 86400 expires at
    [now + 3600], is not permanent, and is applied to the entity. *)
Example scenario_block_one_hour :
  let run := block_user_prevent_trigger Sample.capped Sample.reliable Sample.ctx
               "1001" "spam" (Some 3600) (Sample.world ∅) in
  loaded (store run.2) "chat1"
  = Ok {| blocks :=
            [("qq:1001",
              {| user_id := "qq:1001"; username := "alice";
                 block_type := PREVENT_TRIGGER; reason := "spam";
                 start_time := 1001; expire_time := Some 4600;
                 is_permanent := false |})] |}
  /\ DBUser.prevent_trigger_until <$> users run.2 = [Some 4600].
Proof. split; reflexivity. Qed.

(** Scenario 5: seven active blocks under a display limit of five give five
    entries and a line for two more. *)
Example scenario_seven_blocks :
  let permanent := fun uid => (uid, Sample.record uid FULL_BLOCK None true) in
  let data := {| blocks := permanent <$> ["a"; "b"; "c"; "d"; "e"; "f"; "g"] |} in
  (inject_blocked_users_prompt default_config Sample.ctx
     (Sample.world {["chat1" := Json data]})).1
  = Ok (String.concat NL
          [ "Current Blocked Users:";
            "  🚫 user-a (∞) - spam";
            "  🚫 user-b (∞) - spam";
            "  🚫 user-c (∞) - spam";
            "  🚫 user-d (∞) - spam";
            "  🚫 user-e (∞) - spam";
            "  ... and 2 more" ]).
Proof. reflexivity. Qed.

(** A host that cannot persist the entity: the block is reported as failed
    and the store holds the record all the same. *)
Example scenario_apply_fails :
  let run := block_user_full Sample.capped Sample.read_only Sample.ctx
               "1001" "spam" (Some 3600) (Sample.world ∅) in
  run.1 = Ok (block_failed_message Sample.alice)
  /\ (exists data r, loaded (store run.2) "chat1" = Ok data
                     /\ get_block data "qq:1001" = Some r)
  /\ users run.2 = [Sample.alice].
Proof.
  split_and!; [reflexivity | | reflexivity].
  eexists _, _. split; reflexivity.
Qed.

(** * Further properties of the code *)

(** ** models.py: the collection as a dictionary *)

Section CollectionFacts.
Import PyDict PyDictFacts.
Implicit Types (self : BlockData) (r : BlockRecord) (k : string) (t : Z).

Lemma length_setitem {V} (k : string) (v : V) (d : dict V) :
  length (setitem k v d) = if contains k d then length d else S (length d).
Proof.
  unfold contains. induction d as [|[k' v'] d IH]; simpl; [done |].
  destruct (decide (k = k')); simpl; [done |].
  rewrite IH. by destruct (get k d).
Qed.

Lemma delitem_get_ne {V} (k k' : string) (d d' : dict V) :
  delitem k d = Ok d' -> k' <> k -> get k' d' = get k' d.
Proof.
  revert d'. induction d as [|[k0 v0] d IH]; simpl; intros d' Hdel Hne; [done |].
  destruct (decide (k = k0)) as [->|Hne0].
  - injection Hdel as <-. by destruct (decide (k' = k0)).
  - destruct (delitem k d) as [d''|]; [| done]. injection Hdel as <-. simpl.
    destruct (decide (k' = k0)); [done | by apply IH].
Qed.

Lemma delitem_absent {V} (k : string) (d : dict V) :
  get k d = None -> delitem k d = Raise (KeyError k).
Proof.
  induction d as [|[k0 v0] d IH]; simpl; [done |].
  destruct (decide (k = k0)); [done |]. intros Hg. by rewrite IH.
Qed.

Lemma delitem_last_fresh {V} (k : string) (v : V) (d : dict V) :
  get k d = None -> delitem k (d ++ [(k, v)]) = Ok d.
Proof.
  induction d as [|[k0 v0] d IH]; simpl.
  - intros _. by rewrite decide_True.
  - destruct (decide (k = k0)); [done |]. intros Hg. by rewrite IH.
Qed.

(** Where [d[k] = v] writes when the key is present: at the first item of
    that key, the items before and after staying as they are. *)
Lemma setitem_present {V} (k : string) (v old : V) (d : dict V) :
  get k d = Some old ->
  exists before after : dict V,
    d = before ++ (k, old) :: after
    /\ (k ∉ keys before)
    /\ setitem k v d = before ++ (k, v) :: after.
Proof.
  induction d as [|[k' v'] d IH]; simpl; [done |].
  destruct (decide (k = k')) as [->|Hne].
  - intros [= ->]. exists [], d. split_and!; [done | apply not_elem_of_nil | done].
  - intros Hg. destruct (IH Hg) as (before & after & -> & Hk & ->).
    exists ((k', v') :: before), after. split_and!; [done | | done].
    rewrite keys_cons. apply not_elem_of_cons. by split.
Qed.

(** X1. [add_block] followed by [get_block]: the user of the record now
    maps to the record and every other user maps to what it did. The order
    of the collection is kept: the record of a user who had none goes last,
    and the record of a user who had one takes the place of the old record,
    all other records staying where they are; so the collection grows by
    one record exactly when the user had none (a second [add_block] for the
    same user overwrites). *)
Theorem add_block_then_get self r :
  get_block (add_block self r) (user_id r) = Some r
  /\ (forall k, k <> user_id r -> get_block (add_block self r) k = get_block self k)
  /\ len (blocks (add_block self r))
     = (if is_blocked self (user_id r) then len (blocks self)
        else len (blocks self) + 1)
  /\ keys (blocks (add_block self r))
     = (if is_blocked self (user_id r) then keys (blocks self)
        else keys (blocks self) ++ [user_id r])
  /\ (is_blocked self (user_id r) = false ->
      blocks (add_block self r) = blocks self ++ [(user_id r, r)])
  /\ (forall old : BlockRecord,
        get_block self (user_id r) = Some old ->
        exists before after : dict BlockRecord,
          blocks self = before ++ (user_id r, old) :: after
          /\ (user_id r ∉ keys before)
          /\ blocks (add_block self r) = before ++ (user_id r, r) :: after).
Proof.
  unfold get_block, add_block, is_blocked, len. simpl. split_and!.
  - apply get_setitem.
  - intros k Hk. by apply get_setitem_ne.
  - rewrite length_setitem. destruct (contains _ _); lia.
  - rewrite keys_setitem. unfold contains.
    destruct (get (user_id r) (blocks self)) as [old|] eqn:Hg.
    + rewrite decide_True; [done |].
      destruct (decide (user_id r ∈ keys (blocks self))) as [|Hn]; [done |].
      apply get_None_keys in Hn. congruence.
    + rewrite decide_False; [done |]. by apply get_None_keys.
  - unfold contains. intros Hno. apply setitem_fresh. apply get_None_keys.
    by destruct (get (user_id r) (blocks self)).
  - intros old Hg. by apply setitem_present.
Qed.

(** X2. [remove_block] never raises. It returns [True] exactly when the
    user has a record; every other user keeps its record; a user without a
    record leaves the collection as it is; and in a dictionary (distinct
    keys) the user has no record afterwards. *)
Theorem remove_block_total self k :
  exists self' : BlockData,
    remove_block self k = Ok (self', is_blocked self k)
    /\ (is_blocked self k = false -> self' = self)
    /\ (forall k', k' <> k -> get_block self' k' = get_block self k')
    /\ (keys_unique (blocks self) -> get_block self' k = None).
Proof.
  unfold remove_block, is_blocked, get_block, contains.
  destruct (get k (blocks self)) as [r|] eqn:Hg.
  - destruct (delitem_Some _ _ _ Hg) as [d' Hdel]. rewrite Hdel.
    exists {| blocks := d' |}. simpl. split_and!; [done | done | |].
    + intros k' Hk'. by apply (delitem_get_ne k).
    + intros Hu.
      assert (Hin : k ∈ keys (blocks self)).
      { destruct (decide (k ∈ keys (blocks self))) as [|Hn]; [done |].
        apply get_None_keys in Hn. congruence. }
      rewrite (delitem_unique _ _ Hu Hin) in Hdel. injection Hdel as <-.
      apply get_without.
  - exists self. by split_and!.
Qed.

Lemma remove_block_total_witness :
  exists self' : BlockData,
    remove_block Sample.data "d" = Ok (self', true)
    /\ get_block self' "d" = None
    /\ get_block self' "e" = get_block Sample.data "e".
Proof.
  destruct (remove_block_total Sample.data "d") as (self' & Hrun & _ & Hother & Hgone).
  exists self'. split_and!.
  - exact Hrun.
  - apply Hgone. unfold keys_unique. apply (bool_decide_unpack _). vm_compute. exact I.
  - apply Hother. discriminate.
Defined.

Lemma remove_block_add_block_fresh self r :
  get_block self (user_id r) = None ->
  remove_block (add_block self r) (user_id r) = Ok (self, true).
Proof.
  unfold get_block. intros Hg.
  unfold remove_block, add_block, contains. simpl.
  rewrite get_setitem.
  rewrite setitem_fresh by (by apply get_None_keys).
  rewrite delitem_last_fresh by done. by destruct self.
Qed.

(** X3. Adding a record for a user who has none and removing that user
    again gives back the collection exactly, order included. *)
Theorem add_then_remove_block self r :
  is_blocked self (user_id r) = false ->
  remove_block (add_block self r) (user_id r) = Ok (self, true).
Proof.
  unfold is_blocked, contains. intros Hfresh.
  apply remove_block_add_block_fresh. unfold get_block.
  by destruct (get (user_id r) (blocks self)).
Qed.

Lemma add_then_remove_block_witness :
  remove_block (add_block Sample.data (Sample.record "z" FULL_BLOCK None true)) "z"
  = Ok (Sample.data, true).
Proof.
  apply (add_then_remove_block Sample.data (Sample.record "z" FULL_BLOCK None true)).
  reflexivity.
Defined.

Lemma active_not_expired r t t' :
  t <= t' -> active_cond r t' = true -> expired_cond r t = false.
Proof.
  intros Hle Ha. apply not_true_is_false. intros He.
  apply active_cond_true in Ha. apply expired_cond_true in He.
  destruct He as (Hp & e & He & _ & Hexp).
  destruct Ha as [Hperm | (e' & He' & _ & Hact)]; [congruence |].
  assert (e' = e) by congruence. lia.
Qed.

Lemma dormant_falsy r : dormant r <-> is_permanent r = false /\ py_truthy (expire_time r) = false.
Proof.
  unfold dormant, py_truthy. split; intros [Hp He]; (split; [done |]).
  - by destruct He as [-> | ->].
  - destruct (expire_time r) as [e|]; [| by left]. right. f_equal.
    apply negb_false_iff, Z.eqb_eq in He. done.
Qed.

Lemma filter_filter_implied {A} (f g : A -> bool) (l : list A) :
  (forall x, f x = true -> g x = true) ->
  List.filter f (List.filter g l) = List.filter f l.
Proof.
  intros Himp. induction l as [|x l IH]; simpl; [done |].
  destruct (g x) eqn:Hg; simpl.
  - destruct (f x); by rewrite IH.
  - destruct (f x) eqn:Hf; [| done]. apply Himp in Hf. congruence.
Qed.

(** X4. One record per user is an invariant of the collection: starting
    from distinct user ids, [add_block], [remove_block] and
    [cleanup_expired] give collections with distinct user ids, and so is
    the dictionary [get_active_blocks] returns. *)
Theorem collection_keeps_one_record_per_user self :
  keys_unique (blocks self) ->
  (forall r, keys_unique (blocks (add_block self r)))
  /\ (forall k self' removed,
        remove_block self k = Ok (self', removed) -> keys_unique (blocks self'))
  /\ (forall t self' cleaned,
        cleanup_expired self t = Ok (self', cleaned) -> keys_unique (blocks self'))
  /\ (forall t, keys_unique (get_active_blocks self t)).
Proof.
  intros Hu. split_and!.
  - intros r. by apply add_block_keys_unique.
  - intros k self' removed. by apply remove_block_keys_unique.
  - intros t self' cleaned. by apply cleanup_expired_keys_unique.
  - intros t. rewrite get_active_blocks_filter by done. by apply keys_unique_filter.
Qed.

Lemma collection_keeps_one_record_per_user_witness :
  keys_unique (blocks (add_block Sample.data (Sample.record "b" FULL_BLOCK None true)))
  /\ keys_unique (get_active_blocks Sample.data 2000).
Proof.
  destruct (collection_keeps_one_record_per_user Sample.data) as (Hadd & _ & _ & Hactive).
  - unfold keys_unique. apply (bool_decide_unpack _). vm_compute. exact I.
  - split; [apply Hadd | apply Hactive].
Defined.

(** X5. Cleaning up never costs an active record: for [t <= t'], the
    records active at [t'] are the same, in the same order, before and after
    [cleanup_expired(t)]. The listing and the prompt summary rely on this
    when they clean up first and list afterwards. *)
Theorem cleanup_keeps_active self t t' :
  keys_unique (blocks self) -> t <= t' ->
  exists (self' : BlockData) (cleaned : Z),
    cleanup_expired self t = Ok (self', cleaned)
    /\ get_active_blocks self' t' = get_active_blocks self t'.
Proof.
  intros Hu Hle. eexists _, _. split; [by apply cleanup_expired_filter |].
  rewrite !get_active_blocks_filter; [| done | by apply keys_unique_filter]. simpl.
  apply (filter_filter_implied (fun kr => active_cond kr.2 t')).
  intros [k r] Ha. simpl in *. by rewrite (active_not_expired r t t').
Qed.

Lemma cleanup_keeps_active_witness :
  exists (self' : BlockData) (cleaned : Z),
    cleanup_expired Sample.data 1500 = Ok (self', cleaned)
    /\ get_active_blocks self' 1600 = get_active_blocks Sample.data 1600.
Proof.
  apply (cleanup_keeps_active Sample.data 1500 1600); [| lia].
  unfold keys_unique. apply (bool_decide_unpack _). vm_compute. exact I.
Defined.

(** X6. Time only takes records away from the active set and only adds
    to what a cleanup removes: for [t <= t'], a record active at [t'] is
    active at [t], and a record that survives [cleanup_expired(t')]
    survives [cleanup_expired(t)]. *)
Theorem activity_shrinks_over_time self t t' :
  keys_unique (blocks self) -> t <= t' ->
  (forall k r, get k (get_active_blocks self t') = Some r ->
               get k (get_active_blocks self t) = Some r)
  /\ (forall self1 n1 self2 n2,
        cleanup_expired self t = Ok (self1, n1) ->
        cleanup_expired self t' = Ok (self2, n2) ->
        n1 <= n2
        /\ forall k r, get_block self2 k = Some r -> get_block self1 k = Some r).
Proof.
  intros Hu Hle. split.
  - intros k r. rewrite !get_active_blocks_filter by done.
    rewrite !(get_filter (fun r => active_cond r _)) by done.
    rewrite !active_cond_true. intros [Hg Hc]. split; [done |].
    destruct Hc as [|(e & He & Hnz & Hgt)]; [by left |].
    right. exists e. split_and!; [done | done | lia].
  - intros self1 n1 self2 n2. rewrite !cleanup_expired_filter by done.
    intros [= <- <-] [= <- <-]. unfold get_block. simpl. split.
    + unfold len. apply inj_le. clear Hu.
      induction (blocks self) as [|[k r] l IH]; simpl; [done |].
      destruct (expired_cond r t) eqn:E1.
      * assert (expired_cond r t' = true) as ->.
        { apply expired_cond_true. apply expired_cond_true in E1.
          destruct E1 as (Hp & e & He & Hnz & Hexp).
          split; [done |]. exists e. split_and!; [done | done | lia]. }
        simpl. lia.
      * destruct (expired_cond r t'); simpl; lia.
    + intros k r.
      rewrite !(get_filter (fun r => negb (expired_cond r _))) by done.
      rewrite !negb_true_iff. intros [Hg Hc]. split; [done |].
      apply not_true_is_false. intros E. apply not_true_iff_false in Hc.
      apply Hc. apply expired_cond_true. apply expired_cond_true in E.
      destruct E as (Hp & e & He & Hnz & Hexp).
      split; [done |]. exists e. split_and!; [done | done | lia].
Qed.

Lemma activity_shrinks_over_time_witness :
  get "e" (get_active_blocks Sample.data 1400)
  = Some (Sample.record "e" FULL_BLOCK (Some 2500) false).
Proof.
  destruct (activity_shrinks_over_time Sample.data 1400 2400) as [Hactive _];
    [| lia | apply Hactive; reflexivity].
  unfold keys_unique. apply (bool_decide_unpack _). vm_compute. exact I.
Defined.

(** X7. At any time [t] every record of the collection is in exactly one of
    three states: active (returned by [get_active_blocks(t)] and kept by
    [cleanup_expired(t)]); expired (not returned, removed); or dormant (not
    permanent, with [expire_time] [None] or [0]), which is neither returned
    nor removed. A dormant record therefore stays in the collection at every
    [t] and is never listed. *)
Theorem record_states self t :
  keys_unique (blocks self) ->
  exists (self' : BlockData) (cleaned : Z),
    cleanup_expired self t = Ok (self', cleaned)
    /\ forall k r,
         get_block self k = Some r ->
         (get k (get_active_blocks self t) = Some r
          /\ get_block self' k = Some r /\ ~ dormant r)
         \/ (get k (get_active_blocks self t) = None
             /\ get_block self' k = None /\ ~ dormant r)
         \/ (get k (get_active_blocks self t) = None
             /\ get_block self' k = Some r /\ dormant r).
Proof.
  intros Hu. eexists _, _. split; [by apply cleanup_expired_filter |].
  intros k r Hg. unfold get_block in *. simpl.
  rewrite get_active_blocks_filter by done.
  assert (Hact : forall b, active_cond r t = b ->
            get k (List.filter (fun kr => active_cond kr.2 t) (blocks self))
            = if b then Some r else None).
  { intros [] Hb.
    - by apply (get_filter (fun r => active_cond r t)).
    - destruct (get k (List.filter (fun kr => active_cond kr.2 t)
                         (blocks self))) as [r'|] eqn:E; [| done].
      apply (get_filter (fun r => active_cond r t)) in E as [Hg' Hb']; [| done].
      congruence. }
  assert (Hkept : forall b, expired_cond r t = b ->
            get k (List.filter (fun kr => negb (expired_cond kr.2 t)) (blocks self))
            = if b then None else Some r).
  { intros [] Hb.
    - destruct (get k (List.filter (fun kr => negb (expired_cond kr.2 t))
                         (blocks self))) as [r'|] eqn:E; [| done].
      apply (get_filter (fun r => negb (expired_cond r t))) in E as [Hg' Hb'];
        [| done].
      assert (r' = r) by congruence. subst. by rewrite Hb in Hb'.
    - apply (get_filter (fun r => negb (expired_cond r t))); [done |].
      by rewrite Hb. }
  destruct (active_cond r t) eqn:Ha.
  - left. rewrite (Hact true) by done.
    rewrite (Hkept false) by (by apply (active_not_expired r t t)).
    split_and!; [done | done |].
    rewrite dormant_falsy. intros [Hp Hf]. unfold active_cond in Ha.
    rewrite Hp, Hf in Ha. done.
  - rewrite (Hact false) by done. destruct (expired_cond r t) eqn:He.
    + right; left. rewrite (Hkept true) by done. split_and!; [done | done |].
      rewrite dormant_falsy. intros [Hp Hf]. unfold expired_cond in He.
      rewrite Hp, Hf in He. done.
    + right; right. rewrite (Hkept false) by done. split_and!; [done | done |].
      apply dormant_falsy. unfold active_cond, expired_cond in *.
      destruct (is_permanent r); [done |]. split; [done |].
      destruct (py_truthy (expire_time r)) eqn:Hf; [| done]. simpl in *.
      destruct (expire_time r) as [e|]; [| done].
      rewrite Z.gtb_ltb in Ha. apply Z.ltb_ge in Ha. apply Z.leb_gt in He. lia.
Qed.

Lemma record_states_witness :
  exists (self' : BlockData) (cleaned : Z),
    cleanup_expired Sample.data 2000 = Ok (self', cleaned)
    /\ get "c" (get_active_blocks Sample.data 2000) = None
    /\ get_block self' "c" = Some (Sample.record "c" PREVENT_TRIGGER None false).
Proof.
  destruct (record_states Sample.data 2000) as (self' & cleaned & Hrun & Hstate).
  - unfold keys_unique. apply (bool_decide_unpack _). vm_compute. exact I.
  - exists self', cleaned. split; [exact Hrun |].
    destruct (Hstate "c" (Sample.record "c" PREVENT_TRIGGER None false) eq_refl)
      as [(_ & _ & Hnd) | [(_ & _ & Hnd) | (Hna & Hkept & _)]].
    + exfalso. apply Hnd. split; [reflexivity | by left].
    + exfalso. apply Hnd. split; [reflexivity | by left].
    + by split.
Defined.

End CollectionFacts.

(** ** utils.py: time texts, identifiers, the store and the system effect *)

Section UtilityFacts.

Variable config : BlockConfig.
Variable host : Host.

(** X8. [format_time_remaining]: no expiry reads as permanent without a
    look at the clock; an expiry at or before the clock reading reads as
    expired; otherwise the text shows days and hours, or hours and minutes,
    or minutes alone, with hours below 24 and minutes below 60. What is
    shown never exceeds the time remaining and falls short of it by less
    than an hour when days are shown and by less than a minute otherwise,
    so less than a minute remaining is shown as [0] minutes. *)
Theorem format_time_remaining_breakdown (w : World) :
  format_time_remaining None w = (Ok "永久", w)
  /\ forall e : Z,
       let remaining := e - clock w (ticks w) in
       (remaining <= 0 -> format_time_remaining (Some e) w = (Ok "已过期", tick w))
       /\ (0 < remaining ->
           exists days hours minutes : Z,
             0 <= days /\ 0 <= hours < 24 /\ 0 <= minutes < 60
             /\ (0 < days ->
                 days * 86400 + hours * 3600 <= remaining
                 < days * 86400 + hours * 3600 + 3600)
             /\ (days = 0 ->
                 hours * 3600 + minutes * 60 <= remaining
                 < hours * 3600 + minutes * 60 + 60)
             /\ format_time_remaining (Some e) w
                = (Ok (if days >? 0
                       then pretty days +:+ "天" +:+ pretty hours +:+ "小时"
                       else if hours >? 0
                            then pretty hours +:+ "小时" +:+ pretty minutes +:+ "分钟"
                            else pretty minutes +:+ "分钟"),
                   tick w)).
Proof.
  split; [reflexivity |]. intros e remaining. split.
  - intros Hle. unfold format_time_remaining, bind, time_now, ret.
    fold remaining. apply Z.leb_le in Hle. by rewrite Hle.
  - intros Hpos.
    exists (remaining / 86400), ((remaining mod 86400) / 3600),
           ((remaining mod 3600) / 60).
    split_and!.
    + apply Z.div_pos; lia.
    + apply Z.div_pos; [| lia]. apply Z.mod_pos_bound. lia.
    + apply Z.div_lt_upper_bound; [lia |].
      pose proof (Z.mod_pos_bound remaining 86400). lia.
    + apply Z.div_pos; [| lia]. apply Z.mod_pos_bound. lia.
    + apply Z.div_lt_upper_bound; [lia |].
      pose proof (Z.mod_pos_bound remaining 3600). lia.
    + intros _. Z.div_mod_to_equations. lia.
    + intros Hd. Z.div_mod_to_equations. lia.
    + unfold format_time_remaining, bind, time_now, ret. fold remaining.
      apply Z.leb_gt in Hpos. rewrite Hpos.
      destruct (_ >? 0); [reflexivity |]. destruct (_ >? 0); reflexivity.
Qed.

Lemma format_time_remaining_breakdown_witness :
  format_time_remaining (Some 1030) (Sample.world ∅)
  = (Ok "0分钟", tick (Sample.world ∅))
  /\ format_time_remaining (Some 1000) (Sample.world ∅)
     = (Ok "已过期", tick (Sample.world ∅)).
Proof.
  destruct (format_time_remaining_breakdown (Sample.world ∅)) as [_ H].
  split.
  - destruct (H 1030) as [_ Hpos]. cbv zeta in Hpos.
    change (1030 - clock (Sample.world ∅) (ticks (Sample.world ∅))) with 30 in Hpos.
    destruct Hpos as (days & hours & minutes & Hd & Hh & Hm & Hlong & Hshort & Hrun);
      [lia |].
    assert (days = 0) as ->.
    { destruct (decide (days = 0)) as [|Hne]; [done |].
      destruct Hlong; lia. }
    destruct (Hshort eq_refl) as [Hlo Hhi].
    assert (hours = 0) as -> by lia. assert (minutes = 0) as -> by lia.
    exact Hrun.
  - destruct (H 1000) as [Hexp _]. apply Hexp. simpl. lia.
Defined.

Lemma string_app_cons (c : ascii) (s1 s2 : string) :
  String c s1 +:+ s2 = String c (s1 +:+ s2).
Proof. reflexivity. Qed.

Lemma split_once_None (c : ascii) (s : string) :
  split_once c s = None <-> occurs c s = false.
Proof.
  induction s as [|c' s IH]; simpl; [done |].
  destruct (decide (c' = c)) as [->|Hne].
  - rewrite bool_decide_eq_true_2 by done. simpl. split; discriminate.
  - rewrite bool_decide_eq_false_2 by done. simpl. rewrite <- IH.
    destruct (split_once c s) as [[a b]|]; split; (done || discriminate).
Qed.

Lemma split_once_join (c : ascii) (a b : string) :
  occurs c a = false -> split_once c (a +:+ String c b) = Some (a, b).
Proof.
  induction a as [|c' a IH]; simpl occurs.
  - intros _. change ("" +:+ String c b) with (String c b). simpl.
    by rewrite decide_True.
  - rewrite orb_false_iff. intros [Hc Ha]. apply bool_decide_eq_false in Hc.
    rewrite string_app_cons. simpl. rewrite decide_False by done.
    by rewrite IH.
Qed.

Lemma split_once_Some (c : ascii) (s a b : string) :
  split_once c s = Some (a, b) -> s = a +:+ String c b /\ occurs c a = false.
Proof.
  revert a. induction s as [|c' s IH]; simpl; intros a; [done |].
  destruct (decide (c' = c)) as [->|Hne].
  - intros [= <- <-]. done.
  - destruct (split_once c s) as [[a' b']|]; [| done]. intros [= <- <-].
    destruct (IH a' eq_refl) as [-> Ha]. split; [done |]. simpl.
    by rewrite bool_decide_eq_false_2.
Qed.

(** X9. The composite user id. [get_user_by_unique_id] never raises, also
    when the query of the directory does, and changes neither store nor
    directory. An id without a colon resolves to nobody without a query. An
    id [adapter_key:platform_userid] whose adapter key has no colon is split
    back into exactly these two parts (the platform id may itself contain
    colons), the directory is queried for them once, and the result is the
    row of the pair when there is exactly one, nobody when there is none and
    nobody when there are several, the failure of the query being caught.
    Whenever an entity is found, the text before the first colon of the id
    is its adapter key and the rest its platform id. *)
Theorem unique_id_round_trip (w : World) :
  (forall unique_id : string,
     exists (found : option DBUser.t) (w' : World),
       get_user_by_unique_id unique_id w = (Ok found, w')
       /\ store w' = store w /\ users w' = users w)
  /\ (forall unique_id : string,
        occurs ":"%char unique_id = false ->
        get_user_by_unique_id unique_id w = (Ok None, w))
  /\ (forall adapter_key platform_userid : string,
        occurs ":"%char adapter_key = false ->
        get_user_by_unique_id (adapter_key +:+ ":" +:+ platform_userid) w
        = (Ok match List.filter (same_user adapter_key platform_userid) (users w) with
              | [u] => Some u
              | _ => None
              end,
           emit (EvDbQuery adapter_key platform_userid) w))
  /\ (forall (unique_id : string) (found : DBUser.t) (w' : World),
        get_user_by_unique_id unique_id w = (Ok (Some found), w') ->
        exists adapter_key platform_userid : string,
          unique_id = adapter_key +:+ ":" +:+ platform_userid
          /\ occurs ":"%char adapter_key = false
          /\ DBUser.adapter_key found = adapter_key
          /\ DBUser.platform_userid found = platform_userid
          /\ List.filter (same_user adapter_key platform_userid) (users w) = [found]).
Proof.
  split_and!.
  - intros unique_id. rewrite get_user_by_unique_id_run.
    destruct (split_once ":"%char unique_id) as [[a p]|]; by eexists _, _.
  - intros unique_id Hno. rewrite get_user_by_unique_id_run.
    apply split_once_None in Hno. by rewrite Hno.
  - intros a p Ha. rewrite get_user_by_unique_id_run.
    change (":" +:+ p) with (String ":"%char p).
    by rewrite split_once_join.
  - intros unique_id found w'. rewrite get_user_by_unique_id_run.
    destruct (split_once ":"%char unique_id) as [[a p]|] eqn:Hsplit; [| done].
    intros [= Hfound _]. apply split_once_Some in Hsplit as [-> Ha].
    assert (Hrows : List.filter (same_user a p) (users w) = [found]).
    { unfold found_by_union_id in Hfound.
      destruct (List.filter (same_user a p) (users w)) as [|v [|v' rows]];
        [discriminate | | discriminate].
      by injection Hfound as ->. }
    apply found_by_union_id_resolved in Hfound.
    exists a, p. split_and!; [done | done | | | done];
      unfold resolved in Hfound; apply find_some in Hfound as [_ Hsame];
      unfold same_user in Hsame; apply andb_true_iff in Hsame as [H1 H2].
    + by apply bool_decide_eq_true in H1.
    + by apply bool_decide_eq_true in H2.
Qed.

Lemma unique_id_round_trip_witness :
  get_user_by_unique_id "nocolon" (Sample.world ∅) = (Ok None, Sample.world ∅)
  /\ get_user_by_unique_id ("qq" +:+ ":" +:+ "1001") (Sample.world ∅)
     = (Ok (Some Sample.alice), emit (EvDbQuery "qq" "1001") (Sample.world ∅))
  /\ get_user_by_unique_id ("qq" +:+ ":" +:+ "1001")
       (with_users [Sample.alice; Scenario.alice_twin] (Sample.world ∅))
     = (Ok None,
        emit (EvDbQuery "qq" "1001")
          (with_users [Sample.alice; Scenario.alice_twin] (Sample.world ∅))).
Proof.
  split; [| split].
  - destruct (unique_id_round_trip (Sample.world ∅)) as (_ & Hnone & _).
    apply Hnone. reflexivity.
  - destruct (unique_id_round_trip (Sample.world ∅)) as (_ & _ & Hjoin & _).
    exact (Hjoin "qq" "1001" eq_refl).
  - destruct (unique_id_round_trip
                (with_users [Sample.alice; Scenario.alice_twin] (Sample.world ∅)))
      as (_ & _ & Hjoin & _).
    exact (Hjoin "qq" "1001" eq_refl).
Defined.

(** X10. What a successful [apply_block_to_system] writes. It has resolved
    the id to an entity and persisted that entity with the field selected by
    the block type set to the converted timestamp ([None] for a falsy
    expiry); the other timestamp field, the identity and the name of the
    entity are as they were, and only rows of the persisted entity's key are
    replaced in the directory. *)
Theorem apply_block_to_system_writes_one_field
    (user_id : string) (bt : BlockType) (e : option Z) (w w' : World) :
  apply_block_to_system host user_id bt e w = (Ok true, w') ->
  exists (a p : string) (found : DBUser.t) (value : option datetime),
    split_once ":"%char user_id = Some (a, p)
    /\ resolved w a p = Some found
    /\ (py_truthy e = false -> value = None)
    /\ (forall t, e = Some t -> t <> 0 ->
        exists d, fromtimestamp host t = Ok d /\ value = Some d)
    /\ let saved := with_field bt found value in
       save_ok host saved = true
       /\ users w' = put_user saved (users w)
       /\ selected_field bt saved = value
       /\ selected_field (other_type bt) saved = selected_field (other_type bt) found
       /\ DBUser.pk saved = DBUser.pk found
       /\ DBUser.unique_id saved = DBUser.unique_id found
       /\ DBUser.username saved = DBUser.username found
       /\ trace w' = trace w ++ [EvDbQuery a p; EvDbSave saved].
Proof.
  unfold apply_block_to_system.
  unfold try_except at 1. unfold bind at 1. rewrite get_user_by_unique_id_run.
  destruct (split_once ":"%char user_id) as [[a p]|]; [| discriminate].
  destruct (found_by_union_id w a p) as [found|] eqn:Hfound; [| discriminate].
  apply found_by_union_id_resolved in Hfound.
  assert (Hsave : forall value w0,
    let saved := with_field bt found value in
    w0 = emit (EvDbQuery a p) w ->
    (let (r, w1) := (DBUser_save host saved;; ret true) w0 in
     match r with Ok ok => (Ok ok, w1) | Raise _ => ret false w1 end)
    = (Ok true, w') ->
    save_ok host saved = true
    /\ users w' = put_user saved (users w)
    /\ selected_field bt saved = value
    /\ selected_field (other_type bt) saved = selected_field (other_type bt) found
    /\ DBUser.pk saved = DBUser.pk found
    /\ DBUser.unique_id saved = DBUser.unique_id found
    /\ DBUser.username saved = DBUser.username found
    /\ trace w' = trace w ++ [EvDbQuery a p; EvDbSave saved]).
  { intros value w0 saved ->. unfold bind, DBUser_save, ret.
    destruct (save_ok host saved); [| discriminate].
    intros [= <-]. unfold saved, with_field.
    split_and!; try done; try (by destruct bt).
    simpl. by rewrite <- app_assoc. }
  unfold bind at 1.
  destruct (py_truthy e) eqn:Htruthy; [destruct e as [t|]; [| done] |].
  - unfold bind at 1, lift. destruct (fromtimestamp host t) as [d|ex] eqn:Hd;
      [| discriminate].
    unfold ret at 2. intros Hrun. exists a, p, found, (Some d).
    do 3 (split; [done |]). split; [| by apply (Hsave (Some d) _ eq_refl)].
    intros t' [= <-] _. by exists d.
  - unfold ret at 1. intros Hrun. exists a, p, found, None.
    do 3 (split; [done |]). split; [| by apply (Hsave None _ eq_refl)].
    intros t [= ->] Hnz. unfold py_truthy in Htruthy.
    apply negb_false_iff, Z.eqb_eq in Htruthy. done.
Qed.

(** X11. Both system-effect calls are contained: whatever the id, the
    block type and the expiry, they return a boolean and raise nothing,
    they leave the store and the clock alone, their trace consists of
    directory events, and a call that returns false has left the directory
    as it was. *)
Theorem system_effects_contained
    (user_id : string) (bt : BlockType) (e : option Z) (w : World) :
  effect_outcome (apply_block_to_system host user_id bt e) w
  /\ effect_outcome (remove_block_from_system host user_id bt) w.
Proof.
  split.
  - apply apply_block_to_system_outcome.
  - apply remove_block_from_system_outcome.
Qed.

(** X12. The store round trip of a conversation, serialization being the
    modelled round trip of [Blob]: a collection saved under a chat key is
    the collection loaded from it next, whatever was stored before (an empty
    collection included: its blob is not falsy); collections under other
    chat keys load as before; saving does not touch the directory. *)
Theorem save_then_load (chat_key : string) (data : BlockData) (w : World) :
  let w1 := (save_block_data chat_key data w).2 in
  (get_block_data chat_key w1).1 = Ok data
  /\ (forall other : string,
        other <> chat_key ->
        (get_block_data other w1).1 = (get_block_data other w).1)
  /\ users w1 = users w.
Proof.
  intros w1. unfold w1. rewrite save_block_data_run. simpl. split_and!.
  - rewrite get_block_data_run. simpl. apply loaded_insert.
  - intros other Hne. rewrite !get_block_data_run. simpl. unfold loaded.
    by rewrite lookup_insert_ne.
  - reflexivity.
Qed.

End UtilityFacts.

Lemma apply_block_to_system_writes_one_field_witness :
  exists (found : DBUser.t) (value : option datetime),
    users (apply_block_to_system Sample.reliable "qq:1001" FULL_BLOCK (Some 5000)
             (Sample.world ∅)).2
    = put_user (with_field FULL_BLOCK found value) [Sample.alice]
    /\ DBUser.ban_until (with_field FULL_BLOCK found value) = value
    /\ DBUser.prevent_trigger_until (with_field FULL_BLOCK found value)
       = DBUser.prevent_trigger_until found.
Proof.
  destruct (apply_block_to_system_writes_one_field Sample.reliable
              "qq:1001" FULL_BLOCK (Some 5000) (Sample.world ∅) _ eq_refl)
    as (a & p & found & value & _ & _ & _ & _ & _ & Husers & Hsel & Hother & _).
  exists found, value. split_and!; [exact Husers | exact Hsel | exact Hother].
Defined.

(** ** methods.py: what the block and unblock handlers guarantee *)

Section HandlerExtras.

Variable config : BlockConfig.
Variable host : Host.

(** X13. The early exits. A block handler whose flag is off replies that
    the feature is disabled and leaves the world exactly as it was: no clock
    reading, no query, no trace. A handler (block with its flag on, or
    unblock) given an identifier the directory does not know replies
    not-found after the one directory query, without reading or writing the
    store and without touching the directory. *)
Theorem handlers_exit_early
    (ctx : AgentCtx.t) (ident reason : string) (duration : option Z) (w : World) :
  (forall bt, enabled config bt = false ->
     block_user bt config host ctx ident reason duration w
     = (Ok (disabled_message bt), w))
  /\ (resolved w (AgentCtx.adapter_key ctx) ident = None ->
      (forall bt, enabled config bt = true ->
         exists w' : World,
           block_user bt config host ctx ident reason duration w
           = (Ok (not_found_message ident), w')
           /\ store w' = store w /\ users w' = users w
           /\ trace w' = trace w ++ [EvDbQuery (AgentCtx.adapter_key ctx) ident])
      /\ unblock_user host ctx ident w
         = (Ok (not_found_message ident),
            emit (EvDbQuery (AgentCtx.adapter_key ctx) ident) w)).
Proof.
  split; [intros bt; apply block_user_disabled |].
  intros Hnone. split.
  - intros bt Hflag.
    destruct (resolve_duration_total config duration w)
      as (p & e & dur & w1 & Hres & Hw1 & _).
    rewrite (block_user_enabled config host bt ctx ident reason duration
               w w1 p e dur Hflag Hres).
    assert (Hnone1 : resolved w1 (AgentCtx.adapter_key ctx) ident = None)
      by (destruct Hw1 as [-> | ->]; exact Hnone).
    rewrite Hnone1. eexists. split; [reflexivity |].
    destruct Hw1 as [-> | ->]; by split_and!.
  - rewrite unblock_user_run. by rewrite Hnone.
Qed.

(** X14. Of what the plugin's own code can raise, the only exception the
    block and unblock handlers let through is the validation error of a
    stored text that is not a collection: every other run ends in a reply
    (the [assert] on the duration never fails, the deletion never misses its
    key, the system effect never raises), and when the error is raised
    neither the store nor the directory has changed. Failures of the host's
    own calls (the directory query, the store access) are outside the
    embedding. *)
Theorem handlers_raise_only_on_corrupt_blob
    (ctx : AgentCtx.t) (ident reason : string) (duration : option Z) (w : World) :
  forall (res : Result string) (w' : World),
    (exists bt, block_user bt config host ctx ident reason duration w = (res, w'))
    \/ unblock_user host ctx ident w = (res, w') ->
    (exists msg : string, res = Ok msg)
    \/ (exists s : string,
          res = Raise (ValidationError s) /\ s <> ""
          /\ store w !! AgentCtx.chat_key ctx = Some (Text s)
          /\ store w' = store w /\ users w' = users w).
Proof.
  intros res w' [[bt Hrun] | Hrun].
  - destruct (enabled config bt) eqn:Hflag.
    + destruct (resolve_duration_total config duration w)
        as (p & e & dur & w1 & Hres & Hw1 & _ & Hdur & _).
      rewrite (block_user_enabled config host bt ctx ident reason duration
                 w w1 p e dur Hflag Hres) in Hrun.
      assert (Hstore : store w1 = store w) by (by destruct Hw1 as [-> | ->]).
      assert (Husers : users w1 = users w) by (by destruct Hw1 as [-> | ->]).
      destruct (resolved w1 _ _) as [u|]; [| left; injection Hrun as <- _; by eexists].
      cbv zeta in Hrun.
      destruct (loaded (store w1) (AgentCtx.chat_key ctx)) as [d|ex] eqn:Hd.
      * left. destruct (get_block d (DBUser.unique_id u)) as [existing|].
        { injection Hrun as <- _. by eexists. }
        unfold bind in Hrun.
        destruct (apply_block_to_system_outcome host (DBUser.unique_id u) bt e
                    (after_save ctx ident
                       (add_block d (new_record u bt reason
                                       (clock w1 (ticks w1)) e p)) w1))
          as (ok & w4 & Happly & _).
        rewrite Happly in Hrun.
        destruct (block_reply_run bt ctx u reason p dur w4 Hdur)
          as (Hfail & desc & logdesc & Hok & _).
        destruct ok; [rewrite Hok in Hrun | rewrite Hfail in Hrun];
          injection Hrun as <- _; by eexists.
      * right. apply loaded_Raise in Hd as (s & -> & Hs & Hlook).
        injection Hrun as <- <-. exists s. rewrite <- Hstore, <- Husers.
        by split_and!.
    + rewrite block_user_disabled in Hrun by done.
      left. injection Hrun as <- _. by eexists.
  - rewrite unblock_user_run in Hrun.
    destruct (resolved w _ _) as [u|]; [| left; injection Hrun as <- _; by eexists].
    cbv zeta in Hrun.
    destruct (loaded (store w) (AgentCtx.chat_key ctx)) as [d|ex] eqn:Hd.
    + left. destruct (get_block d (DBUser.unique_id u)) as [r|] eqn:Hg;
        [| injection Hrun as <- _; by eexists].
      destruct (remove_block_from_system_outcome host (DBUser.unique_id u)
                  (block_type r)
                  (emit (EvStoreGet (AgentCtx.chat_key ctx))
                     (emit (EvDbQuery (AgentCtx.adapter_key ctx) ident) w)))
        as (ok & w3 & Hremove & _).
      rewrite Hremove in Hrun.
      destruct ok; [| injection Hrun as <- _; by eexists].
      destruct (remove_block_present d _ r Hg) as [d' Hrm]. rewrite Hrm in Hrun.
      injection Hrun as <- _. by eexists.
    + right. apply loaded_Raise in Hd as (s & -> & Hs & Hlook).
      injection Hrun as <- <-. exists s. by split_and!.
Qed.

(** X15. The confirmation of a block. On the block path the handler
    resolves the duration, saves the collection with the new record and
    makes the system-effect call in the world it has reached by then; the
    call returns a boolean. When that boolean is true the handler logs the
    block and replies with the confirmation. The duration text of the
    reply is the permanent word for a permanent block, the readable form of
    the requested seconds for an explicit non-negative duration (the
    request as given, also when [MAX_BLOCK_SECONDS] shortened the expiry),
    and the readable form of [DEFAULT_BLOCK_SECONDS] for the fallback; the
    log line carries the same text, followed by the seconds for a timed
    block. *)
Theorem block_confirmation (bt : BlockType)
    (ctx : AgentCtx.t) (ident reason : string) (duration : option Z)
    (w : World) (u : DBUser.t) (d : BlockData) :
  enabled config bt = true ->
  resolved w (AgentCtx.adapter_key ctx) ident = Some u ->
  loaded (store w) (AgentCtx.chat_key ctx) = Ok d ->
  get_block d (DBUser.unique_id u) = None ->
  exists (p : bool) (e dur : option Z) (w1 : World) (ok : bool) (w4 : World),
    resolve_duration config duration w = (Ok (p, e, dur), w1)
    /\ (w1 = w \/ w1 = tick w)
    /\ apply_block_to_system host (DBUser.unique_id u) bt e
         (after_save ctx ident
            (add_block d (new_record u bt reason (clock w1 (ticks w1)) e p)) w1)
       = (Ok ok, w4)
    /\ (ok = true ->
        exists desc logdesc : string,
          block_user bt config host ctx ident reason duration w
          = (Ok (blocked_message bt u desc reason),
             emit (EvLog INFO (blocked_log bt ctx u reason logdesc)) w4)
          /\ (p = true -> desc = "永久" /\ logdesc = "永久")
          /\ (forall s, duration = Some s -> 0 <= s ->
              p = false
              /\ desc = duration_desc s
              /\ logdesc = duration_desc s +:+ "(" +:+ pretty s +:+ "秒)")
          /\ (none_or_negative duration = true ->
              ALLOW_PERMANENT_BLOCK config = false ->
              p = false
              /\ desc = duration_desc (DEFAULT_BLOCK_SECONDS config)
              /\ logdesc = duration_desc (DEFAULT_BLOCK_SECONDS config)
                           +:+ "(" +:+ pretty (DEFAULT_BLOCK_SECONDS config)
                           +:+ "秒)")
          /\ (none_or_negative duration = true ->
              ALLOW_PERMANENT_BLOCK config = true -> p = true)).
Proof.
  intros Hflag Hu Hd Hget.
  destruct (resolve_duration_total config duration w)
    as (p & e & dur & w1 & Hres & Hw1 & _ & Hdur & Hexplicit & Hdefault & Hperm).
  assert (Hu1 : resolved w1 (AgentCtx.adapter_key ctx) ident = Some u)
    by (destruct Hw1 as [-> | ->]; exact Hu).
  assert (Hd1 : loaded (store w1) (AgentCtx.chat_key ctx) = Ok d)
    by (destruct Hw1 as [-> | ->]; exact Hd).
  set (r := new_record u bt reason (clock w1 (ticks w1)) e p).
  destruct (apply_block_to_system_outcome host (DBUser.unique_id u) bt e
              (after_save ctx ident (add_block d r) w1))
    as (ok & w4 & Happly & _).
  exists p, e, dur, w1, ok, w4.
  split_and!; [exact Hres | exact Hw1 | exact Happly |].
  intros ->.
  assert (Hrun : block_user bt config host ctx ident reason duration w
                 = block_reply bt ctx u reason p dur true w4).
  { rewrite (block_user_enabled config host bt ctx ident reason duration
               w w1 p e dur Hflag Hres).
    rewrite Hu1. cbv zeta. rewrite Hd1, Hget. unfold bind.
    fold r. by rewrite Happly. }
  rewrite Hrun. unfold block_reply. cbn [negb].
  destruct p.
  - exists "永久", "永久". split_and!; [reflexivity | done | |  | done].
    + intros s Hs Hpos. by destruct (Hexplicit s Hs Hpos).
    + intros Hnone Hallow. by destruct (Hdefault Hnone Hallow).
  - destruct (Hdur eq_refl) as [s0 ->].
    exists (duration_desc s0), (duration_desc s0 +:+ "(" +:+ pretty s0 +:+ "秒)").
    split_and!; [reflexivity | done | | | ].
    + intros s Hs Hpos. destruct (Hexplicit s Hs Hpos) as [_ [= ->]]. done.
    + intros Hnone Hallow. destruct (Hdefault Hnone Hallow) as [_ [= ->]]. done.
    + exact Hperm.
Qed.

(** X16. The bounds of a stored expiry. Under a configuration within its
    declared bounds, a non-permanent record stored by a block handler
    expires no earlier than the clock reading [now] taken by the duration
    handling, whatever non-negative duration was asked for, and, when
    [MAX_BLOCK_SECONDS] is positive, no later than
    [now + MAX_BLOCK_SECONDS], also for the fallback to a
    [DEFAULT_BLOCK_SECONDS] above the cap. *)
Theorem stored_expiry_bounds (bt : BlockType)
    (ctx : AgentCtx.t) (ident reason : string) (duration : option Z)
    (w : World) (u : DBUser.t) (d : BlockData) :
  config_valid config ->
  enabled config bt = true ->
  resolved w (AgentCtx.adapter_key ctx) ident = Some u ->
  loaded (store w) (AgentCtx.chat_key ctx) = Ok d ->
  get_block d (DBUser.unique_id u) = None ->
  exists (r : BlockRecord) (res : Result string) (w' : World),
    block_user bt config host ctx ident reason duration w = (res, w')
    /\ loaded (store w') (AgentCtx.chat_key ctx) = Ok (add_block d r)
    /\ get_block (add_block d r) (DBUser.unique_id u) = Some r
    /\ (is_permanent r = false ->
        exists e : Z,
          expire_time r = Some e
          /\ clock w (ticks w) <= e
          /\ (0 < MAX_BLOCK_SECONDS config ->
              e <= clock w (ticks w) + MAX_BLOCK_SECONDS config)).
Proof.
  intros (Hmax & Hdefault & _) Hflag Hu Hd Hget.
  destruct (block_path_result config host bt ctx ident reason duration w u d
              Hflag Hu Hd Hget)
    as (p & e & dur & w1 & res & w' & Hres & Hrun & Hstore & Hrec).
  eexists _, res, w'. split_and!; [exact Hrun | | exact Hrec |].
  - rewrite Hstore. apply loaded_insert.
  - simpl. intros ->. revert Hres. unfold resolve_duration.
    destruct (none_or_negative duration) eqn:Hneg;
      [destruct (ALLOW_PERMANENT_BLOCK config); [discriminate |] |].
    + unfold bind. rewrite calculate_expire_time_run. unfold ret.
      intros [= <- _ _]. eexists. split; [reflexivity |].
      destruct (MAX_BLOCK_SECONDS config >? 0) eqn:Hcap.
      * apply Z.gtb_lt in Hcap. lia.
      * rewrite Z.gtb_ltb in Hcap. apply Z.ltb_ge in Hcap. lia.
    + destruct duration as [s|]; [| done]. simpl in Hneg. apply Z.ltb_ge in Hneg.
      unfold bind. rewrite calculate_expire_time_run. unfold ret.
      intros [= <- _ _]. eexists. split; [reflexivity |].
      destruct (MAX_BLOCK_SECONDS config >? 0) eqn:Hcap.
      * apply Z.gtb_lt in Hcap. lia.
      * rewrite Z.gtb_ltb in Hcap. apply Z.ltb_ge in Hcap. lia.
Qed.

End HandlerExtras.

(** ** The directory under the system effect *)

Section DirectoryFacts.

Variable host : Host.

Lemma keyed_same_pk (us : list DBUser.t) (v1 v2 : DBUser.t) :
  directory_keyed us -> v1 ∈ us -> v2 ∈ us ->
  DBUser.pk v1 = DBUser.pk v2 -> v1 = v2.
Proof.
  unfold directory_keyed. induction us as [|v us IH]; simpl.
  - intros _ H. by apply elem_of_nil in H.
  - rewrite NoDup_cons, !elem_of_cons. intros [Hv Hnd] [-> | H1] [-> | H2] Hpk.
    + done.
    + exfalso. apply Hv. rewrite Hpk. apply list_elem_of_fmap. by exists v2.
    + exfalso. apply Hv. rewrite <- Hpk. apply list_elem_of_fmap. by exists v1.
    + by apply IH.
Qed.

Lemma same_identity_refl (u : DBUser.t) : same_identity u u.
Proof. by unfold same_identity. Qed.

Lemma same_identity_with_field (bt : BlockType) (u : DBUser.t) (v : option datetime) :
  same_identity u (with_field bt u v).
Proof. unfold same_identity, with_field. by destruct bt. Qed.

(** Persisting an entity of the directory with other timestamps changes no
    identity in the directory. *)
Lemma put_user_identities (us : list DBUser.t) (found saved : DBUser.t) :
  directory_keyed us -> found ∈ us -> same_identity found saved ->
  Forall2 same_identity us (put_user saved us).
Proof.
  intros Hkey Hin Hsame. unfold put_user.
  assert (Hall : forall v, v ∈ us ->
            same_identity v (if decide (DBUser.pk v = DBUser.pk saved)
                             then saved else v)).
  { intros v Hv. destruct (decide (DBUser.pk v = DBUser.pk saved)) as [Hpk|];
      [| apply same_identity_refl].
    assert (v = found) as ->; [| done].
    apply (keyed_same_pk us); [done | done | done |].
    destruct Hsame as [Hpk' _]. congruence. }
  clear Hkey Hin Hsame. induction us as [|v us IH]; simpl; [constructor |].
  constructor.
  - apply Hall. by left.
  - apply IH. intros v' Hv'. apply Hall. by right.
Qed.

Lemma identities_keyed (us us' : list DBUser.t) :
  Forall2 same_identity us us' -> directory_keyed us -> directory_keyed us'.
Proof.
  unfold directory_keyed. intros Hall.
  assert (Heq : DBUser.pk <$> us' = DBUser.pk <$> us).
  { induction Hall as [|u u' us us' [Hpk _] _ IH]; [done |].
    rewrite !fmap_cons. congruence. }
  by rewrite Heq.
Qed.

Lemma identities_trans (us1 us2 us3 : list DBUser.t) :
  Forall2 same_identity us1 us2 -> Forall2 same_identity us2 us3 ->
  Forall2 same_identity us1 us3.
Proof.
  intros H12. revert us3. induction H12 as [|u1 u2 us1 us2 H _ IH]; intros us3 H23.
  - by inversion H23.
  - inversion H23 as [|? u3 ? us3' H' H23']; subst. constructor; [| by apply IH].
    unfold same_identity in *. destruct H as (-> & -> & -> & -> & ->). exact H'.
Qed.

(** Resolution sees identities only. *)
Lemma resolve_identities (us us' : list DBUser.t) (a i : string) :
  Forall2 same_identity us us' ->
  match List.find (same_user a i) us with
  | Some u => exists u', List.find (same_user a i) us' = Some u' /\ same_identity u u'
  | None => List.find (same_user a i) us' = None
  end.
Proof.
  induction 1 as [|u u' us us' Hsame _ IH]; simpl; [done |].
  assert (same_user a i u' = same_user a i u) as ->.
  { unfold same_user. destruct Hsame as (_ & <- & <- & _). done. }
  destruct (same_user a i u); [by exists u' | exact IH].
Qed.

(** What a system-effect call can do to the directory: nothing, or persist
    an entity of the directory with the field of the block type rewritten. *)
Lemma effect_tail_users (saved : DBUser.t) (w0 w' : World) (ok : bool) :
  (let (r, w1) := (DBUser_save host saved;; ret true) w0 in
   match r with Ok a => (Ok a, w1) | Raise _ => ret false w1 end) = (Ok ok, w') ->
  (ok = false /\ users w' = users w0)
  \/ (ok = true /\ save_ok host saved = true
      /\ users w' = put_user saved (users w0)).
Proof.
  unfold bind, DBUser_save, ret. destruct (save_ok host saved).
  - intros [= <- <-]. right. by split_and!.
  - intros [= <- <-]. left. by split.
Qed.

Lemma apply_block_to_system_users
    (user_id : string) (bt : BlockType) (e : option Z) (w w' : World) (ok : bool) :
  apply_block_to_system host user_id bt e w = (Ok ok, w') ->
  (ok = false /\ users w' = users w)
  \/ (ok = true
      /\ exists (a p : string) (found : DBUser.t) (value : option datetime),
           split_once ":"%char user_id = Some (a, p)
           /\ resolved w a p = Some found
           /\ (py_truthy e = false -> value = None)
           /\ (forall t d, e = Some t -> t <> 0 -> fromtimestamp host t = Ok d ->
               value = Some d)
           /\ users w' = put_user (with_field bt found value) (users w)).
Proof.
  unfold apply_block_to_system.
  unfold try_except at 1. unfold bind at 1. rewrite get_user_by_unique_id_run.
  destruct (split_once ":"%char user_id) as [[a p]|];
    [| intros [= <- <-]; left; by split].
  destruct (found_by_union_id w a p) as [found|] eqn:Hfound;
    [| intros [= <- <-]; left; by split].
  apply found_by_union_id_resolved in Hfound.
  unfold bind at 1.
  destruct (py_truthy e) eqn:Htruthy; [destruct e as [t|]; [| done] |].
  - unfold bind at 1, lift. destruct (fromtimestamp host t) as [d|ex] eqn:Hd;
      [| intros [= <- <-]; left; by split].
    unfold ret at 2. intros Hrun.
    apply effect_tail_users in Hrun as [[-> Hu] | (-> & _ & Hu)];
      [left; by split | right]. split; [done |].
    exists a, p, found, (Some d). split_and!; [done | done | done | | done].
    intros t' d' [= <-] _ Ht. rewrite Hd in Ht. by injection Ht as ->.
  - unfold ret at 1. intros Hrun.
    apply effect_tail_users in Hrun as [[-> Hu] | (-> & _ & Hu)];
      [left; by split | right]. split; [done |].
    exists a, p, found, None. split_and!; [done | done | done | | done].
    intros t d [= ->] Hnz. unfold py_truthy in Htruthy.
    apply negb_false_iff, Z.eqb_eq in Htruthy. done.
Qed.

Lemma remove_block_from_system_users
    (user_id : string) (bt : BlockType) (w w' : World) (ok : bool) :
  remove_block_from_system host user_id bt w = (Ok ok, w') ->
  (ok = false /\ users w' = users w)
  \/ (ok = true
      /\ exists (a p : string) (found : DBUser.t),
           split_once ":"%char user_id = Some (a, p)
           /\ resolved w a p = Some found
           /\ users w' = put_user (with_field bt found None) (users w)).
Proof.
  unfold remove_block_from_system.
  unfold try_except at 1. unfold bind at 1. rewrite get_user_by_unique_id_run.
  destruct (split_once ":"%char user_id) as [[a p]|];
    [| intros [= <- <-]; left; by split].
  destruct (found_by_union_id w a p) as [found|] eqn:Hfound;
    [| intros [= <- <-]; left; by split].
  apply found_by_union_id_resolved in Hfound.
  intros Hrun.
  apply effect_tail_users in Hrun as [[-> Hu] | (-> & _ & Hu)];
    [left; by split | right]. split; [done |].
  by exists a, p, found.
Qed.

Lemma resolved_elem_of (w : World) (a p : string) (found : DBUser.t) :
  resolved w a p = Some found ->
  found ∈ users w /\ DBUser.adapter_key found = a /\ DBUser.platform_userid found = p.
Proof.
  unfold resolved. intros Hfind. apply find_some in Hfind as [Hin Hsame].
  unfold same_user in Hsame. apply andb_true_iff in Hsame as [H1 H2].
  apply bool_decide_eq_true in H1, H2. split_and!; [| done | done].
  by apply list_elem_of_In.
Qed.

(** Resolution after an entity of a keyed directory has been persisted. *)
Lemma put_user_resolved (us : list DBUser.t) (found saved : DBUser.t) (a i : string) :
  directory_keyed us -> found ∈ us -> same_identity found saved ->
  List.find (same_user a i) (put_user saved us)
  = (fun v => if decide (DBUser.pk v = DBUser.pk saved) then saved else v)
      <$> List.find (same_user a i) us.
Proof.
  intros Hkey Hin Hsame. unfold put_user.
  assert (Hall : forall v, v ∈ us ->
            same_user a i (if decide (DBUser.pk v = DBUser.pk saved)
                           then saved else v) = same_user a i v).
  { intros v Hv. destruct (decide (DBUser.pk v = DBUser.pk saved)) as [Hpk|];
      [| done].
    assert (v = found) as ->.
    { apply (keyed_same_pk us); [done | done | done |].
      destruct Hsame as [Hpk' _]. congruence. }
    unfold same_user. destruct Hsame as (_ & <- & <- & _). done. }
  clear Hkey Hin Hsame. induction us as [|v us IH]; simpl; [done |].
  rewrite Hall by (by left). destruct (same_user a i v); [done |].
  apply IH. intros v' Hv'. apply Hall. by right.
Qed.

(** The converted expiry [apply_block_to_system] writes. *)
Lemma apply_block_to_system_succeeds
    (user_id : string) (bt : BlockType) (e : option Z) (w : World)
    (a p : string) (found : DBUser.t) (value : option datetime) :
  split_once ":"%char user_id = Some (a, p) ->
  unambiguous (users w) a p ->
  resolved w a p = Some found ->
  (py_truthy e = false -> value = None) ->
  (forall t, e = Some t -> t <> 0 ->
     exists d, fromtimestamp host t = Ok d /\ value = Some d) ->
  save_ok host (with_field bt found value) = true ->
  apply_block_to_system host user_id bt e w
  = (Ok true,
     emit (EvDbSave (with_field bt found value))
       (with_users (put_user (with_field bt found value) (users w))
          (emit (EvDbQuery a p) w))).
Proof.
  intros Hsplit Hone Hfound Hfalsy Htruthy Hsave.
  unfold apply_block_to_system.
  unfold try_except at 1. unfold bind at 1. rewrite get_user_by_unique_id_run.
  rewrite Hsplit, (found_by_union_id_unambiguous _ _ _ Hone), Hfound.
  unfold bind at 1.
  destruct (py_truthy e) eqn:Ht; [destruct e as [t|]; [| done] |].
  - destruct (Htruthy t eq_refl) as (d & Hd & ->).
    { unfold py_truthy in Ht. apply negb_true_iff, Z.eqb_neq in Ht. done. }
    unfold bind at 1, lift. rewrite Hd. unfold ret at 2.
    unfold bind, DBUser_save, ret. fold (with_field bt found (Some d)).
    by rewrite Hsave.
  - rewrite (Hfalsy eq_refl) in *. unfold ret at 1.
    unfold bind, DBUser_save, ret. fold (with_field bt found None).
    by rewrite Hsave.
Qed.

Lemma system_effect_identities
    (user_id : string) (bt : BlockType) (e : option Z) (w w' : World) (ok : bool) :
  directory_keyed (users w) ->
  apply_block_to_system host user_id bt e w = (Ok ok, w')
  \/ remove_block_from_system host user_id bt w = (Ok ok, w') ->
  Forall2 same_identity (users w) (users w')
  /\ directory_keyed (users w')
  /\ forall a i : string,
       match resolved w a i with
       | Some u => exists u', resolved w' a i = Some u' /\ same_identity u u'
       | None => resolved w' a i = None
       end.
Proof.
  intros Hkey Hrun.
  assert (Hids : Forall2 same_identity (users w) (users w')).
  { assert (Hrefl : Forall2 same_identity (users w) (users w)).
    { clear. induction (users w); constructor; [apply same_identity_refl | done]. }
    destruct Hrun as [Hrun | Hrun].
    - apply apply_block_to_system_users in Hrun
        as [[_ ->] | (_ & a & p & found & value & _ & Hfound & _ & _ & ->)];
        [done |].
      apply resolved_elem_of in Hfound as (Hin & _).
      apply (put_user_identities _ found); [done | done |].
      apply same_identity_with_field.
    - apply remove_block_from_system_users in Hrun
        as [[_ ->] | (_ & a & p & found & _ & Hfound & ->)]; [done |].
      apply resolved_elem_of in Hfound as (Hin & _).
      apply (put_user_identities _ found); [done | done |].
      apply same_identity_with_field. }
  split_and!; [done | by apply (identities_keyed (users w)) |].
  intros a i. by apply resolve_identities.
Qed.

(** X17. The system effect keeps every identity of a keyed directory: after
    [apply_block_to_system] or [remove_block_from_system], whatever they
    return, the directory has the same rows in the same order with the same
    keys, adapter keys, platform ids, composite ids and names (only the two
    timestamps can differ), it is still keyed, and every identifier
    resolves to the entity of the same identity as before. *)
Theorem system_effects_keep_identities
    (user_id : string) (bt : BlockType) (e : option Z) (w w' : World) (ok : bool) :
  directory_keyed (users w) ->
  apply_block_to_system host user_id bt e w = (Ok ok, w')
  \/ remove_block_from_system host user_id bt w = (Ok ok, w') ->
  Forall2 same_identity (users w) (users w')
  /\ directory_keyed (users w')
  /\ forall a i : string,
       match resolved w a i with
       | Some u => exists u', resolved w' a i = Some u' /\ same_identity u u'
       | None => resolved w' a i = None
       end.
Proof. apply system_effect_identities. Qed.

End DirectoryFacts.

(** ** methods.py: how the handlers compose *)

Section HandlerCompositions.

Variable config : BlockConfig.
Variable host : Host.

(** The whole block path: duration handling, save, system effect, reply. *)
Lemma block_path_full (bt : BlockType)
    (ctx : AgentCtx.t) (ident reason : string) (duration : option Z)
    (w : World) (u : DBUser.t) (d : BlockData) :
  enabled config bt = true ->
  resolved w (AgentCtx.adapter_key ctx) ident = Some u ->
  loaded (store w) (AgentCtx.chat_key ctx) = Ok d ->
  get_block d (DBUser.unique_id u) = None ->
  exists (p : bool) (e dur : option Z) (w1 : World)
         (ok : bool) (w4 : World) (msg : string) (w5 : World),
    resolve_duration config duration w = (Ok (p, e, dur), w1)
    /\ (w1 = w \/ w1 = tick w)
    /\ apply_block_to_system host (DBUser.unique_id u) bt e
         (after_save ctx ident
            (add_block d (new_record u bt reason (clock w1 (ticks w1)) e p)) w1)
       = (Ok ok, w4)
    /\ block_user bt config host ctx ident reason duration w = (Ok msg, w5)
    /\ store w5
       = <[AgentCtx.chat_key ctx :=
             Json (add_block d (new_record u bt reason (clock w1 (ticks w1)) e p))]>
           (store w)
    /\ users w5 = users w4
    /\ (ok = false -> msg = block_failed_message u)
    /\ (ok = true -> exists desc, msg = blocked_message bt u desc reason).
Proof.
  intros Hflag Hu Hd Hget.
  destruct (resolve_duration_total config duration w)
    as (p & e & dur & w1 & Hres & Hw1 & _ & Hdur & _).
  assert (Hu1 : resolved w1 (AgentCtx.adapter_key ctx) ident = Some u)
    by (destruct Hw1 as [-> | ->]; exact Hu).
  assert (Hd1 : loaded (store w1) (AgentCtx.chat_key ctx) = Ok d)
    by (destruct Hw1 as [-> | ->]; exact Hd).
  set (r := new_record u bt reason (clock w1 (ticks w1)) e p).
  destruct (apply_block_to_system_outcome host (DBUser.unique_id u) bt e
              (after_save ctx ident (add_block d r) w1))
    as (ok & w4 & Happly & Hstore & _).
  destruct (block_reply_run bt ctx u reason p dur w4 Hdur)
    as (Hfail & desc & logdesc & Hok & _).
  assert (Hrun : block_user bt config host ctx ident reason duration w
                 = block_reply bt ctx u reason p dur ok w4).
  { rewrite (block_user_enabled config host bt ctx ident reason duration
               w w1 p e dur Hflag Hres).
    rewrite Hu1. cbv zeta. rewrite Hd1, Hget. unfold bind. fold r.
    by rewrite Happly. }
  assert (Hst : store w4 = <[AgentCtx.chat_key ctx := Json (add_block d r)]> (store w)).
  { rewrite Hstore. destruct Hw1 as [-> | ->]; reflexivity. }
  exists p, e, dur, w1, ok, w4.
  destruct ok.
  - eexists _, _. rewrite Hrun, Hok.
    split_and!; try done. intros _. by exists desc.
  - eexists _, _. rewrite Hrun, Hfail. by split_and!.
Qed.

(** X18. A second block is refused, whatever became of the first. After
    any block invocation that got to store a record (also one whose system
    effect failed and that replied with the failure message and its advice
    to retry), a further block invocation for the same user, in a keyed
    directory, changes neither store nor directory, whatever its type, its
    reason and its duration: if the flag of its type is on it replies
    already-blocked with the type of the stored record, and if that flag is
    off it replies that the feature is disabled and does nothing at all. *)
Theorem second_block_is_refused (bt : BlockType)
    (ctx : AgentCtx.t) (ident reason : string) (duration : option Z)
    (w : World) (u : DBUser.t) (d : BlockData) :
  enabled config bt = true ->
  directory_keyed (users w) ->
  resolved w (AgentCtx.adapter_key ctx) ident = Some u ->
  loaded (store w) (AgentCtx.chat_key ctx) = Ok d ->
  get_block d (DBUser.unique_id u) = None ->
  exists (msg : string) (w1 : World) (r : BlockRecord),
    block_user bt config host ctx ident reason duration w = (Ok msg, w1)
    /\ block_type r = bt
    /\ loaded (store w1) (AgentCtx.chat_key ctx) = Ok (add_block d r)
    /\ forall (bt2 : BlockType) (reason2 : string) (duration2 : option Z),
         exists (reply : string) (w2 : World),
           block_user bt2 config host ctx ident reason2 duration2 w1
           = (Ok reply, w2)
           /\ store w2 = store w1
           /\ users w2 = users w1
           /\ (enabled config bt2 = true ->
               reply = already_blocked_message u r)
           /\ (enabled config bt2 = false ->
               reply = disabled_message bt2 /\ w2 = w1).
Proof.
  intros Hflag Hkey Hu Hd Hget.
  destruct (block_path_full bt ctx ident reason duration w u d Hflag Hu Hd Hget)
    as (p & e & dur & w1 & ok & w4 & msg & w5
        & Hres & Hw1 & Happly & Hrun & Hstore & Husers & _).
  set (r := new_record u bt reason (clock w1 (ticks w1)) e p) in *.
  assert (Hkey3 : directory_keyed
                    (users (after_save ctx ident (add_block d r) w1)))
    by (destruct Hw1 as [-> | ->]; exact Hkey).
  destruct (system_effect_identities host (DBUser.unique_id u) bt e
              _ w4 ok Hkey3 (or_introl Happly)) as (_ & _ & Hresolve).
  specialize (Hresolve (AgentCtx.adapter_key ctx) ident).
  assert (Hu3 : resolved (after_save ctx ident (add_block d r) w1)
                  (AgentCtx.adapter_key ctx) ident = Some u)
    by (destruct Hw1 as [-> | ->]; exact Hu).
  rewrite Hu3 in Hresolve.
  destruct Hresolve as (u' & Hu' & _ & _ & _ & Hid & Hname).
  exists msg, w5, r.
  split_and!; [exact Hrun | reflexivity | rewrite Hstore; apply loaded_insert |].
  intros bt2 reason2 duration2.
  destruct (enabled config bt2) eqn:Hflag2.
  - destruct (resolve_duration_total config duration2 w5)
      as (p2 & e2 & dur2 & w6 & Hres2 & Hw6 & _).
    exists (already_blocked_message u r),
      (emit (EvStoreGet (AgentCtx.chat_key ctx))
         (emit (EvDbQuery (AgentCtx.adapter_key ctx) ident) w6)).
    split_and!; [| | | done | done].
    + rewrite (block_user_enabled config host bt2 ctx ident reason2 duration2
                 w5 w6 p2 e2 dur2 Hflag2 Hres2).
      assert (resolved w6 (AgentCtx.adapter_key ctx) ident = Some u') as ->.
      { unfold resolved in *.
        replace (users w6) with (users w4); [done |].
        rewrite <- Husers. by destruct Hw6 as [-> | ->]. }
      cbv zeta.
      assert (loaded (store w6) (AgentCtx.chat_key ctx) = Ok (add_block d r)) as ->.
      { replace (store w6) with (store w5) by (by destruct Hw6 as [-> | ->]).
        rewrite Hstore. apply loaded_insert. }
      rewrite <- Hid.
      assert (get_block (add_block d r) (DBUser.unique_id u) = Some r) as ->
        by (unfold get_block, add_block; simpl; apply PyDictFacts.get_setitem).
      unfold already_blocked_message. by rewrite Hname.
    + by destruct Hw6 as [-> | ->].
    + by destruct Hw6 as [-> | ->].
  - exists (disabled_message bt2), w5.
    rewrite (block_user_disabled config host bt2 ctx ident reason2 duration2
               w5 Hflag2).
    by split_and!.
Qed.

(** X19. Unblock undoes block. After a block invocation that stored a record
    for a user who had none, an unblock invocation for the same user, in a
    keyed directory, either replies that the user is unblocked, and then the
    collection loaded from the store is again the one loaded before the
    block, order included; or replies that the removal failed, and then the
    collection still holds the record. It never raises. *)
Theorem unblock_undoes_block (bt : BlockType)
    (ctx : AgentCtx.t) (ident reason : string) (duration : option Z)
    (w : World) (u : DBUser.t) (d : BlockData) :
  enabled config bt = true ->
  directory_keyed (users w) ->
  resolved w (AgentCtx.adapter_key ctx) ident = Some u ->
  loaded (store w) (AgentCtx.chat_key ctx) = Ok d ->
  get_block d (DBUser.unique_id u) = None ->
  exists (msg : string) (w1 : World) (r : BlockRecord) (msg2 : string) (w2 : World),
    block_user bt config host ctx ident reason duration w = (Ok msg, w1)
    /\ loaded (store w1) (AgentCtx.chat_key ctx) = Ok (add_block d r)
    /\ unblock_user host ctx ident w1 = (Ok msg2, w2)
    /\ ((msg2 = unblocked_message u
         /\ loaded (store w2) (AgentCtx.chat_key ctx) = Ok d)
        \/ (msg2 = unblock_failed_message u
            /\ loaded (store w2) (AgentCtx.chat_key ctx) = Ok (add_block d r)
            /\ users w2 = users w1)).
Proof.
  intros Hflag Hkey Hu Hd Hget.
  destruct (block_path_full bt ctx ident reason duration w u d Hflag Hu Hd Hget)
    as (p & e & dur & w1 & ok & w4 & msg & w5
        & Hres & Hw1 & Happly & Hrun & Hstore & Husers & _).
  set (r := new_record u bt reason (clock w1 (ticks w1)) e p) in *.
  assert (Hkey3 : directory_keyed
                    (users (after_save ctx ident (add_block d r) w1)))
    by (destruct Hw1 as [-> | ->]; exact Hkey).
  destruct (system_effect_identities host (DBUser.unique_id u) bt e
              _ w4 ok Hkey3 (or_introl Happly)) as (_ & _ & Hresolve).
  specialize (Hresolve (AgentCtx.adapter_key ctx) ident).
  assert (Hu3 : resolved (after_save ctx ident (add_block d r) w1)
                  (AgentCtx.adapter_key ctx) ident = Some u)
    by (destruct Hw1 as [-> | ->]; exact Hu).
  rewrite Hu3 in Hresolve.
  destruct Hresolve as (u' & Hu' & _ & _ & _ & Hid & Hname).
  assert (Hloaded : loaded (store w5) (AgentCtx.chat_key ctx) = Ok (add_block d r))
    by (rewrite Hstore; apply loaded_insert).
  assert (Hrec : get_block (add_block d r) (DBUser.unique_id u') = Some r).
  { rewrite <- Hid. unfold get_block, add_block. simpl.
    apply PyDictFacts.get_setitem. }
  set (w6 := emit (EvStoreGet (AgentCtx.chat_key ctx))
               (emit (EvDbQuery (AgentCtx.adapter_key ctx) ident) w5)).
  destruct (remove_block_from_system_outcome host (DBUser.unique_id u')
              (block_type r) w6)
    as (ok2 & w7 & Hremove & Hstore7 & _ & _ & Hfailusers & _).
  assert (Hunblock : unblock_user host ctx ident w5
            = if ok2
              then (Ok (unblocked_message u'),
                    emit (EvLog INFO (unblocked_log ctx u'))
                      (written (AgentCtx.chat_key ctx) d w7))
              else (Ok (unblock_failed_message u'), w7)).
  { rewrite unblock_user_run.
    assert (resolved w5 (AgentCtx.adapter_key ctx) ident = Some u') as ->
      by (unfold resolved in *; by rewrite Husers).
    cbv zeta. rewrite Hloaded, Hrec. fold w6. rewrite Hremove.
    destruct ok2; [| done].
    rewrite <- Hid.
    pose proof (remove_block_add_block_fresh d r Hget) as Hrm.
    change (user_id r) with (DBUser.unique_id u) in Hrm.
    by rewrite Hrm. }
  exists msg, w5, r. destruct ok2.
  - eexists _, _. split_and!; [done | done | exact Hunblock |].
    left. split.
    + unfold unblocked_message. by rewrite Hname.
    + apply loaded_insert.
  - eexists _, _. split_and!; [done | done | exact Hunblock |].
    right. split_and!.
    + unfold unblock_failed_message. by rewrite Hname.
    + by rewrite Hstore7.
    + by rewrite (Hfailusers eq_refl).
Qed.

(** X20. When a block takes effect. Let the directory be keyed and hold
    exactly one row for the identifier (so that both queries for it return),
    let the composite id of that user be [adapter_key:platform_userid] with
    a colon-free adapter key, and let the host convert the expiry that the
    handler computes for the request and persist this entity. Then a block
    handler whose flag is on and whose user has no record replies with the
    confirmation, stores the record, and leaves the entity that the
    identifier resolves to with the field of the block type holding the
    converted expiry. For a permanent record that field is [None]: the
    entity then shows no timestamp at all for the block. *)
Theorem block_takes_effect (bt : BlockType)
    (ctx : AgentCtx.t) (ident reason : string) (duration : option Z)
    (w : World) (u : DBUser.t) (d : BlockData) :
  enabled config bt = true ->
  directory_keyed (users w) ->
  List.filter (same_user (AgentCtx.adapter_key ctx) ident) (users w) = [u] ->
  canonical_id u ->
  loaded (store w) (AgentCtx.chat_key ctx) = Ok d ->
  get_block d (DBUser.unique_id u) = None ->
  (forall value : option datetime, save_ok host (with_field bt u value) = true) ->
  (forall (p : bool) (dur : option Z) (w1 : World) (t : Z),
     resolve_duration config duration w = (Ok (p, Some t, dur), w1) ->
     exists dt, fromtimestamp host t = Ok dt) ->
  exists (r : BlockRecord) (desc : string) (w' : World) (value : option datetime),
    block_user bt config host ctx ident reason duration w
    = (Ok (blocked_message bt u desc reason), w')
    /\ loaded (store w') (AgentCtx.chat_key ctx) = Ok (add_block d r)
    /\ get_block (add_block d r) (DBUser.unique_id u) = Some r
    /\ block_type r = bt
    /\ resolved w' (AgentCtx.adapter_key ctx) ident = Some (with_field bt u value)
    /\ (is_permanent r = true -> value = None)
    /\ (forall t, expire_time r = Some t -> t <> 0 ->
        exists dt, fromtimestamp host t = Ok dt /\ value = Some dt).
Proof.
  intros Hflag Hkey Hrows [Hcanon Hcolon] Hd Hget Hsaves Hconverts.
  assert (Hu : resolved w (AgentCtx.adapter_key ctx) ident = Some u)
    by (unfold resolved; rewrite find_head_filter, Hrows; reflexivity).
  assert (Hone : unambiguous (users w) (AgentCtx.adapter_key ctx) ident)
    by (unfold unambiguous; rewrite Hrows; simpl; lia).
  destruct (block_path_full bt ctx ident reason duration w u d Hflag Hu Hd Hget)
    as (p & e & dur & w1 & ok & w4 & msg & w5
        & Hres & Hw1 & Happly & Hrun & Hstore & Husers & _ & Hmsg).
  destruct (resolve_duration_total config duration w)
    as (p' & e' & dur' & w1' & Hres' & _ & Hperm & _).
  rewrite Hres in Hres'. injection Hres' as <- <- <- <-.
  set (r := new_record u bt reason (clock w1 (ticks w1)) e p) in *.
  set (w3 := after_save ctx ident (add_block d r) w1) in *.
  destruct (resolved_elem_of w _ _ u Hu) as (Hin & Hadapter & Hplatform).
  (* the expiry as the entity will hold it *)
  assert (Hvalue : exists value : option datetime,
            (py_truthy e = false -> value = None)
            /\ (forall t, e = Some t -> t <> 0 ->
                 exists dt, fromtimestamp host t = Ok dt /\ value = Some dt)).
  { destruct (py_truthy e) eqn:Ht; [destruct e as [t|]; [| done] |].
    - destruct (Hconverts p dur w1 t Hres) as [dt Hdt]. exists (Some dt).
      split; [done |]. intros t' [= <-] _. by exists dt.
    - exists None. split; [done |]. intros t -> Hnz.
      unfold py_truthy in Ht. apply negb_false_iff, Z.eqb_eq in Ht. done. }
  destruct Hvalue as (value & Hfalsy & Htruthy).
  assert (Hsplit : split_once ":"%char (DBUser.unique_id u)
                   = Some (AgentCtx.adapter_key ctx, ident)).
  { rewrite Hcanon, Hadapter, Hplatform.
    change (":" +:+ ident) with (String ":"%char ident).
    apply split_once_join. by rewrite <- Hadapter. }
  assert (Hu3 : resolved w3 (AgentCtx.adapter_key ctx) ident = Some u)
    by (unfold w3; destruct Hw1 as [-> | ->]; exact Hu).
  assert (Hone3 : unambiguous (users w3) (AgentCtx.adapter_key ctx) ident)
    by (unfold w3; destruct Hw1 as [-> | ->]; exact Hone).
  rewrite (apply_block_to_system_succeeds host (DBUser.unique_id u) bt e w3
             _ _ u value Hsplit Hone3 Hu3 Hfalsy Htruthy (Hsaves _)) in Happly.
  injection Happly as <- <-.
  destruct (Hmsg eq_refl) as [desc ->].
  exists r, desc, w5, value. split_and!.
  - exact Hrun.
  - rewrite Hstore. apply loaded_insert.
  - unfold get_block, add_block. simpl. apply PyDictFacts.get_setitem.
  - reflexivity.
  - unfold resolved. rewrite Husers. simpl.
    assert (Hkey1 : directory_keyed (users w1))
      by (destruct Hw1 as [-> | ->]; exact Hkey).
    assert (Hin1 : u ∈ users w1)
      by (destruct Hw1 as [-> | ->]; exact Hin).
    rewrite (put_user_resolved (users w1) u (with_field bt u value)
               (AgentCtx.adapter_key ctx) ident Hkey1 Hin1
               (same_identity_with_field bt u value)).
    assert (Hu1 : List.find (same_user (AgentCtx.adapter_key ctx) ident) (users w1)
                  = Some u)
      by (destruct Hw1 as [-> | ->]; exact Hu).
    rewrite Hu1. simpl.
    rewrite decide_True; [done |].
    by destruct (same_identity_with_field bt u value) as [-> _].
  - intros Hp. apply Hfalsy. simpl in Hp. by rewrite (Hperm Hp).
  - intros t Ht Hnz. simpl in Ht. exact (Htruthy t Ht Hnz).
Qed.

End HandlerCompositions.

(** ** methods.py: the listing and the prompt summary *)

Section ListingFacts.
Import PyDict PyDictFacts.

Variable config : BlockConfig.

Lemma list_entry_ok (idx : Z) (item : string * BlockRecord) (w : World) :
  exists (entry : string) (w' : World),
    list_entry idx item w = (Ok entry, w')
    /\ listing_entry (idx, item) entry
    /\ store w' = store w /\ users w' = users w /\ trace w' = trace w.
Proof.
  destruct item as [k r]. unfold list_entry, listing_entry. simpl.
  destruct (format_time_remaining_ok (expire_time r) w)
    as (text & w' & Hrun & Hframe).
  eexists _, w'. unfold bind. rewrite Hrun. split; [reflexivity |].
  split; [| exact Hframe].
  exists text. split; [reflexivity |]. intros He. rewrite He in Hrun.
  by injection Hrun as <- _.
Qed.

Lemma list_entries_ok (l : list (Z * (string * BlockRecord))) (w : World) :
  exists (entries : list string) (w' : World),
    mapM (fun p => list_entry p.1 p.2) l w = (Ok entries, w')
    /\ Forall2 listing_entry l entries
    /\ store w' = store w /\ users w' = users w /\ trace w' = trace w.
Proof.
  revert w. induction l as [|[idx item] l IH]; intros w.
  - exists [], w. by split_and!.
  - destruct (list_entry_ok idx item w) as (entry & w1 & Hrun & Hentry & Hs & Hu & Ht).
    destruct (IH w1) as (entries & w2 & Hruns & Hentries & Hs' & Hu' & Ht').
    exists (entry :: entries), w2. simpl. unfold bind at 1. rewrite Hrun.
    unfold bind at 1. rewrite Hruns. split; [reflexivity |].
    split_and!; [by constructor | congruence | congruence | congruence].
Qed.

Lemma length_enumerate {A} (start : Z) (l : list A) :
  length (enumerate start l) = length l.
Proof. revert start. induction l as [|x l IH]; intros start; simpl; [done | by rewrite IH]. Qed.



(** X22. The prompt summary is best effort. [inject_blocked_users_prompt]
    always returns a text and never raises, and never touches the
    directory. With the display flag off the text is empty and the world is
    untouched. With the flag on and a stored text that does not validate,
    the text is empty, the failure is logged as a warning and the store is
    not written. With the flag on and a loaded collection (a dictionary),
    the cleaned collection is written to the store on every call, also when
    nothing was removed, and the text is empty when no record is active. *)
Theorem prompt_summary_is_best_effort (ctx : AgentCtx.t) (w : World) :
  exists (reply : string) (w' : World),
    inject_blocked_users_prompt config ctx w = (Ok reply, w')
    /\ users w' = users w
    /\ (SHOW_BLOCKED_USERS_IN_PROMPT config = false -> reply = "" /\ w' = w)
    /\ (SHOW_BLOCKED_USERS_IN_PROMPT config = true ->
        forall ex, loaded (store w) (AgentCtx.chat_key ctx) = Raise ex ->
        reply = "" /\ store w' = store w
        /\ exists log,
             trace w' = trace w ++ [EvStoreGet (AgentCtx.chat_key ctx);
                                   EvLog WARNING log])
    /\ (SHOW_BLOCKED_USERS_IN_PROMPT config = true ->
        forall d, loaded (store w) (AgentCtx.chat_key ctx) = Ok d ->
        keys_unique (blocks d) ->
        exists (d1 : BlockData) (cleaned : Z),
          cleanup_expired d (clock w (ticks w)) = Ok (d1, cleaned)
          /\ store w' = <[AgentCtx.chat_key ctx := Json d1]> (store w)
          /\ (get_active_blocks d1 (clock w (S (ticks w))) = [] -> reply = "")).
Proof.
  unfold inject_blocked_users_prompt, try_except.
  destruct (SHOW_BLOCKED_USERS_IN_PROMPT config) eqn:Hshow; cbn [negb].
  2: { exists "", w. by split_and!. }
  unfold bind at 1. rewrite get_block_data_run.
  destruct (loaded (store w) (AgentCtx.chat_key ctx)) as [d|ex] eqn:Hd.
  2: { eexists "", _. split; [reflexivity |]. split_and!; try done.
       intros _ ex' _. split_and!; [done | done |]. eexists. simpl.
       by rewrite <- app_assoc. }
  unfold bind at 1, time_now at 1.
  change (clock (emit _ w) (ticks (emit _ w))) with (clock w (ticks w)).
  unfold bind at 1, lift at 1.
  destruct (cleanup_expired d (clock w (ticks w))) as [[d1 cleaned]|ex] eqn:Hclean.
  2: { eexists "", _. split; [reflexivity |]. split_and!; try done.
       intros _ d' [= <-] Hu. rewrite cleanup_expired_filter in Hclean by done.
       discriminate. }
  unfold bind at 1. rewrite save_block_data_run.
  unfold bind at 1, time_now at 1.
  change (clock (written _ _ _) (ticks (written _ _ _)))
    with (clock w (S (ticks w))).
  set (active := get_active_blocks d1 (clock w (S (ticks w)))).
  destruct active as [|item rest] eqn:Hactive.
  - eexists "", _. split; [reflexivity |]. split_and!; try done.
    intros _ d' [= <-] Hu. exists d1, cleaned. by split_and!.
  - set (shown := slice_to (item :: rest) _).
    unfold bind at 1.
    match goal with
    | |- context [mapM prompt_entry shown ?w0] =>
        destruct (mapM_prompt_entry_ok shown w0)
          as (entries & w3 & Hentries & _ & Hs3 & Hu3 & _)
    end.
    rewrite Hentries. unfold ret.
    eexists _, w3. split; [reflexivity |]. split_and!; try done.
    intros _ d' [= <-] Hu. exists d1, cleaned. split_and!; [done | by rewrite Hs3 |].
    intros Hnil. unfold active in Hactive. congruence.
Qed.

End ListingFacts.

(** ** Every handler and the store *)

Section StoreFacts.
Import PyDict PyDictFacts.

Variable config : BlockConfig.
Variable host : Host.

Lemma store_step_refl (chat_key : string) (w w' : World) :
  store w' = store w -> store_step chat_key w w'.
Proof. by left. Qed.

Lemma block_user_store_step (bt : BlockType)
    (ctx : AgentCtx.t) (ident reason : string) (duration : option Z)
    (w w' : World) (res : Result string) :
  block_user bt config host ctx ident reason duration w = (res, w') ->
  store_step (AgentCtx.chat_key ctx) w w'.
Proof.
  intros Hrun. destruct (enabled config bt) eqn:Hflag.
  2: { rewrite block_user_disabled in Hrun by done. injection Hrun as _ <-.
       by left. }
  destruct (resolve_duration_total config duration w)
    as (p & e & dur & w1 & Hres & Hw1 & _).
  pose proof Hrun as Hrun0.
  rewrite (block_user_enabled config host bt ctx ident reason duration
             w w1 p e dur Hflag Hres) in Hrun.
  assert (Hstore : store w1 = store w) by (by destruct Hw1 as [-> | ->]).
  destruct (resolved w1 _ _) as [u|] eqn:Hu;
    [| injection Hrun as _ <-; by left].
  cbv zeta in Hrun.
  destruct (loaded (store w1) (AgentCtx.chat_key ctx)) as [d|ex] eqn:Hd;
    [| injection Hrun as _ <-; by left].
  destruct (get_block d (DBUser.unique_id u)) as [existing|] eqn:Hget;
    [injection Hrun as _ <-; by left |].
  clear Hrun.
  assert (Hu0 : resolved w (AgentCtx.adapter_key ctx) ident = Some u)
    by (destruct Hw1 as [-> | ->]; exact Hu).
  rewrite Hstore in Hd.
  destruct (block_path_result config host bt ctx ident reason duration w u d
              Hflag Hu0 Hd Hget)
    as (p' & e' & dur' & w1' & res' & w'' & _ & Hrun' & Hstore' & _).
  rewrite Hrun0 in Hrun'. injection Hrun' as _ <-.
  right. eexists d, _. split_and!; [done | exact Hstore' |].
  apply add_block_keys_unique.
Qed.

Lemma unblock_user_store_step
    (ctx : AgentCtx.t) (ident : string) (w w' : World) (res : Result string) :
  unblock_user host ctx ident w = (res, w') ->
  store_step (AgentCtx.chat_key ctx) w w'.
Proof.
  rewrite unblock_user_run.
  destruct (resolved w _ _) as [u|]; [| intros [= _ <-]; by left].
  cbv zeta.
  destruct (loaded (store w) (AgentCtx.chat_key ctx)) as [d|ex] eqn:Hd;
    [| intros [= _ <-]; by left].
  destruct (get_block d (DBUser.unique_id u)) as [r|]; [| intros [= _ <-]; by left].
  destruct (remove_block_from_system_outcome host (DBUser.unique_id u)
              (block_type r)
              (emit (EvStoreGet (AgentCtx.chat_key ctx))
                 (emit (EvDbQuery (AgentCtx.adapter_key ctx) ident) w)))
    as (ok & w3 & Hremove & Hstore & _).
  rewrite Hremove. destruct ok; [| intros [= _ <-]; by left].
  destruct (remove_block d (DBUser.unique_id u)) as [[d' removed]|ex] eqn:Hrm;
    [| intros [= _ <-]; by left].
  intros [= _ <-]. right. exists d, d'. split_and!; [done | | ].
  - simpl. by rewrite Hstore.
  - intros Hu. by apply (remove_block_keys_unique d (DBUser.unique_id u) d' removed).
Qed.

Lemma list_blocked_users_store_step
    (ctx : AgentCtx.t) (w w' : World) (res : Result string) :
  list_blocked_users ctx w = (res, w') ->
  store_step (AgentCtx.chat_key ctx) w w'.
Proof.
  unfold list_blocked_users.
  unfold bind at 1. rewrite get_block_data_run.
  destruct (loaded (store w) (AgentCtx.chat_key ctx)) as [d|ex] eqn:Hd;
    [| intros [= _ <-]; by left].
  unfold bind at 1, time_now at 1.
  unfold bind at 1, lift at 1.
  destruct (cleanup_expired d _) as [[d1 cleaned]|ex] eqn:Hclean;
    [| intros [= _ <-]; by left].
  unfold bind at 1.
  set (w1 := tick (emit (EvStoreGet (AgentCtx.chat_key ctx)) w)).
  assert (Htail : forall w2 : World,
    store_step (AgentCtx.chat_key ctx) w w2 ->
    (match get_active_blocks d1 (clock (emit (EvStoreGet (AgentCtx.chat_key ctx)) w)
                                   (ticks (emit (EvStoreGet (AgentCtx.chat_key ctx)) w))) with
     | [] => ret "当前没有被屏蔽的用户"
     | _ :: _ =>
         let* entries :=
           mapM (fun p => list_entry p.1 p.2)
             (enumerate 1
                (get_active_blocks d1
                   (clock (emit (EvStoreGet (AgentCtx.chat_key ctx)) w)
                      (ticks (emit (EvStoreGet (AgentCtx.chat_key ctx)) w))))) in
         ret (String.concat NL (("当前已屏蔽的用户：" +:+ NL) :: entries))
     end) w2 = (res, w') ->
    store_step (AgentCtx.chat_key ctx) w w').
  { intros w2 Hstep.
    destruct (get_active_blocks d1 _) as [|item rest].
    - intros [= _ <-]. exact Hstep.
    - destruct (list_entries_ok (enumerate 1 (item :: rest)) w2)
        as (entries & w3 & Hentries & _ & Hs3 & _).
      unfold bind. rewrite Hentries. intros [= _ <-].
      destruct Hstep as [Hs | (d0 & d' & Hl & Hs & Hk)].
      + left. congruence.
      + right. exists d0, d'. split_and!; [done | congruence | done]. }
  destruct (cleaned >? 0).
  - unfold bind at 1. rewrite save_block_data_run. unfold logger.
    apply Htail. right. exists d, d1. split_and!; [done | done |].
    intros Hu. eapply cleanup_expired_keys_unique; [exact Hu | exact Hclean].
  - unfold ret at 1. apply Htail. by left.
Qed.

Lemma inject_blocked_users_prompt_store_step
    (ctx : AgentCtx.t) (w w' : World) (res : Result string) :
  inject_blocked_users_prompt config ctx w = (res, w') ->
  store_step (AgentCtx.chat_key ctx) w w'.
Proof.
  unfold inject_blocked_users_prompt, try_except.
  destruct (SHOW_BLOCKED_USERS_IN_PROMPT config); cbn [negb];
    [| intros [= _ <-]; by left].
  unfold bind at 1. rewrite get_block_data_run.
  destruct (loaded (store w) (AgentCtx.chat_key ctx)) as [d|ex] eqn:Hd;
    [| intros [= _ <-]; by left].
  unfold bind at 1, time_now at 1.
  unfold bind at 1, lift at 1.
  destruct (cleanup_expired d _) as [[d1 cleaned]|ex] eqn:Hclean;
    [| intros [= _ <-]; by left].
  unfold bind at 1. rewrite save_block_data_run.
  unfold bind at 1, time_now at 1.
  assert (Hstep : forall w2, store w2 = store (written (AgentCtx.chat_key ctx) d1
                                                 (tick (emit (EvStoreGet (AgentCtx.chat_key ctx)) w))) ->
                             store_step (AgentCtx.chat_key ctx) w w2).
  { intros w2 Hs. right. exists d, d1. split_and!; [done | by rewrite Hs |].
    intros Hu. eapply cleanup_expired_keys_unique; [exact Hu | exact Hclean]. }
  destruct (get_active_blocks d1 _) as [|item rest].
  - intros [= _ <-]. by apply Hstep.
  - cbv zeta. unfold bind at 1.
    match goal with
    | |- context [mapM prompt_entry ?shown ?w0] =>
        destruct (mapM_prompt_entry_ok shown w0)
          as (entries & w3 & Hentries & _ & Hs3 & _)
    end.
    rewrite Hentries. unfold ret. intros [= _ <-]. by apply Hstep.
Qed.

(** X24. Conversations are isolated. Whatever a handler is given and
    however it ends, a reply or an exception, it leaves the blob of every
    other chat key in the store exactly as it was: the block handlers of
    both types, the unblock handler, the listing and the prompt summary
    write under the chat key of their context only. *)
Theorem handlers_touch_one_conversation
    (ctx : AgentCtx.t) (ident reason : string) (duration : option Z)
    (w w' : World) (res : Result string) :
  (exists bt, block_user bt config host ctx ident reason duration w = (res, w'))
  \/ unblock_user host ctx ident w = (res, w')
  \/ list_blocked_users ctx w = (res, w')
  \/ inject_blocked_users_prompt config ctx w = (res, w') ->
  forall other : string,
    other <> AgentCtx.chat_key ctx -> store w' !! other = store w !! other.
Proof.
  intros Hrun other Hother.
  assert (Hstep : store_step (AgentCtx.chat_key ctx) w w').
  { destruct Hrun as [[bt Hrun] | [Hrun | [Hrun | Hrun]]].
    - by apply (block_user_store_step bt ctx ident reason duration w w' res).
    - by apply (unblock_user_store_step ctx ident w w' res).
    - by apply (list_blocked_users_store_step ctx w w' res).
    - by apply (inject_blocked_users_prompt_store_step ctx w w' res). }
  destruct Hstep as [-> | (d & d' & _ & -> & _)]; [done |].
  by rewrite lookup_insert_ne.
Qed.

(** X25. The handlers keep the store well formed. If every collection in
    the store is a dictionary (one record per user id), then so is every
    collection in the store after a block handler of either type, the
    unblock handler, the listing or the prompt summary, however it ends. *)
Theorem handlers_keep_store_wf
    (ctx : AgentCtx.t) (ident reason : string) (duration : option Z)
    (w w' : World) (res : Result string) :
  store_wf (store w) ->
  (exists bt, block_user bt config host ctx ident reason duration w = (res, w'))
  \/ unblock_user host ctx ident w = (res, w')
  \/ list_blocked_users ctx w = (res, w')
  \/ inject_blocked_users_prompt config ctx w = (res, w') ->
  store_wf (store w').
Proof.
  intros Hwf Hrun.
  assert (Hstep : store_step (AgentCtx.chat_key ctx) w w').
  { destruct Hrun as [[bt Hrun] | [Hrun | [Hrun | Hrun]]].
    - by apply (block_user_store_step bt ctx ident reason duration w w' res).
    - by apply (unblock_user_store_step ctx ident w w' res).
    - by apply (list_blocked_users_store_step ctx w w' res).
    - by apply (inject_blocked_users_prompt_store_step ctx w w' res). }
  destruct Hstep as [-> | (d & d' & Hd & -> & Hkeep)]; [done |].
  intros k d0. destruct (decide (k = AgentCtx.chat_key ctx)) as [->|Hne].
  - rewrite lookup_insert_eq. intros [= <-]. apply Hkeep.
    unfold loaded in Hd.
    destruct (store w !! AgentCtx.chat_key ctx) as [[d1|s]|] eqn:Hlook.
    + simpl in Hd. injection Hd as <-. by apply (Hwf (AgentCtx.chat_key ctx)).
    + simpl in Hd. destruct (negb _); [done |]. injection Hd as <-.
      unfold keys_unique. simpl. apply NoDup_nil_2.
    + injection Hd as <-. unfold keys_unique. simpl. apply NoDup_nil_2.
  - rewrite lookup_insert_ne by done. apply Hwf.
Qed.

End StoreFacts.

(** ** methods.py: the readable duration *)

(** X23. The duration text of a confirmation, for a non-negative number of
    seconds: hours and minutes by floor division with minutes below 60,
    never more than the duration and short of it by less than a minute;
    hours are not folded into days; a whole number of hours omits the
    minutes; a duration under a minute reads as [0] minutes. *)
Theorem duration_desc_breakdown (d : Z) :
  0 <= d ->
  exists hours minutes : Z,
    0 <= hours /\ 0 <= minutes < 60
    /\ hours * 3600 + minutes * 60 <= d < hours * 3600 + minutes * 60 + 60
    /\ duration_desc d
       = (if hours >? 0
          then (if minutes =? 0 then pretty hours +:+ "小时"
                else pretty hours +:+ "小时" +:+ pretty minutes +:+ "分钟")
          else pretty minutes +:+ "分钟").
Proof.
  intros Hd. exists (d / 3600), ((d mod 3600) / 60). split_and!.
  - apply Z.div_pos; lia.
  - apply Z.div_pos; [| lia]. apply Z.mod_pos_bound. lia.
  - apply Z.div_lt_upper_bound; [lia |].
    pose proof (Z.mod_pos_bound d 3600). lia.
  - Z.div_mod_to_equations. lia.
  - Z.div_mod_to_equations. lia.
  - reflexivity.
Qed.

Lemma duration_desc_breakdown_witness :
  duration_desc 59 = "0分钟" /\ duration_desc 7200 = "2小时".
Proof.
  split.
  - destruct (duration_desc_breakdown 59) as (h & m & Hh & Hm & [Hlo Hhi] & ->); [lia |].
    assert (h = 0) as -> by lia. assert (m = 0) as -> by lia. reflexivity.
  - destruct (duration_desc_breakdown 7200) as (h & m & Hh & Hm & [Hlo Hhi] & ->); [lia |].
    assert (h = 2) as -> by lia. assert (m = 0) as -> by lia. reflexivity.
Defined.

(** ** The further properties at sample inputs *)

Lemma add_block_then_get_witness :
  get_block (add_block Sample.data (Sample.record "b" FULL_BLOCK None true)) "e"
  = get_block Sample.data "e"
  /\ len (blocks (add_block Sample.data (Sample.record "b" FULL_BLOCK None true))) = 5
  /\ PyDict.keys
       (blocks (add_block Sample.data (Sample.record "b" FULL_BLOCK None true)))
     = ["a"; "b"; "c"; "d"; "e"]
  /\ blocks (add_block Sample.data (Sample.record "z" FULL_BLOCK None true))
     = blocks Sample.data ++ [("z", Sample.record "z" FULL_BLOCK None true)].
Proof.
  destruct (add_block_then_get Sample.data (Sample.record "b" FULL_BLOCK None true))
    as (_ & Hother & Hlen & Hkeys & _).
  destruct (add_block_then_get Sample.data (Sample.record "z" FULL_BLOCK None true))
    as (_ & _ & _ & _ & Hlast & _).
  split_and!.
  - apply Hother; discriminate.
  - rewrite Hlen; reflexivity.
  - rewrite Hkeys; reflexivity.
  - apply Hlast. reflexivity.
Defined.

Lemma save_then_load_witness :
  (get_block_data "chat2"
     (save_block_data "chat1" BlockData_empty (Sample.world Scenario.two_chats)).2).1
  = Ok (Sample.alice_blocked FULL_BLOCK).
Proof.
  destruct (save_then_load "chat1" BlockData_empty (Sample.world Scenario.two_chats))
    as (_ & Hother & _).
  rewrite Hother by discriminate. reflexivity.
Defined.

Lemma handlers_exit_early_witness :
  block_user FULL_BLOCK Scenario.disabled Sample.reliable Sample.ctx
    "1001" "spam" None (Sample.world ∅)
  = (Ok (disabled_message FULL_BLOCK), Sample.world ∅)
  /\ unblock_user Sample.reliable Sample.ctx "9999" (Sample.world ∅)
     = (Ok (not_found_message "9999"),
        emit (EvDbQuery "qq" "9999") (Sample.world ∅)).
Proof.
  split.
  - destruct (handlers_exit_early Scenario.disabled Sample.reliable Sample.ctx
                "1001" "spam" None (Sample.world ∅)) as [Hoff _].
    apply Hoff. reflexivity.
  - destruct (handlers_exit_early Sample.capped Sample.reliable Sample.ctx
                "9999" "spam" None (Sample.world ∅)) as [_ Hnone].
    destruct Hnone as [_ Hunblock]; [reflexivity | exact Hunblock].
Defined.

Lemma handlers_raise_only_on_corrupt_blob_witness :
  exists s : string,
    (block_user FULL_BLOCK Sample.capped Sample.reliable Sample.ctx
       "1001" "spam" None (Sample.world Scenario.corrupt)).1
    = Raise (ValidationError s)
    /\ s <> "".
Proof.
  destruct (handlers_raise_only_on_corrupt_blob Sample.capped Sample.reliable
              Sample.ctx "1001" "spam" None (Sample.world Scenario.corrupt)
              (Raise (ValidationError "not a collection")) _
              (or_introl (ex_intro _ FULL_BLOCK eq_refl)))
    as [[msg Hmsg] | (s & Hs & Hne & _)]; [discriminate |].
  exists s. split; [| exact Hne].
  injection Hs as <-. reflexivity.
Defined.

Lemma block_confirmation_witness :
  exists (w4 : World),
    users w4 = [with_field FULL_BLOCK Sample.alice (Some 87400)]
    /\ block_user FULL_BLOCK Sample.capped Sample.reliable Sample.ctx
         "1001" "spam" (Some 999999) (Sample.world ∅)
       = (Ok (blocked_message FULL_BLOCK Sample.alice
                (duration_desc 999999) "spam"),
          emit (EvLog INFO (blocked_log FULL_BLOCK Sample.ctx Sample.alice "spam"
                              (duration_desc 999999 +:+ "(" +:+ pretty 999999
                               +:+ "秒)"))) w4).
Proof.
  destruct (block_confirmation Sample.capped Sample.reliable FULL_BLOCK Sample.ctx
              "1001" "spam" (Some 999999) (Sample.world ∅)
              Sample.alice BlockData_empty)
    as (p & e & dur & w1 & ok & w4 & Hres & _ & Happly & Hconfirm);
    [reflexivity | reflexivity | reflexivity | reflexivity |].
  assert (Hres' : resolve_duration Sample.capped (Some 999999) (Sample.world ∅)
                  = (Ok (false, Some 87400, Some 999999), tick (Sample.world ∅)))
    by reflexivity.
  rewrite Hres' in Hres. injection Hres as <- <- <- <-.
  assert (Heval : apply_block_to_system Sample.reliable
                    (DBUser.unique_id Sample.alice) FULL_BLOCK (Some 87400)
                    (after_save Sample.ctx "1001"
                       (add_block BlockData_empty
                          (new_record Sample.alice FULL_BLOCK "spam"
                             (clock (tick (Sample.world ∅))
                                (ticks (tick (Sample.world ∅))))
                             (Some 87400) false))
                       (tick (Sample.world ∅)))
                  = (Ok true,
                     emit (EvDbSave (with_field FULL_BLOCK Sample.alice (Some 87400)))
                       (with_users [with_field FULL_BLOCK Sample.alice (Some 87400)]
                          (emit (EvDbQuery "qq" "1001")
                             (after_save Sample.ctx "1001"
                                (add_block BlockData_empty
                                   (new_record Sample.alice FULL_BLOCK "spam"
                                      (clock (tick (Sample.world ∅))
                                         (ticks (tick (Sample.world ∅))))
                                      (Some 87400) false))
                                (tick (Sample.world ∅)))))))
    by reflexivity.
  rewrite Heval in Happly. injection Happly as <- <-.
  destruct (Hconfirm eq_refl) as (desc & logdesc & Hrun & _ & Hexplicit & _).
  destruct (Hexplicit 999999 eq_refl) as (_ & -> & ->); [lia |].
  eexists. split; [| exact Hrun]. reflexivity.
Defined.

Lemma stored_expiry_bounds_witness :
  exists (r : BlockRecord) (res : Result string) (w' : World),
    block_user PREVENT_TRIGGER Sample.capped Sample.reliable Sample.ctx
      "1001" "spam" (Some 999999) (Sample.world ∅) = (res, w')
    /\ loaded (store w') "chat1" = Ok (add_block BlockData_empty r)
    /\ (is_permanent r = false ->
        exists e : Z, expire_time r = Some e /\ 1000 <= e <= 1000 + 86400).
Proof.
  destruct (stored_expiry_bounds Sample.capped Sample.reliable PREVENT_TRIGGER
              Sample.ctx "1001" "spam" (Some 999999) (Sample.world ∅)
              Sample.alice BlockData_empty)
    as (r & res & w' & Hrun & Hloaded & _ & Hbounds);
    [unfold config_valid; simpl; lia
    | reflexivity | reflexivity | reflexivity | reflexivity |].
  exists r, res, w'. split_and!; [exact Hrun | exact Hloaded |].
  intros Hp. destruct (Hbounds Hp) as (e & He & Hlo & Hhi).
  exists e. split; [exact He |]. split; [exact Hlo |]. apply Hhi. simpl. lia.
Defined.

Lemma sample_directory_keyed : directory_keyed (users (Sample.world ∅)).
Proof. unfold directory_keyed. apply (bool_decide_unpack _). vm_compute. exact I. Defined.

Lemma system_effects_keep_identities_witness :
  Forall2 same_identity [Sample.alice]
    (users (apply_block_to_system Sample.reliable "qq:1001" FULL_BLOCK (Some 5000)
              (Sample.world ∅)).2).
Proof.
  destruct (system_effects_keep_identities Sample.reliable "qq:1001" FULL_BLOCK
              (Some 5000) (Sample.world ∅) _ true sample_directory_keyed
              (or_introl eq_refl)) as [Hids _].
  exact Hids.
Defined.

Lemma second_block_is_refused_witness :
  exists (msg : string) (w1 : World) (r : BlockRecord) (w2 : World),
    block_user FULL_BLOCK Sample.capped Sample.read_only Sample.ctx
      "1001" "spam" (Some 60) (Sample.world ∅) = (Ok msg, w1)
    /\ block_type r = FULL_BLOCK
    /\ block_user PREVENT_TRIGGER Sample.capped Sample.read_only Sample.ctx
         "1001" "again" None w1
       = (Ok (already_blocked_message Sample.alice r), w2)
    /\ store w2 = store w1
    /\ users w2 = users w1.
Proof.
  destruct (second_block_is_refused Sample.capped Sample.read_only
              FULL_BLOCK Sample.ctx "1001" "spam" (Some 60) (Sample.world ∅)
              Sample.alice BlockData_empty)
    as (msg & w1 & r & Hrun & Htype & _ & Hnext);
    [reflexivity | exact sample_directory_keyed
    | reflexivity | reflexivity | reflexivity |].
  destruct (Hnext PREVENT_TRIGGER "again" None)
    as (reply & w2 & Hrun2 & Hstore & Husers & Hon & _).
  rewrite (Hon eq_refl) in Hrun2.
  exists msg, w1, r, w2. split_and!; assumption.
Defined.

Lemma unblock_undoes_block_witness :
  exists (msg : string) (w1 : World) (r : BlockRecord) (msg2 : string) (w2 : World),
    block_user FULL_BLOCK Sample.capped Sample.reliable Sample.ctx
      "1001" "spam" (Some 60) (Sample.world ∅) = (Ok msg, w1)
    /\ loaded (store w1) "chat1" = Ok (add_block BlockData_empty r)
    /\ unblock_user Sample.reliable Sample.ctx "1001" w1 = (Ok msg2, w2)
    /\ ((msg2 = unblocked_message Sample.alice
         /\ loaded (store w2) "chat1" = Ok BlockData_empty)
        \/ (msg2 = unblock_failed_message Sample.alice
            /\ loaded (store w2) "chat1" = Ok (add_block BlockData_empty r)
            /\ users w2 = users w1)).
Proof.
  apply (unblock_undoes_block Sample.capped Sample.reliable FULL_BLOCK Sample.ctx
           "1001" "spam" (Some 60) (Sample.world ∅) Sample.alice BlockData_empty);
    [reflexivity | exact sample_directory_keyed
    | reflexivity | reflexivity | reflexivity].
Defined.

Lemma block_takes_effect_witness :
  exists (r : BlockRecord) (desc : string) (w' : World) (value : option datetime),
    block_user FULL_BLOCK Sample.capped Sample.reliable Sample.ctx
      "1001" "spam" (Some 60) (Sample.world ∅)
    = (Ok (blocked_message FULL_BLOCK Sample.alice desc "spam"), w')
    /\ loaded (store w') "chat1" = Ok (add_block BlockData_empty r)
    /\ resolved w' "qq" "1001" = Some (with_field FULL_BLOCK Sample.alice value)
    /\ (forall t, expire_time r = Some t -> t <> 0 ->
        exists dt, fromtimestamp Sample.reliable t = Ok dt /\ value = Some dt).
Proof.
  destruct (block_takes_effect Sample.capped Sample.reliable FULL_BLOCK Sample.ctx
              "1001" "spam" (Some 60) (Sample.world ∅) Sample.alice BlockData_empty)
    as (r & desc & w' & value & Hrun & Hloaded & _ & _ & Hresolved & _ & Hvalue).
  - reflexivity.
  - exact sample_directory_keyed.
  - reflexivity.
  - split; reflexivity.
  - reflexivity.
  - reflexivity.
  - intros value. reflexivity.
  - intros p dur w1 t _. by exists t.
  - exists r, desc, w', value. by split_and!.
Defined.


Lemma prompt_summary_is_best_effort_witness :
  exists w' : World,
    inject_blocked_users_prompt Sample.capped Sample.ctx
      (Sample.world Scenario.corrupt) = (Ok "", w')
    /\ store w' = Scenario.corrupt.
Proof.
  destruct (prompt_summary_is_best_effort Sample.capped Sample.ctx
              (Sample.world Scenario.corrupt))
    as (reply & w' & Hrun & _ & _ & Hcorrupt & _).
  destruct (Hcorrupt eq_refl (ValidationError "not a collection") eq_refl)
    as (-> & Hstore & _).
  exists w'. by split.
Defined.

Lemma handlers_touch_one_conversation_witness :
  store (unblock_user Sample.reliable Sample.ctx "1001"
           (Sample.world Scenario.two_chats)).2 !! "chat2"
  = Some (Json (Sample.alice_blocked FULL_BLOCK)).
Proof.
  rewrite (handlers_touch_one_conversation Sample.capped Sample.reliable
             Sample.ctx "1001" "" None (Sample.world Scenario.two_chats) _ _
             (or_intror (or_introl (surjective_pairing _)))) by discriminate.
  reflexivity.
Defined.

Lemma handlers_keep_store_wf_witness :
  store_wf (store (block_user FULL_BLOCK Sample.capped Sample.reliable Sample.ctx
                     "1001" "spam" None (Sample.world ∅)).2).
Proof.
  apply (handlers_keep_store_wf Sample.capped Sample.reliable Sample.ctx
           "1001" "spam" None (Sample.world ∅) _
           (block_user FULL_BLOCK Sample.capped Sample.reliable Sample.ctx
              "1001" "spam" None (Sample.world ∅)).1).
  - intros k d. change (store (Sample.world ∅)) with (∅ : gmap string Blob).
    rewrite lookup_empty. discriminate.
  - left. exists FULL_BLOCK. apply surjective_pairing.
Defined.
